(** * ButtplugST: the DeviceManager of [buttplug_st/core/device.py]

    A shallow embedding of the device manager, of the exception classes of
    [buttplug_st/core/exceptions.py] and of the settings the manager reads,
    followed by the properties of the connection backoff, the device
    selection, the command dispatch and the shutdown path.

    The external protocol client (the [buttplug] package) is not part of the
    repository.  Every call the manager issues to it is recorded as an
    [event] in a trace, and what the call answers is an input of the
    operation (a "world" record), so each operation is a total, executable
    function of the manager state, its arguments and the world's answers.
    Python floats are IEEE binary64 numbers: [PrimFloat.float].

    The container the manager keeps in [_devices] is, after a scan, the
    client's own [devices] object: a mapping from the index the protocol
    assigns to a device to that device, which the client changes when a
    device comes or goes.  It is modelled as the list of its values in
    insertion order, each under its [dev_index]; see [py_getitem],
    [py_keys] and [devices_changed]. *)

From Stdlib Require Import ZArith List String Bool Lia Floats DecimalString.
Import ListNotations.

(* Decimal literals such as 0.2 denote the nearest binary64 float, as they
   do in Python. *)
#[local] Set Warnings "-inexact-float".

Local Open Scope Z_scope.
Local Open Scope string_scope.

(* ================================================================== *)
(** ** Python values used by the manager *)

(** A Python number as the manager passes it around: the scan window is an
    [int] setting, the stop command sends the [int] 0, speeds are floats. *)
Inductive pynum :=
| PyInt (z : Z)
| PyFloat (f : float).

(** [str(i)] of a Python [int]. *)
Definition str_int (i : Z) : string := NilZero.string_of_int (Z.to_int i).

(** Truthiness of a [str]: the empty string is falsy. *)
Definition truthy_str (s : string) : bool :=
  match s with EmptyString => false | _ => true end.

(** Truthiness of a [list]: the empty list is falsy. *)
Definition truthy_list {A} (l : list A) : bool :=
  match l with [] => false | _ :: _ => true end.

(** [min(a, b)] and [max(a, b)] of the Python builtins on two floats: the
    first argument is kept unless the second compares strictly below
    (above) it. *)
Definition py_min (a b : float) : float := if (b <? a)%float then b else a.
Definition py_max (a b : float) : float := if (a <? b)%float then b else a.

(** [max(0.0, min(1.0, x))], the clamp of [vibrate]. *)
Definition clamp01 (x : float) : float := py_max 0%float (py_min 1%float x).

(** [range(n)] as a list of Python ints. *)
Definition py_range (n : nat) : list Z := map Z.of_nat (seq 0 n).

(* ================================================================== *)
(** ** exceptions.py *)

(** The classes of [exceptions.py]; [ButtplugSTException] is the base. *)
Inductive exn_class :=
| ButtplugSTException
| DeviceNotFoundError
| DeviceConnectionError
| IntifaceConnectionError
| CommandError
| ValidationError.

(** Class attributes [status_code], [code] and [detail]. *)
Definition class_status_code (c : exn_class) : Z :=
  match c with
  | ButtplugSTException => 500
  | DeviceNotFoundError => 404
  | DeviceConnectionError => 502
  | IntifaceConnectionError => 502
  | CommandError => 500
  | ValidationError => 400
  end.

Definition class_code (c : exn_class) : string :=
  match c with
  | ButtplugSTException => "internal_error"
  | DeviceNotFoundError => "device_not_found"
  | DeviceConnectionError => "device_connection_error"
  | IntifaceConnectionError => "intiface_connection_error"
  | CommandError => "command_error"
  | ValidationError => "validation_error"
  end.

Definition class_detail (c : exn_class) : string :=
  match c with
  | ButtplugSTException => "An internal error occurred"
  | DeviceNotFoundError => "No device found or connected"
  | DeviceConnectionError => "Failed to connect to device"
  | IntifaceConnectionError => "Failed to connect to Intiface WebSocket server"
  | CommandError => "Failed to execute device command"
  | ValidationError => "Invalid request parameters"
  end.

(** An instance of one of the classes. *)
Record app_exn := {
  cls : exn_class;
  detail : string;
  code : string;
  status_code : Z }.

(** [ButtplugSTException.__init__]: each argument overrides the class
    attribute only when it is truthy. *)
Definition new_exn (c : exn_class) (detail0 : option string)
    (code0 : option string) (status_code0 : option Z) : app_exn :=
  {| cls := c;
     detail := match detail0 with
               | Some d => if truthy_str d then d else class_detail c
               | None => class_detail c
               end;
     code := match code0 with
             | Some k => if truthy_str k then k else class_code c
             | None => class_code c
             end;
     status_code := match status_code0 with
                    | Some s => if Z.eqb s 0 then class_status_code c else s
                    | None => class_status_code c
                    end |}.

(** [Cls(msg)] and [Cls()], the two forms the manager uses. *)
Definition exn_msg (c : exn_class) (msg : string) : app_exn :=
  new_exn c (Some msg) None None.
Definition exn_default (c : exn_class) : app_exn :=
  new_exn c None None None.

(** [to_dict]: the body of an error response, in key order. *)
Inductive pyval :=
| VBool (b : bool)
| VStr (s : string)
| VInt (z : Z)
| VFloat (f : float).

Definition pydict := list (string * pyval).

Definition to_dict (e : app_exn) : pydict :=
  [("error", VStr (code e)); ("detail", VStr (detail e));
   ("status_code", VInt (status_code e))].

(** The status/code pair of a failure, as [handle_errors] of [routes.py]
    sends it: [e.status_code] and the ["error"] entry of [to_dict]. *)
Definition status_code_pair (e : app_exn) : Z * string :=
  (status_code e, code e).

(** Everything that can be raised in the manager: the application's own
    exceptions, those of the external client, the [KeyError] of a lookup
    in the device mapping, and any other exception, such as the
    [AttributeError] of an attribute a value does not have. *)
Inductive exn :=
| App (e : app_exn)
| ConnectorError (msg : string)
| TypeError (msg : string)
| KeyError (key : Z)
| OtherError (msg : string).

(** [str(e)]; the text of [KeyError(k)] is the key. *)
Definition str_exn (e : exn) : string :=
  match e with
  | App a => detail a
  | ConnectorError m | TypeError m | OtherError m => m
  | KeyError k => str_int k
  end.

(* ================================================================== *)
(** ** The external client, as the manager sees it *)

Record Actuator := {
  act_class : string;   (* type(actuator).__name__ *)
  act_index : Z }.

Record Device := {
  dev_index : Z;        (* device.index, assigned by the protocol *)
  dev_name : string;    (* device.name *)
  actuators : list Actuator }.

(** [client.devices], a [dict] from protocol index to device: its values
    in insertion order, each one under the key [dev_index]. *)
Definition device_map := list Device.

Record Client := {
  client_name : string;
  connected : bool;
  devices : device_map }.

(** What an awaited call of the external client does. *)
Inductive outcome :=
| Returns
| Raises (e : exn).

(** The calls issued to the outside, in the order they are issued. *)
Inductive event :=
| NewClient (name : string)
| Connect (url : string)
| StartScanning
| StopScanning
| Sleep (seconds : pynum)
| Command (a : Actuator) (intensity : pynum) (position : option float)
| CreateTask (a : Actuator) (duration : float)
| DeviceStop (d : Device)
| Disconnect.

(* ================================================================== *)
(** ** config.py, as far as the manager reads it *)

Record Websocket := {
  url : string;
  scan_timeout : Z }.

Record Settings := {
  websocket : Websocket }.

Definition default_settings : Settings :=
  {| websocket := {| url := "ws://127.0.0.1:12345"; scan_timeout := 2 |} |}.

(* ================================================================== *)
(** ** device.py: data *)

Record DeviceInfo := {
  id : Z;
  name : string;
  index : Z;
  actuator_count : Z;
  actuator_types : list string }.

Record DeviceManager := {
  settings : Settings;
  _client : option Client;
  _devices : device_map;
  _active_device_index : Z;
  _initialized : bool;
  _last_connection_attempt : float;
  _connection_retry_delay : float }.

(** [DeviceManager.__init__]. *)
Definition __init__ (s : Settings) : DeviceManager :=
  {| settings := s;
     _client := None;
     _devices := [];
     _active_device_index := 0;
     _initialized := false;
     _last_connection_attempt := 0%float;
     _connection_retry_delay := 5%float |}.

(** Attribute assignments [self.x = v]. *)
Definition set_client (c : option Client) (m : DeviceManager) : DeviceManager :=
  {| settings := settings m; _client := c; _devices := _devices m;
     _active_device_index := _active_device_index m;
     _initialized := _initialized m;
     _last_connection_attempt := _last_connection_attempt m;
     _connection_retry_delay := _connection_retry_delay m |}.

Definition set_devices (l : device_map) (m : DeviceManager) : DeviceManager :=
  {| settings := settings m; _client := _client m; _devices := l;
     _active_device_index := _active_device_index m;
     _initialized := _initialized m;
     _last_connection_attempt := _last_connection_attempt m;
     _connection_retry_delay := _connection_retry_delay m |}.

Definition set_active_device_index (i : Z) (m : DeviceManager) : DeviceManager :=
  {| settings := settings m; _client := _client m; _devices := _devices m;
     _active_device_index := i;
     _initialized := _initialized m;
     _last_connection_attempt := _last_connection_attempt m;
     _connection_retry_delay := _connection_retry_delay m |}.

Definition set_initialized (b : bool) (m : DeviceManager) : DeviceManager :=
  {| settings := settings m; _client := _client m; _devices := _devices m;
     _active_device_index := _active_device_index m;
     _initialized := b;
     _last_connection_attempt := _last_connection_attempt m;
     _connection_retry_delay := _connection_retry_delay m |}.

Definition set_last_connection_attempt (t : float) (m : DeviceManager) : DeviceManager :=
  {| settings := settings m; _client := _client m; _devices := _devices m;
     _active_device_index := _active_device_index m;
     _initialized := _initialized m;
     _last_connection_attempt := t;
     _connection_retry_delay := _connection_retry_delay m |}.

(* ================================================================== *)
(** ** A monad for the methods: manager state, exceptions, trace *)

Inductive result (A : Type) :=
| Ok (a : A)
| Raise (e : exn).
Arguments Ok {A} a.
Arguments Raise {A} e.

(** One run of a method: what it returned or raised, the manager it left
    behind and the external calls it issued. *)
Record Run (A : Type) := {
  res : result A;
  final : DeviceManager;
  trace : list event }.
Arguments res {A} r.
Arguments final {A} r.
Arguments trace {A} r.

Definition M (A : Type) : Type := DeviceManager -> Run A.

Definition ret {A} (a : A) : M A :=
  fun m => {| res := Ok a; final := m; trace := [] |}.

Definition raise {A} (e : exn) : M A :=
  fun m => {| res := Raise e; final := m; trace := [] |}.

Definition bind {A B} (c : M A) (k : A -> M B) : M B :=
  fun m =>
    let r := c m in
    match res r with
    | Ok a =>
        let r' := k a (final r) in
        {| res := res r'; final := final r'; trace := trace r ++ trace r' |}
    | Raise e => {| res := Raise e; final := final r; trace := trace r |}
    end.

(** [try: c  except Exception as e: h e]. *)
Definition try_except {A} (c : M A) (h : exn -> M A) : M A :=
  fun m =>
    let r := c m in
    match res r with
    | Ok _ => r
    | Raise e =>
        let r' := h e (final r) in
        {| res := res r'; final := final r'; trace := trace r ++ trace r' |}
    end.

Definition get : M DeviceManager :=
  fun m => {| res := Ok m; final := m; trace := [] |}.

Definition modify (f : DeviceManager -> DeviceManager) : M unit :=
  fun m => {| res := Ok tt; final := f m; trace := [] |}.

Definition emit (ev : event) : M unit :=
  fun m => {| res := Ok tt; final := m; trace := [ev] |}.

Definition lift {A} (r : result A) : M A :=
  match r with
  | Ok a => ret a
  | Raise e => raise e
  end.

Declare Scope m_scope.
Delimit Scope m_scope with M.
Notation "x <- c ;; k" := (bind c (fun x => k))
  (at level 61, c at next level, right associativity) : m_scope.
Notation "c ;; k" := (bind c (fun _ => k))
  (at level 61, right associativity) : m_scope.
Local Open Scope m_scope.

(** An awaited call of the external client: it is issued, then returns or
    raises. *)
Definition await (ev : event) (o : outcome) : M unit :=
  emit ev ;;
  match o with
  | Returns => ret tt
  | Raises e => raise e
  end.

(** [for x in l: ...] collecting results, as a list comprehension does. *)
Fixpoint mapM {A B} (f : A -> M B) (l : list A) : M (list B) :=
  match l with
  | [] => ret []
  | a :: l' => b <- f a ;; bs <- mapM f l' ;; ret (b :: bs)
  end.

(** [l.get(i)] on the device mapping: the device under key [i]. *)
Definition device_at (l : device_map) (i : Z) : option Device :=
  find (fun d => Z.eqb (dev_index d) i) l.

(** [l[i]] on the device mapping: a key the mapping does not have raises
    [KeyError].  The manager also keeps a list of its own in [_devices],
    the empty list of [__init__], [initialize] and [shutdown]; the code
    never indexes an empty container, and truthiness, [len] and iteration
    do not tell an empty list from an empty mapping, so [[]] stands for
    both. *)
Definition py_getitem (l : device_map) (i : Z) : result Device :=
  match device_at l i with
  | Some d => Ok d
  | None => Raise (KeyError i)
  end.

(** [for k in l] on the device mapping: iteration yields the keys. *)
Definition py_keys (l : device_map) : list Z := map dev_index l.

(** [k.attr] on a Python [int] [k], for an attribute an [int] does not
    have: an [AttributeError]. *)
Definition int_attribute (k : Z) (attr : string) : M unit :=
  raise (OtherError ("'int' object has no attribute '" ++ attr ++ "'")).

(* ================================================================== *)
(** ** device.py: properties and projections *)

(** [active_device]. *)
Definition active_device : M (option Device) :=
  m <- get ;;
  match _devices m with
  | [] => ret None
  | _ :: _ =>
      d <- lift (py_getitem (_devices m) (_active_device_index m)) ;;
      ret (Some d)
  end.

(** [is_connected]. *)
Definition is_connected (m : DeviceManager) : bool :=
  match _client m with
  | Some c => connected c
  | None => false
  end.

(** [has_devices]. *)
Definition has_devices (m : DeviceManager) : bool :=
  (0 <? Z.of_nat (List.length (_devices m)))%Z.

(** [_get_device_info]. *)
Definition _get_device_info (index0 : Z) : M DeviceInfo :=
  m <- get ;;
  if ((index0 <? 0)%Z || (Z.of_nat (List.length (_devices m)) <=? index0)%Z)%bool
  then raise (App (exn_msg DeviceNotFoundError
                     ("Device index " ++ str_int index0 ++ " out of range")))
  else
    device <- lift (py_getitem (_devices m) index0) ;;
    let actuator_types0 := map act_class (actuators device) in
    ret {| id := dev_index device;
           name := dev_name device;
           index := index0;
           actuator_count := Z.of_nat (List.length (actuators device));
           actuator_types := actuator_types0 |}.

(** [get_all_devices]. *)
Definition get_all_devices : M (list DeviceInfo) :=
  m <- get ;;
  mapM _get_device_info (py_range (List.length (_devices m))).

(** [get_active_device]. *)
Definition get_active_device : M (option DeviceInfo) :=
  m <- get ;;
  match _devices m with
  | [] => ret None
  | _ :: _ =>
      i <- _get_device_info (_active_device_index m) ;;
      ret (Some i)
  end.

(** [set_active_device]. *)
Definition set_active_device (index0 : Z) : M DeviceInfo :=
  m <- get ;;
  if ((index0 <? 0)%Z || (Z.of_nat (List.length (_devices m)) <=? index0)%Z)%bool
  then raise (App (exn_msg DeviceNotFoundError
                     ("Device index " ++ str_int index0 ++ " out of range")))
  else
    modify (set_active_device_index index0) ;;
    _get_device_info index0.

(* ================================================================== *)
(** ** device.py: operations that talk to the external client *)

(** What the external client answers during one [scan_devices]: the two
    scanning calls, and the mapping [self._client.devices] holds when it
    is read after the scan window. *)
Record ScanWorld := {
  start_scanning_result : outcome;
  stop_scanning_result : outcome;
  reported : device_map }.

(** The client's own device mapping after the scan window. *)
Definition client_sees (l : device_map) (m : DeviceManager) : DeviceManager :=
  match _client m with
  | Some c =>
      set_client (Some {| client_name := client_name c;
                          connected := connected c;
                          devices := l |}) m
  | None => m
  end.

(** [scan_devices]. *)
Definition scan_devices (w : ScanWorld) : M (list DeviceInfo) :=
  m <- get ;;
  match _client m with
  | None =>
      raise (App (exn_msg IntifaceConnectionError "Client not initialized"))
  | Some c =>
      if negb (connected c)
      then raise (App (exn_msg IntifaceConnectionError
                         "Not connected to Intiface"))
      else
        try_except
          (await StartScanning (start_scanning_result w) ;;
           emit (Sleep (PyInt (scan_timeout (websocket (settings m))))) ;;
           await StopScanning (stop_scanning_result w) ;;
           modify (client_sees (reported w)) ;;
           modify (set_devices (reported w)) ;;
           m1 <- get ;;
           match _devices m1 with
           | [] => ret []
           | _ :: _ =>
               modify (set_active_device_index 0) ;;
               m2 <- get ;;
               mapM _get_device_info (py_range (List.length (_devices m2)))
           end)
          (fun e =>
             raise (App (exn_msg DeviceConnectionError
                           ("Error scanning for devices: " ++ str_exn e))))
  end.

(** The manager once a scan has read the mapping [l] the client holds:
    the index is reset unless the mapping is empty. *)
Definition scanned (l : device_map) (m : DeviceManager) : DeviceManager :=
  match l with
  | [] => set_devices [] (client_sees [] m)
  | _ :: _ => set_active_device_index 0 (set_devices l (client_sees l m))
  end.

(** What the external client answers during one [initialize]. *)
Record InitWorld := {
  connect_result : outcome;
  scan_world : ScanWorld }.

(** A client whose [connect] returned is connected. *)
Definition mark_connected (m : DeviceManager) : DeviceManager :=
  match _client m with
  | Some c =>
      set_client (Some {| client_name := client_name c;
                          connected := true;
                          devices := devices c |}) m
  | None => m
  end.

(** [ButtplugClient("ButtplugST")]: a fresh client, not yet connected. *)
Definition fresh_client : Client :=
  {| client_name := "ButtplugST"; connected := false; devices := [] |}.

(** The backoff guard of [initialize]. *)
Definition too_recent (current_time : float) (m : DeviceManager) : bool :=
  ((0 <? _last_connection_attempt m)%float
   && (current_time - _last_connection_attempt m
       <? _connection_retry_delay m)%float)%bool.

Definition rate_limit_message : string :=
  "Connection attempt too recent, please wait a moment".

(** [initialize]; [now] is what [time.time()] returns. *)
Definition initialize (now : float) (w : InitWorld) : M unit :=
  m <- get ;;
  if (_initialized m && is_connected m)%bool then ret tt
  else
    let current_time := now in
    if too_recent current_time m
    then raise (App (exn_msg IntifaceConnectionError rate_limit_message))
    else
      modify (set_last_connection_attempt current_time) ;;
      match _client m with
      | Some c =>
          if negb (connected c)
          then modify (set_client None) ;;
               modify (set_devices []) ;;
               modify (set_initialized false)
          else ret tt
      | None => ret tt
      end ;;
      try_except
        (emit (NewClient "ButtplugST") ;;
         modify (set_client (Some fresh_client)) ;;
         await (Connect (url (websocket (settings m)))) (connect_result w) ;;
         modify mark_connected ;;
         scan_devices (scan_world w) ;;
         modify (set_initialized true))
        (fun e =>
           match e with
           | ConnectorError _ =>
               raise (App (exn_msg IntifaceConnectionError
                             ("Failed to connect to Intiface: " ++ str_exn e)))
           | _ =>
               raise (App (exn_msg DeviceConnectionError
                             ("Initialization error: " ++ str_exn e)))
           end).

(** What the actuator answers during one [vibrate]: the first command
    sent, and the speed-only command sent again after a [TypeError]. *)
Record VibrateWorld := {
  first_command : outcome;
  fallback_command : outcome }.

(** The result record of [vibrate], a dict in insertion order. *)
Definition vibrate_result (device : Device) (speed : float)
    (position : option float) (duration : float) : pydict :=
  ([("success", VBool true); ("device", VStr (dev_name device));
    ("speed", VFloat speed)]
   ++ match position with
      | Some p => [("position", VFloat p)]
      | None => []
      end
   ++ (if (0 <? duration)%float then [("duration", VFloat duration)] else []))%list.

(** [vibrate]. *)
Definition vibrate (speed : float) (position : option float)
    (duration : float) (w : VibrateWorld) : M pydict :=
  device <- active_device ;;
  match device with
  | None => raise (App (exn_default DeviceNotFoundError))
  | Some device =>
      match actuators device with
      | [] => raise (App (exn_default DeviceNotFoundError))
      | actuator :: _ =>
          try_except
            (let speed := clamp01 speed in
             let position := option_map clamp01 position in
             try_except
               (await (Command actuator (PyFloat speed) position)
                  (first_command w))
               (fun e =>
                  match e with
                  | TypeError _ =>
                      await (Command actuator (PyFloat speed) None)
                        (fallback_command w)
                  | _ => raise e
                  end) ;;
             (if (0 <? duration)%float
              then emit (CreateTask actuator duration)
              else ret tt) ;;
             ret (vibrate_result device speed position duration))
            (fun e =>
               raise (App (exn_msg CommandError
                             ("Error sending vibrate command: " ++ str_exn e))))
      end
  end.

(** [_stop_after_delay], the body of the task [vibrate] creates; [w] is
    what the actuator answers to the zero command. *)
Definition _stop_after_delay (actuator : Actuator) (duration : float)
    (w : outcome) : M unit :=
  emit (Sleep (PyFloat duration)) ;;
  try_except
    (await (Command actuator (PyInt 0) None) w)
    (fun _ => ret tt).

(** [stop]; [w] is what [device.stop()] answers. *)
Definition stop (w : outcome) : M pydict :=
  device <- active_device ;;
  match device with
  | None => raise (App (exn_default DeviceNotFoundError))
  | Some device =>
      try_except
        (await (DeviceStop device) w ;;
         ret [("success", VBool true); ("device", VStr (dev_name device));
              ("status", VStr "stopped")])
        (fun e =>
           raise (App (exn_msg CommandError
                         ("Error stopping device: " ++ str_exn e))))
  end.

(** What the external client answers during one [shutdown]: the
    disconnect.  No other call is awaited: see [stop_each]. *)
Record ShutdownWorld := {
  disconnect_result : outcome }.

(** The loop [for device in self._devices] of [shutdown] over the keys
    still to come.  [device] is a key of the mapping, a Python [int]:
    [device.stop()] raises, and the handler of the loop body, which
    formats [device.name] for the log, raises in turn, out of the loop. *)
Fixpoint stop_each (keys : list Z) : M unit :=
  match keys with
  | [] => ret tt
  | device :: keys' =>
      try_except (int_attribute device "stop")
        (fun e => int_attribute device "name") ;;
      stop_each keys'
  end.

(** [shutdown]. *)
Definition shutdown (w : ShutdownWorld) : M unit :=
  m <- get ;;
  (if (is_connected m && truthy_list (_devices m))%bool
   then try_except (stop_each (py_keys (_devices m))) (fun _ => ret tt)
   else ret tt) ;;
  (if is_connected m
   then try_except (await Disconnect (disconnect_result w)) (fun _ => ret tt)
   else ret tt) ;;
  modify (set_client None) ;;
  modify (set_devices []) ;;
  modify (set_initialized false).

(* ================================================================== *)
(** ** The manager as a transition system *)

(** One call of an operation of the manager (its methods, the
    [active_device] property and the stop task), with any arguments and
    any answers of the external client. *)
Inductive step : DeviceManager -> DeviceManager -> Prop :=
| step_initialize now w m : step m (final (initialize now w m))
| step_scan_devices w m : step m (final (scan_devices w m))
| step_get_all_devices m : step m (final (get_all_devices m))
| step_get_active_device m : step m (final (get_active_device m))
| step_set_active_device i m : step m (final (set_active_device i m))
| step_vibrate speed position duration w m :
    step m (final (vibrate speed position duration w m))
| step_stop w m : step m (final (stop w m))
| step_shutdown w m : step m (final (shutdown w m))
| step_active_device m : step m (final (active_device m))
| step_stop_after_delay a duration w m :
    step m (final (_stop_after_delay a duration w m)).

(** The connection drops: the client the manager holds is no longer
    connected.  With [devices_changed] below, this is what reaches the
    manager state without a call of the manager. *)
Definition connection_lost (m : DeviceManager) : DeviceManager :=
  match _client m with
  | Some c =>
      set_client (Some {| client_name := client_name c;
                          connected := false;
                          devices := devices c |}) m
  | None => m
  end.

(** A device comes or goes: the client changes its mapping, and with it
    the container the manager holds, which after a scan is that very
    object. *)
Definition devices_changed (l : device_map) (m : DeviceManager) : DeviceManager :=
  client_sees l (set_devices l m).

(** The states a manager can be in: constructed, then any sequence of
    operations, connection drops and changes of the client's device
    mapping.  A manager without a client holds a list of its own, which
    nobody else changes; with a client, the container is taken to be the
    client's, which includes the states where it is still the manager's
    own empty list. *)
Inductive reachable : DeviceManager -> Prop :=
| reach_init s : reachable (__init__ s)
| reach_step m m' : reachable m -> step m m' -> reachable m'
| reach_lost m : reachable m -> reachable (connection_lost m)
| reach_devices l m :
    reachable m -> _client m <> None -> NoDup (py_keys l) ->
    reachable (devices_changed l m).

(** The invariant of the active-device index. *)
Definition index_valid (m : DeviceManager) : Prop :=
  _devices m <> [] ->
  0 <= _active_device_index m < Z.of_nat (List.length (_devices m)).

(** The [DeviceInfo] the manager builds for [device], looked up under
    [index0]. *)
Definition projection (device : Device) (index0 : Z) : DeviceInfo :=
  {| id := dev_index device;
     name := dev_name device;
     index := index0;
     actuator_count := Z.of_nat (List.length (actuators device));
     actuator_types := map act_class (actuators device) |}.

(** [y] is [x] clamped into [[0.0, 1.0]], in the order of the floats: [y]
    lies in the interval, is the bound [x] is beyond, and compares equal to
    [x] when [x] lies in the interval. *)
Definition clamped01 (x y : float) : Prop :=
  (((0 <=? y) = true /\ (y <=? 1) = true) /\
   ((x <? 0) = true -> y = 0) /\
   ((1 <? x) = true -> y = 1) /\
   ((0 <=? x) = true -> (x <=? 1) = true -> (y =? x) = true))%float.

(** The failure kinds of the error taxonomy that a caller of the manager
    can meet. *)
Inductive failure_kind :=
| RateLimited
| UpstreamConnectionError
| DeviceNotFound
| CommandFailed.

(** The exception class the manager raises for each kind: the backoff
    guard of [initialize] and the failures to reach the server both raise
    [IntifaceConnectionError]. *)
Definition kind_class (k : failure_kind) : exn_class :=
  match k with
  | RateLimited => IntifaceConnectionError
  | UpstreamConnectionError => IntifaceConnectionError
  | DeviceNotFound => DeviceNotFoundError
  | CommandFailed => CommandError
  end.

(** The failure of the backoff guard. *)
Definition rate_limited : exn :=
  App (exn_msg IntifaceConnectionError rate_limit_message).

(** [e] is an instance of class [c]. *)
Definition is_instance (c : exn_class) (e : exn) : Prop :=
  match e with
  | App a => cls a = c
  | _ => False
  end.


(** Lookup of a key in a dict. *)
Fixpoint dict_get (k : string) (d : pydict) : option pyval :=
  match d with
  | [] => None
  | (k', v) :: d' => if String.eqb k k' then Some v else dict_get k d'
  end.

(* ================================================================== *)
(** ** Runs in closed form, and properties kept along a run *)

(** What a run of [vibrate] is on an active device [d] with first actuator
    [a], by what the actuator answers ([vibrate_run] below proves it). *)
Definition vibrate_dispatch (speed : float) (position : option float)
    (duration : float) (w : VibrateWorld) (m : DeviceManager)
    (d : Device) (a : Actuator) : Run pydict :=
  let s := clamp01 speed in
  let p := option_map clamp01 position in
  let task := if (0 <? duration)%float then [CreateTask a duration] else [] in
  let failed e :=
    Raise (App (exn_msg CommandError
                  ("Error sending vibrate command: " ++ str_exn e))) in
  match first_command w with
  | Returns =>
      {| res := Ok (vibrate_result d s p duration); final := m;
         trace := Command a (PyFloat s) p :: task |}
  | Raises (TypeError msg) =>
      match fallback_command w with
      | Returns =>
          {| res := Ok (vibrate_result d s p duration); final := m;
             trace := Command a (PyFloat s) p
                      :: Command a (PyFloat s) None :: task |}
      | Raises e =>
          {| res := failed e; final := m;
             trace := [Command a (PyFloat s) p; Command a (PyFloat s) None] |}
      end
  | Raises e =>
      {| res := failed e; final := m; trace := [Command a (PyFloat s) p] |}
  end.

(** [c] keeps [P]: the manager it leaves satisfies [P] when the manager it
    started from does, whether [c] returns or raises. *)
Definition preserves (P : DeviceManager -> Prop) {A} (c : M A) : Prop :=
  forall m, P m -> P (final (c m)).

(* ================================================================== *)
(** ** A session: two devices, a refused connection *)

Definition vibrator (k : Z) : Actuator :=
  {| act_class := "Actuator"; act_index := k |}.

Definition device_a : Device :=
  {| dev_index := 0; dev_name := "DeviceA"; actuators := [vibrator 0] |}.

Definition device_b : Device :=
  {| dev_index := 1; dev_name := "DeviceB";
     actuators := [vibrator 0; vibrator 1] |}.

Definition scan_finds (l : list Device) : ScanWorld :=
  {| start_scanning_result := Returns;
     stop_scanning_result := Returns;
     reported := l |}.

Definition server_up (l : list Device) : InitWorld :=
  {| connect_result := Returns; scan_world := scan_finds l |}.

Definition server_down : InitWorld :=
  {| connect_result := Raises (ConnectorError "connection refused");
     scan_world := scan_finds [] |}.

Definition quiet_shutdown : ShutdownWorld :=
  {| disconnect_result := Returns |}.

Definition accepting : VibrateWorld :=
  {| first_command := Returns; fallback_command := Returns |}.

Definition new_manager : DeviceManager := __init__ default_settings.

(** Connected at time 100, two devices found. *)
Definition two_devices : DeviceManager :=
  final (initialize 100 (server_up [device_a; device_b]) new_manager).

(** Then the second device is selected. *)
Definition second_selected : DeviceManager :=
  final (set_active_device 1 two_devices).

(** Then the connection drops. *)
Definition dropped : DeviceManager := connection_lost second_selected.

(** With the two devices found, DeviceA goes: the client's mapping keeps
    DeviceB, under its key 1. *)
Definition device_a_gone : DeviceManager :=
  devices_changed [device_b] two_devices.

(** A new manager whose first connection, at time 100, is refused. *)
Definition refused : DeviceManager :=
  final (initialize 100 server_down new_manager).

(* ================================================================== *)
(** ** The device mapping, projected *)

(** What the comprehension [[self._get_device_info(i) for i in keys]]
    collects on the mapping [l], for indices inside the range: the
    projection of the device under each index, or the [KeyError] of the
    first index that is not a key. *)
Fixpoint project_keys (l : device_map) (keys : list Z) : result (list DeviceInfo) :=
  match keys with
  | [] => Ok []
  | i :: keys' =>
      match device_at l i with
      | None => Raise (KeyError i)
      | Some d =>
          match project_keys l keys' with
          | Ok infos => Ok (projection d i :: infos)
          | Raise e => Raise e
          end
      end
  end.

(** The same over [range(len(l))]. *)
Definition project_all (l : device_map) : result (list DeviceInfo) :=
  project_keys l (py_range (List.length l)).

(** Every index below the length of the mapping is one of its keys (so
    that, the keys being distinct, they are exactly the indices
    [0 .. len - 1]): the case where the mapping can be indexed like a
    list. *)
Definition complete (l : device_map) : Prop :=
  forall i, 0 <= i < Z.of_nat (List.length l) -> device_at l i <> None.

(* ================================================================== *)
(** ** A connection attempt, in closed form *)

(** The cleanup of [initialize]: a client that is no longer connected is
    dropped, with the device list and the initialized flag. *)
Definition discard_stale (m : DeviceManager) : DeviceManager :=
  match _client m with
  | Some c =>
      if negb (connected c)
      then set_initialized false (set_devices [] (set_client None m))
      else m
  | None => m
  end.

(** The manager at the moment [connect] is awaited. *)
Definition connecting (now : float) (m : DeviceManager) : DeviceManager :=
  set_client (Some fresh_client)
    (discard_stale (set_last_connection_attempt now m)).

(** What [initialize] raises for an exception [e] caught in its [try]. *)
Definition initialize_failure (e : exn) : exn :=
  match e with
  | ConnectorError _ =>
      App (exn_msg IntifaceConnectionError
             ("Failed to connect to Intiface: " ++ str_exn e))
  | _ =>
      App (exn_msg DeviceConnectionError
             ("Initialization error: " ++ str_exn e))
  end.

(* ================================================================== *)
(** ** Which failures an operation can end in *)

(** [e] is an instance of one of the classes [cs], carrying the status
    code and the code of its class. *)
Definition raised_among (cs : list exn_class) (e : exn) : Prop :=
  exists a,
    e = App a /\ In (cls a) cs /\
    status_code_pair a = (class_status_code (cls a), class_code (cls a)).

(* ================================================================== *)
(** ** utils/validators.py *)

(** What [float(value)] does on the value handed to
    [validate_float_range]: it converts, or raises the [TypeError] or
    [ValueError] the validator catches, or raises something else (an
    [OverflowError] on a huge [int]), which the validator lets through. *)
Inductive conversion :=
| Converted (f : float)
| NotConvertible (msg : string)
| ConversionRaises (msg : string).

Section Validators.

(** How an f-string prints a float; the validator only pastes it into its
    message. *)
Variable repr_float : float -> string.

(** [validate_float_range]. *)
Definition validate_float_range (value : conversion)
    (min_val max_val : float) (param_name : string) : result float :=
  match value with
  | NotConvertible _ =>
      Raise (App (exn_msg ValidationError
                    ("Parameter '" ++ param_name ++ "' must be a number")))
  | ConversionRaises msg => Raise (OtherError msg)
  | Converted float_val =>
      if ((float_val <? min_val)%float || (max_val <? float_val)%float)%bool
      then Raise (App (exn_msg ValidationError
                         ("Parameter '" ++ param_name
                          ++ "' must be between " ++ repr_float min_val
                          ++ " and " ++ repr_float max_val
                          ++ ", got " ++ repr_float float_val)))
      else Ok float_val
  end.

End Validators.

(** A Python [dict] with [str] keys, as its entries in insertion order. *)
Definition dict (V : Type) : Type := list (string * V).

(** [d.get(k)] ([None] when the key is missing) and [k in d]. *)
Fixpoint dict_lookup {V} (k : string) (d : dict V) : option V :=
  match d with
  | [] => None
  | (k', v) :: d' => if String.eqb k k' then Some v else dict_lookup k d'
  end.

Definition dict_mem {V} (k : string) (d : dict V) : bool :=
  match dict_lookup k d with Some _ => true | None => false end.

(** [d[k] = v]: the entry of an existing key is replaced in place, a new
    key goes to the end. *)
Fixpoint dict_set {V} (k : string) (v : V) (d : dict V) : dict V :=
  match d with
  | [] => [(k, v)]
  | (k', v') :: d' =>
      if String.eqb k k' then (k', v) :: d' else (k', v') :: dict_set k v d'
  end.

(** The loop of [extract_query_params] over the items of [defaults]. *)
Fixpoint extract_loop {V} (query_args : dict V) (items : list (string * V))
    (result0 : dict V) : dict V :=
  match items with
  | [] => result0
  | (key, default_value) :: items' =>
      extract_loop query_args items'
        (match dict_lookup key query_args with
         | Some v => dict_set key v result0
         | None => dict_set key default_value result0
         end)
  end.

(** [extract_query_params]. *)
Definition extract_query_params {V} (query_args : dict V)
    (defaults : option (dict V)) : dict V :=
  let defaults :=
    match defaults with
    | None => []
    | Some d => d
    end in
  extract_loop query_args defaults [].

(* ================================================================== *)
(** ** api/schemas.py and api/routes.py *)

#[local] Set Warnings "-register-all".

(** A JSON value, as [jsonify] sends it. *)
Inductive json :=
| JNull
| JBool (b : bool)
| JInt (z : Z)
| JFloat (f : float)
| JStr (s : string)
| JList (l : list json)
| JDict (d : list (string * json)).

(** What a view returns: the body and the HTTP status. *)
Definition response : Type := json * Z.

Definition json_of_pyval (v : pyval) : json :=
  match v with
  | VBool b => JBool b
  | VStr s => JStr s
  | VInt z => JInt z
  | VFloat f => JFloat f
  end.

Definition json_of_pydict (d : pydict) : json :=
  JDict (map (fun kv => (fst kv, json_of_pyval (snd kv))) d).

(** [APIResponse(success=True, message=..., data=...).dict()]. *)
Definition api_response (message : string) (data : json) : json :=
  JDict [("success", JBool true); ("message", JStr message); ("data", data)].

(** [ErrorResponse(error=..., detail=..., status_code=...).dict()]. *)
Definition error_response (error detail0 : string) (status : Z) : json :=
  JDict [("error", JStr error); ("detail", JStr detail0);
         ("status_code", JInt status)].

(** The dict the routes build from a [DeviceInfo]. *)
Definition device_json (d : DeviceInfo) : json :=
  JDict [("id", JInt (id d)); ("name", JStr (name d));
         ("index", JInt (index d));
         ("actuator_count", JInt (actuator_count d));
         ("actuator_types", JList (map JStr (actuator_types d)))].

(** [float(x)] of a query argument, inside a view: what the validator of
    [validators.py] would catch is here an exception like any other. *)
Definition float_of_arg (c : conversion) : result float :=
  match c with
  | Converted f => Ok f
  | NotConvertible msg => Raise (OtherError msg)
  | ConversionRaises msg => Raise (OtherError msg)
  end.

(** [float(request.args.get(key, default))]: the argument converted, or
    the default when the query does not have it. *)
Definition query_float (arg : option conversion) (default : float)
    : result float :=
  match arg with
  | Some c => float_of_arg c
  | None => Ok default
  end.

(** [float(x) if x is not None else None] on [request.args.get(key)]. *)
Definition query_optional_float (arg : option conversion)
    : result (option float) :=
  match arg with
  | Some c => match float_of_arg c with
              | Ok p => Ok (Some p)
              | Raise e => Raise e
              end
  | None => Ok None
  end.

(** The body of a request, as [await request.get_json()] and then
    [DeviceSelectionRequest.parse_obj] see it: [get_json] raises (a body
    that cannot be read as JSON), or the JSON it returns holds no integer
    index (pydantic refuses it with the text given), or it holds one. *)
Inductive request_body :=
| NotJson (msg : string)
| NoIndex (msg : string)
| Index (i : Z).

(** [await request.get_json()], with what pydantic will find in it. *)
Definition get_json (body : request_body) : result (string + Z) :=
  match body with
  | NotJson msg => Raise (OtherError msg)
  | NoIndex msg => Ok (inl msg)
  | Index i => Ok (inr i)
  end.

(** The validated request of the vibrate route. *)
Record VibrateRequest := {
  req_speed : float;
  req_position : option float;
  req_duration : float }.

(** What the external client answers during one request: to the
    [initialize] and the scan of [ensure_initialized], and to the call the
    view makes. *)
Record RequestWorld := {
  on_initialize : InitWorld;
  on_ensure_scan : ScanWorld;
  on_scan : ScanWorld;
  on_vibrate : VibrateWorld;
  on_stop : outcome }.

Section Routes.

(** The text of the pydantic validation error for a field that breaks
    its constraint, and how an f-string prints a float as a percentage
    ([{x*100:.0f}]) and as it is ([{x}]): texts the views only paste into
    their answers. *)
Variable pydantic_error : string -> string.
Variable format_percent : float -> string.
Variable format_float : float -> string.

(** [DeviceSelectionRequest.parse_obj(data)]: [index: int = Field(ge=0)].
    The body either holds no integer index (pydantic refuses it with the
    text given) or holds one. *)
Definition parse_device_selection (data : string + Z) : string + Z :=
  match data with
  | inl msg => inl msg
  | inr i => if (0 <=? i)%Z then inr i else inl (pydantic_error "index")
  end.

(** [VibrateRequest(speed=..., position=..., duration=...)]: speed and
    position in [[0.0, 1.0]] ([ge], [le]), duration at least 0.0. *)
Definition parse_vibrate_request (speed : float) (position : option float)
    (duration : float) : string + VibrateRequest :=
  if negb ((0 <=? speed)%float && (speed <=? 1)%float)
  then inl (pydantic_error "speed")
  else if match position with
          | Some p => negb ((0 <=? p)%float && (p <=? 1)%float)
          | None => false
          end
  then inl (pydantic_error "position")
  else if negb (0 <=? duration)%float
  then inl (pydantic_error "duration")
  else inr {| req_speed := speed; req_position := position;
              req_duration := duration |}.

(** [handle_errors]: the view's answer, or the error answer of what it
    raised.  A view here returns [inl msg] where the source raises a
    pydantic validation error with text [msg]. *)
Definition handle_errors (f : M (string + response)) : M response :=
  try_except
    (r <- f ;;
     match r with
     | inr answer => ret answer
     | inl msg => ret (error_response "validation_error" msg 400, 400)
     end)
    (fun e =>
       match e with
       | App a => ret (json_of_pydict (to_dict a), status_code a)
       | _ => ret (error_response "internal_error" (str_exn e) 500, 500)
       end).

(** [ensure_initialized], run before every request. *)
Definition ensure_initialized (path : string) (now : float)
    (w : RequestWorld) : M unit :=
  try_except
    (m <- get ;;
     if negb (_initialized m) then initialize now (on_initialize w)
     else ret tt)
    (fun _ => ret tt) ;;
  if String.eqb path "/status" then ret tt
  else
    m <- get ;;
    if negb (has_devices m)
    then try_except (scan_devices (on_ensure_scan w) ;; ret tt)
           (fun _ => ret tt)
    else ret tt.

(** [status]. *)
Definition status : M (string + response) :=
  m <- get ;;
  let is_connected0 := is_connected m in
  let has_devices0 := has_devices m in
  active <- get_active_device ;;
  let initialized := _initialized m in
  let client_state :=
    match _client m with
    | None => "Not created"
    | Some c => if connected c then "Connected" else "Disconnected"
    end in
  let device_count := Z.of_nat (List.length (_devices m)) in
  let status_data :=
    JDict [("status", JStr (if is_connected0 then "ok" else "error"));
           ("server_running", JBool true);
           ("server_initialized", JBool initialized);
           ("intiface_connected", JBool is_connected0);
           ("client_state", JStr client_state);
           ("device_count", JInt device_count);
           ("has_devices", JBool has_devices0);
           ("websocket_url", JStr (url (websocket (settings m))));
           ("active_device", match active with
                             | None => JNull
                             | Some d => device_json d
                             end)] in
  ret (inr (api_response "Server status" status_data, 200)).

(** [list_devices]. *)
Definition list_devices (w : RequestWorld) : M (string + response) :=
  scan_devices (on_scan w) ;;
  devices0 <- get_all_devices ;;
  m <- get ;;
  let active_index := _active_device_index m in
  ret (inr (api_response
              ("Found " ++ str_int (Z.of_nat (List.length devices0))
               ++ " devices")
              (JDict [("devices", JList (map device_json devices0));
                      ("active_index", JInt active_index)]),
            200)).

(** [select_device]; [body] is the body of the request. *)
Definition select_device (body : request_body) : M (string + response) :=
  data <- lift (get_json body) ;;
  match parse_device_selection data with
  | inl msg => ret (inl msg)
  | inr index0 =>
      device_info <- set_active_device index0 ;;
      ret (inr (api_response ("Selected device: " ++ name device_info)
                  (device_json device_info), 200))
  end.

(** [vibrate], the view; the arguments are the query arguments, when
    present, with what [float] makes of them. *)
Definition vibrate_view (speed_arg position_arg duration_arg : option conversion)
    (w : RequestWorld) : M (string + response) :=
  speed <- lift (query_float speed_arg 0.5) ;;
  position <- lift (query_optional_float position_arg) ;;
  duration <- lift (query_float duration_arg 0) ;;
  match parse_vibrate_request speed position duration with
  | inl msg => ret (inl msg)
  | inr req =>
      result0 <- vibrate (req_speed req) (req_position req) (req_duration req)
                   (on_vibrate w) ;;
      let message :=
        "Vibrating at " ++ format_percent (req_speed req) ++ "% power"
        ++ match req_position req with
           | Some p => ", position " ++ format_percent p ++ "%"
           | None => ""
           end
        ++ (if (0 <? req_duration req)%float
            then " for " ++ format_float (req_duration req) ++ " seconds"
            else "") in
      ret (inr (api_response message (json_of_pydict result0), 200))
  end.

(** [stop], the view. *)
Definition stop_view (w : RequestWorld) : M (string + response) :=
  result0 <- stop (on_stop w) ;;
  ret (inr (api_response "Device stopped" (json_of_pydict result0), 200)).

(** [scan], the view. *)
Definition scan_view (w : RequestWorld) : M (string + response) :=
  devices0 <- scan_devices (on_scan w) ;;
  ret (inr (api_response
              ("Found " ++ str_int (Z.of_nat (List.length devices0))
               ++ " devices")
              (JDict [("count", JInt (Z.of_nat (List.length devices0)));
                      ("devices", JList (map device_json devices0))]),
            200)).

(** The requests the blueprint routes. *)
Inductive request :=
| GetStatus
| GetDevices
| PostDevice (body : request_body)
| GetVibrate (speed_arg position_arg duration_arg : option conversion)
| GetStop
| GetScan.

Definition path_of (r : request) : string :=
  match r with
  | GetStatus => "/status"
  | GetDevices => "/devices"
  | PostDevice _ => "/device"
  | GetVibrate _ _ _ => "/vibrate"
  | GetStop => "/stop"
  | GetScan => "/scan"
  end.

Definition view_of (r : request) (w : RequestWorld) : M (string + response) :=
  match r with
  | GetStatus => status
  | GetDevices => list_devices w
  | PostDevice body => select_device body
  | GetVibrate s p d => vibrate_view s p d w
  | GetStop => stop_view w
  | GetScan => scan_view w
  end.

(** One request served: [ensure_initialized], then the view under
    [handle_errors]. *)
Definition serve (r : request) (now : float) (w : RequestWorld) : M response :=
  ensure_initialized (path_of r) now w ;;
  handle_errors (view_of r w).

End Routes.

(** The answer [handle_errors] makes of what the view did. *)
Definition answer_of (r : result (string + response)) : response :=
  match r with
  | Ok (inr answer) => answer
  | Ok (inl msg) => (error_response "validation_error" msg 400, 400)
  | Raise (App a) => (error_response (code a) (detail a) (status_code a),
                      status_code a)
  | Raise e => (error_response "internal_error" (str_exn e) 500, 500)
  end.

(* ================================================================== *)
(** ** app.py *)

(** [startup], run before serving: a failing [initialize] is logged. *)
Definition startup (now : float) (w : InitWorld) : M unit :=
  try_except (initialize now w) (fun _ => ret tt).

(** [shutdown], run after serving. *)
Definition app_shutdown (w : ShutdownWorld) : M unit :=
  shutdown w.

(* ================================================================== *)
(** ** What a run returns, raises and emits *)

(** Every value [c] returns satisfies [Q]; every exception it raises
    does; every call it issues does. *)
Definition returns {A} (Q : A -> Prop) (c : M A) : Prop :=
  forall m a, res (c m) = Ok a -> Q a.

Definition raises {A} (Q : exn -> Prop) (c : M A) : Prop :=
  forall m e, res (c m) = Raise e -> Q e.

Definition emits {A} (Q : event -> Prop) (c : M A) : Prop :=
  forall m, Forall Q (trace (c m)).

(** A call that opens a connection: the creation of a client or its
    connect. *)
Definition opens_connection (ev : event) : Prop :=
  match ev with
  | NewClient _ | Connect _ => True
  | _ => False
  end.

(** The statuses the error answers of the manager carry. *)
Definition manager_status (e : exn) : Prop :=
  match e with
  | App a => status_code a = 404 \/ status_code a = 500 \/ status_code a = 502
  | _ => True
  end.

(* ================================================================== *)
(** ** The standalone scripts *)

(** [max(0.0, min(speed, 1.0))], the clamp of [simple-script.py],
    [flask-test.py] and [linear-seperate.py]: the arguments of [min] are
    in the other order than in the manager. *)
Definition script_clamp (x : float) : float := py_max 0 (py_min x 1).

(* ================================================================== *)
(** ** Requests, for the examples *)

(** The server is up and reports [l]; every command is accepted. *)
Definition cooperative (l : list Device) : RequestWorld :=
  {| on_initialize := server_up l;
     on_ensure_scan := scan_finds l;
     on_scan := scan_finds l;
     on_vibrate := accepting;
     on_stop := Returns |}.

(** Stand-ins for the text pydantic and the format specs produce. *)
Definition field_error (field : string) : string :=
  field ++ ": value out of range".

Definition no_digits (f : float) : string := "".

(* ================================================================== *)
(** ** Lists and indices *)

Arguments str_int : simpl never.

Lemma out_of_range_test (n i : Z) :
  ((i <? 0)%Z || (n <=? i)%Z)%bool = false <-> 0 <= i < n.
Proof.
  rewrite orb_false_iff, Z.ltb_ge, Z.leb_gt. lia.
Qed.

Lemma py_range_in (n : nat) (i : Z) :
  In i (py_range n) -> 0 <= i < Z.of_nat n.
Proof.
  unfold py_range. rewrite in_map_iff. intros [k [<- Hk]].
  apply in_seq in Hk. lia.
Qed.

Lemma py_range_length (n : nat) : List.length (py_range n) = n.
Proof. unfold py_range. rewrite length_map, length_seq. reflexivity. Qed.

(* ================================================================== *)
(** ** The projections neither change the manager nor call the client *)

(** [_get_device_info] in closed form: the guard, then the lookup. *)
Lemma get_device_info_run (m : DeviceManager) (i : Z) :
  _get_device_info i m =
    {| res :=
         if ((i <? 0)%Z || (Z.of_nat (List.length (_devices m)) <=? i)%Z)%bool
         then Raise (App (exn_msg DeviceNotFoundError
                            ("Device index " ++ str_int i ++ " out of range")))
         else match device_at (_devices m) i with
              | Some d => Ok (projection d i)
              | None => Raise (KeyError i)
              end;
       final := m; trace := [] |}.
Proof.
  unfold _get_device_info, bind, get, py_getitem. cbn [res final trace].
  destruct (((i <? 0)%Z || (Z.of_nat (List.length (_devices m)) <=? i)%Z)%bool);
    [reflexivity|].
  destruct (device_at (_devices m) i); reflexivity.
Qed.

Lemma get_device_info_in_range (m : DeviceManager) (i : Z) (d : Device) :
  0 <= i < Z.of_nat (List.length (_devices m)) ->
  device_at (_devices m) i = Some d ->
  _get_device_info i m =
    {| res := Ok (projection d i); final := m; trace := [] |}.
Proof.
  intros Hi Hd. rewrite get_device_info_run.
  apply out_of_range_test in Hi. rewrite Hi, Hd. reflexivity.
Qed.

Lemma get_device_info_out_of_range (m : DeviceManager) (i : Z) :
  i < 0 \/ Z.of_nat (List.length (_devices m)) <= i ->
  _get_device_info i m =
    {| res := Raise (App (exn_msg DeviceNotFoundError
                            ("Device index " ++ str_int i ++ " out of range")));
       final := m; trace := [] |}.
Proof.
  intros Hi. rewrite get_device_info_run.
  destruct (((i <? 0)%Z || (Z.of_nat (List.length (_devices m)) <=? i)%Z)%bool) eqn:E.
  - reflexivity.
  - apply out_of_range_test in E. lia.
Qed.

(** The comprehension over the indices [l]: it neither changes the
    manager nor calls the client, and what it collects or raises is
    [project_keys]. *)
Lemma mapM_get_device_info (m : DeviceManager) (l : list Z) :
  (forall i, In i l -> 0 <= i < Z.of_nat (List.length (_devices m))) ->
  mapM _get_device_info l m =
    {| res := project_keys (_devices m) l; final := m; trace := [] |}.
Proof.
  induction l as [|i l IH]; intros Hl; [reflexivity|].
  cbn [mapM project_keys]. unfold bind.
  rewrite get_device_info_run.
  pose proof (Hl i (or_introl eq_refl)) as Hi.
  apply out_of_range_test in Hi. rewrite Hi. cbn [res final trace].
  destruct (device_at (_devices m) i) as [d|]; cbn [res final trace];
    [|reflexivity].
  rewrite IH by (intros j Hj; apply Hl; right; exact Hj).
  cbn [res final trace].
  destruct (project_keys (_devices m) l); reflexivity.
Qed.

Lemma get_all_devices_run (m : DeviceManager) :
  get_all_devices m =
    {| res := project_all (_devices m); final := m; trace := [] |}.
Proof.
  unfold get_all_devices, bind, get. cbn [res final trace].
  rewrite mapM_get_device_info by (intros i Hi; apply py_range_in; exact Hi).
  reflexivity.
Qed.

(** What the comprehension collects: one projection per index, each of
    the device under that key. *)
Lemma project_keys_ok (l : device_map) (keys : list Z) (infos : list DeviceInfo) :
  project_keys l keys = Ok infos ->
  List.length infos = List.length keys /\
  forall k, (k < List.length keys)%nat ->
    exists i d, nth_error keys k = Some i /\ device_at l i = Some d /\
                nth_error infos k = Some (projection d i).
Proof.
  revert infos. induction keys as [|i keys IH]; intros infos; cbn [project_keys].
  - intros [= <-]. split; [reflexivity|]. intros k Hk. cbn in Hk. lia.
  - destruct (device_at l i) as [d|] eqn:Ed; [|discriminate].
    destruct (project_keys l keys) as [infos'|e]; [|discriminate].
    intros [= <-]. destruct (IH infos' eq_refl) as [Hlen Hnth].
    split; [cbn [List.length]; rewrite Hlen; reflexivity|].
    intros [|k] Hk.
    + exists i, d. repeat split; assumption.
    + cbn [nth_error]. apply Hnth. cbn [List.length] in Hk. lia.
Qed.

(** The comprehension fails exactly on a missing key, with the
    [KeyError] of the first one. *)
Lemma project_keys_raise (l : device_map) (keys : list Z) (e : exn) :
  project_keys l keys = Raise e ->
  exists i, e = KeyError i /\ In i keys /\ device_at l i = None.
Proof.
  induction keys as [|i keys IH]; cbn [project_keys]; [discriminate|].
  destruct (device_at l i) as [d|] eqn:Ed.
  - destruct (project_keys l keys) as [infos'|e'] eqn:Ep; [discriminate|].
    intros [= <-]. destruct (IH eq_refl) as [j [He [Hin Hj]]].
    exists j. repeat split; [exact He|right; exact Hin|exact Hj].
  - intros [= <-]. exists i. repeat split; [left; reflexivity|exact Ed].
Qed.

Lemma project_keys_complete (l : device_map) (keys : list Z) :
  (forall i, In i keys -> device_at l i <> None) ->
  exists infos, project_keys l keys = Ok infos.
Proof.
  intros H. destruct (project_keys l keys) as [infos|e] eqn:E.
  - exists infos. reflexivity.
  - destruct (project_keys_raise _ _ _ E) as [i [_ [Hin Hi]]].
    exfalso. exact (H i Hin Hi).
Qed.

(* ================================================================== *)
(** ** The order of the floats, through their specification *)

Section FloatOrder.
Local Open Scope float_scope.

Lemma compare_cont_opp (p q : positive) :
  Pos.compare_cont Eq q p = CompOpp (Pos.compare_cont Eq p q).
Proof. rewrite Pos.compare_cont_antisym. reflexivity. Qed.

Lemma SFcompare_antisym (x y : spec_float) :
  SFcompare y x = option_map CompOpp (SFcompare x y).
Proof.
  destruct x as [s1|s1| |s1 m1 e1], y as [s2|s2| |s2 m2 e2];
    try destruct s1; try destruct s2; try reflexivity;
    cbn [SFcompare option_map]; f_equal;
    rewrite (Z.compare_antisym e1 e2), (compare_cont_opp m1 m2);
    destruct (e1 ?= e2)%Z; reflexivity.
Qed.

Lemma SFcompare_refl (x : spec_float) :
  x <> S754_nan -> SFcompare x x = Some Eq.
Proof.
  destruct x as [s|s| |s m e]; intro H; try destruct s; try reflexivity;
    try congruence; cbn [SFcompare]; rewrite Z.compare_refl;
    change (Pos.compare_cont Eq m m) with (Pos.compare m m);
    rewrite Pos.compare_refl; reflexivity.
Qed.

Lemma ltb_antisym (x y : float) : (x <? y) = true -> (y <? x) = false.
Proof.
  rewrite !ltb_spec. unfold SFltb.
  rewrite (SFcompare_antisym (Prim2SF x) (Prim2SF y)).
  destruct (SFcompare (Prim2SF x) (Prim2SF y)) as [[| |]|]; cbn; congruence.
Qed.

Lemma ltb_leb (x y : float) : (x <? y) = true -> (x <=? y) = true.
Proof.
  rewrite ltb_spec, leb_spec. unfold SFltb, SFleb.
  destruct (SFcompare (Prim2SF x) (Prim2SF y)) as [[| |]|]; congruence.
Qed.

Lemma leb_not_ltb_eqb (x y : float) :
  (x <=? y) = true -> (x <? y) = false -> (x =? y) = true.
Proof.
  rewrite ltb_spec, leb_spec, eqb_spec. unfold SFltb, SFleb, SFeqb.
  destruct (SFcompare (Prim2SF x) (Prim2SF y)) as [[| |]|]; congruence.
Qed.

Lemma eqb_sym (x y : float) : (x =? y) = true -> (y =? x) = true.
Proof.
  rewrite !eqb_spec. unfold SFeqb.
  rewrite (SFcompare_antisym (Prim2SF x) (Prim2SF y)).
  destruct (SFcompare (Prim2SF x) (Prim2SF y)) as [[| |]|]; cbn; congruence.
Qed.

Lemma leb_eqb_refl (x y : float) : (x <=? y) = true -> (x =? x) = true.
Proof.
  rewrite leb_spec, eqb_spec. unfold SFleb, SFeqb. intro H.
  rewrite SFcompare_refl; [reflexivity|].
  intro E. rewrite E in H. discriminate H.
Qed.

Lemma ltb_zero_one (x : float) : (x <? 0) = true -> (x <? 1) = true.
Proof.
  rewrite !ltb_spec.
  change (Prim2SF 0) with (S754_zero false).
  change (Prim2SF 1) with (S754_finite false 4503599627370496 (-52)).
  destruct (Prim2SF x) as [s|s| |s m e]; try destruct s;
    intro H; try discriminate H; reflexivity.
Qed.

(** The clamp of [vibrate] clamps, whatever the float (a NaN included,
    which ends at 1.0). *)
Lemma clamp01_clamped (x : float) : clamped01 x (clamp01 x).
Proof.
  unfold clamped01, clamp01, py_min, py_max.
  destruct (x <? 1) eqn:E1.
  - destruct (0 <? x) eqn:E0; repeat split; intros.
    all: try (apply ltb_leb; assumption).
    all: try (apply ltb_antisym in H; congruence).
    all: try reflexivity.
    + now apply (leb_eqb_refl x 1).
    + now apply leb_not_ltb_eqb.
  - change (0 <? 1) with true. cbv iota. repeat split; intros.
    all: try reflexivity.
    + apply ltb_zero_one in H. congruence.
    + apply eqb_sym. now apply leb_not_ltb_eqb.
Qed.

(** A NaN speed is dispatched as full intensity, and a negative zero as
    zero. *)
Example clamp01_nan : clamp01 nan = 1%float /\ clamp01 (-0)%float = 0%float.
Proof. split; vm_compute; reflexivity. Qed.

End FloatOrder.

(* ================================================================== *)
(** ** Properties kept along a run *)

Section Preserves.
Variable P : DeviceManager -> Prop.

Lemma preserves_ret {A} (a : A) : preserves P (ret a).
Proof. intros m H. exact H. Qed.

Lemma preserves_raise {A} (e : exn) : preserves P (@raise A e).
Proof. intros m H. exact H. Qed.

Lemma preserves_get : preserves P get.
Proof. intros m H. exact H. Qed.

Lemma preserves_emit (ev : event) : preserves P (emit ev).
Proof. intros m H. exact H. Qed.

Lemma preserves_lift {A} (r : result A) : preserves P (lift r).
Proof. destruct r; intros m H; exact H. Qed.

Lemma preserves_modify (f : DeviceManager -> DeviceManager) :
  (forall m, P m -> P (f m)) -> preserves P (modify f).
Proof. intros Hf m H. apply Hf. exact H. Qed.

Lemma preserves_bind {A B} (c : M A) (k : A -> M B) :
  preserves P c -> (forall a, preserves P (k a)) -> preserves P (bind c k).
Proof.
  intros Hc Hk m H. unfold bind. specialize (Hc m H).
  destruct (res (c m)) as [a|e]; cbn [final].
  - apply Hk. exact Hc.
  - exact Hc.
Qed.

Lemma preserves_try_except {A} (c : M A) (h : exn -> M A) :
  preserves P c -> (forall e, preserves P (h e)) ->
  preserves P (try_except c h).
Proof.
  intros Hc Hh m H. unfold try_except. specialize (Hc m H).
  destruct (res (c m)) as [a|e]; cbn [final].
  - exact Hc.
  - apply Hh. exact Hc.
Qed.

Lemma preserves_await (ev : event) (o : outcome) : preserves P (await ev o).
Proof.
  unfold await. apply preserves_bind; [apply preserves_emit|].
  intros _. destruct o; [apply preserves_ret|apply preserves_raise].
Qed.

Lemma preserves_mapM {A B} (f : A -> M B) (l : list A) :
  (forall a, preserves P (f a)) -> preserves P (mapM f l).
Proof.
  intros Hf. induction l as [|a l IH]; cbn [mapM].
  - apply preserves_ret.
  - apply preserves_bind; [apply Hf|]. intros b.
    apply preserves_bind; [exact IH|]. intros bs. apply preserves_ret.
Qed.

Lemma preserves_stop_each (keys : list Z) : preserves P (stop_each keys).
Proof.
  induction keys as [|k keys IH]; cbn [stop_each].
  - apply preserves_ret.
  - apply preserves_bind; [|intros _; exact IH].
    apply preserves_try_except; [apply preserves_raise|].
    intros _. apply preserves_raise.
Qed.

End Preserves.

(* ================================================================== *)
(** ** Running the operations *)

(** Symbolic execution of a method on a manager and a world given by their
    fields. *)
Ltac run :=
  cbv beta iota zeta delta
    [bind get try_except await emit ret raise modify lift res final trace
     negb andb orb truthy_list
     settings _client _devices _active_device_index _initialized
     _last_connection_attempt _connection_retry_delay
     set_client set_devices set_active_device_index set_initialized
     set_last_connection_attempt client_sees scanned mark_connected
     fresh_client
     connected devices client_name is_connected
     start_scanning_result stop_scanning_result reported
     connect_result scan_world first_command fallback_command
     disconnect_result];
  cbn [app].

(** [scan_devices] in closed form. *)
Lemma scan_devices_run (w : ScanWorld) (m : DeviceManager) :
  scan_devices w m =
    let wrapped e :=
      Raise (App (exn_msg DeviceConnectionError
                    ("Error scanning for devices: " ++ str_exn e))) in
    let window :=
      [StartScanning; Sleep (PyInt (scan_timeout (websocket (settings m))));
       StopScanning] in
    match _client m with
    | None =>
        {| res := Raise (App (exn_msg IntifaceConnectionError
                                "Client not initialized"));
           final := m; trace := [] |}
    | Some c =>
        if negb (connected c)
        then {| res := Raise (App (exn_msg IntifaceConnectionError
                                     "Not connected to Intiface"));
                final := m; trace := [] |}
        else
          match start_scanning_result w with
          | Raises e0 =>
              {| res := wrapped e0; final := m; trace := [StartScanning] |}
          | Returns =>
              match stop_scanning_result w with
              | Raises e0 =>
                  {| res := wrapped e0; final := m; trace := window |}
              | Returns =>
                  {| res := match project_all (reported w) with
                            | Ok infos => Ok infos
                            | Raise e => wrapped e
                            end;
                     final := scanned (reported w) m;
                     trace := window |}
              end
          end
    end.
Proof.
  destruct m as [s c ds idx ini last delay], w as [o1 o2 rep].
  destruct c as [[cn [|] cds]|]; [|reflexivity..].
  destruct o1 as [|e1]; [|reflexivity].
  destruct o2 as [|e2]; [|reflexivity].
  destruct rep as [|d l]; [reflexivity|].
  unfold scan_devices. run.
  match goal with
  | |- context [mapM _get_device_info ?l ?s] =>
      rewrite (mapM_get_device_info s l)
        by (intros i Hi; apply py_range_in; exact Hi)
  end.
  cbn [_devices]. fold (project_all (d :: l)).
  destruct (project_all (d :: l)) as [infos|e]; reflexivity.
Qed.

(** [scan_devices] ends in one of three ways.  It raises before the
    device mapping is read and leaves the manager as it was; or it reads
    the mapping and returns one projection per reported device; or it
    reads the mapping, resets the index, and the comprehension meets an
    index that is not a key: the [KeyError] is wrapped, and the manager
    keeps the new mapping and the index 0. *)
Lemma scan_devices_cases (w : ScanWorld) (m : DeviceManager) :
  (exists e t,
     scan_devices w m = {| res := Raise e; final := m; trace := t |}) \/
  (exists infos,
     project_all (reported w) = Ok infos /\
     List.length infos = List.length (reported w) /\
     is_connected m = true /\
     scan_devices w m =
       {| res := Ok infos;
          final := scanned (reported w) m;
          trace := [StartScanning;
                    Sleep (PyInt (scan_timeout (websocket (settings m))));
                    StopScanning] |}) \/
  (exists k,
     project_all (reported w) = Raise (KeyError k) /\
     is_connected m = true /\
     scan_devices w m =
       {| res := Raise (App (exn_msg DeviceConnectionError
                               ("Error scanning for devices: " ++ str_int k)));
          final := scanned (reported w) m;
          trace := [StartScanning;
                    Sleep (PyInt (scan_timeout (websocket (settings m))));
                    StopScanning] |}).
Proof.
  rewrite scan_devices_run. cbv zeta. unfold is_connected.
  destruct (_client m) as [c|]; [|left; do 2 eexists; reflexivity].
  destruct (connected c); cbn [negb]; [|left; do 2 eexists; reflexivity].
  destruct (start_scanning_result w); [|left; do 2 eexists; reflexivity].
  destruct (stop_scanning_result w); [|left; do 2 eexists; reflexivity].
  right. destruct (project_all (reported w)) as [infos|e] eqn:E.
  - left. exists infos. unfold project_all in E.
    destruct (project_keys_ok _ _ _ E) as [Hlen _].
    rewrite py_range_length in Hlen. repeat split. exact Hlen.
  - right. unfold project_all in E.
    destruct (project_keys_raise _ _ _ E) as [k [-> _]].
    exists k. repeat split.
Qed.

(** The stop loop of [shutdown] stops nothing: it is left at the first
    key, by the exception of its own handler. *)
Lemma stop_each_run (keys : list Z) (m : DeviceManager) :
  stop_each keys m =
    {| res := match keys with
              | [] => Ok tt
              | _ :: _ =>
                  Raise (OtherError "'int' object has no attribute 'name'")
              end;
       final := m; trace := [] |}.
Proof. destruct keys as [|k keys]; reflexivity. Qed.

(** [shutdown] never raises, always leaves the same three fields
    cleared, and the one call it issues is the disconnect of a connected
    client. *)
Lemma shutdown_run (w : ShutdownWorld) (m : DeviceManager) :
  shutdown w m =
    {| res := Ok tt;
       final := set_initialized false (set_devices [] (set_client None m));
       trace := if is_connected m then [Disconnect] else [] |}.
Proof.
  destruct m as [s c ds idx ini last delay], w as [o].
  unfold shutdown.
  destruct c as [[cn [|] cds]|]; [|reflexivity..].
  destruct ds as [|d l]; destruct o as [|e]; reflexivity.
Qed.

(** The ways [set_active_device] ends. *)
Lemma set_active_device_run (m : DeviceManager) (i : Z) :
  set_active_device i m =
    if ((i <? 0)%Z || (Z.of_nat (List.length (_devices m)) <=? i)%Z)%bool
    then {| res := Raise (App (exn_msg DeviceNotFoundError
                                 ("Device index " ++ str_int i
                                  ++ " out of range")));
            final := m; trace := [] |}
    else {| res := match device_at (_devices m) i with
                   | Some d => Ok (projection d i)
                   | None => Raise (KeyError i)
                   end;
            final := set_active_device_index i m; trace := [] |}.
Proof.
  unfold set_active_device, bind, get, modify. cbn [res final trace].
  destruct (((i <? 0)%Z || (Z.of_nat (List.length (_devices m)) <=? i)%Z)%bool)
    eqn:E; [reflexivity|].
  rewrite get_device_info_run. cbn [_devices set_active_device_index].
  rewrite E. reflexivity.
Qed.

Lemma set_active_device_out_of_range (m : DeviceManager) (i : Z) :
  i < 0 \/ Z.of_nat (List.length (_devices m)) <= i ->
  set_active_device i m =
    {| res := Raise (App (exn_msg DeviceNotFoundError
                            ("Device index " ++ str_int i ++ " out of range")));
       final := m; trace := [] |}.
Proof.
  intros Hi. rewrite set_active_device_run.
  destruct (((i <? 0)%Z || (Z.of_nat (List.length (_devices m)) <=? i)%Z)%bool)
    eqn:E.
  - reflexivity.
  - apply out_of_range_test in E. lia.
Qed.

(* ================================================================== *)
(** ** Properties kept by every operation *)

Ltac pres_step :=
  first
    [ apply preserves_ret | apply preserves_raise | apply preserves_get
    | apply preserves_emit | apply preserves_lift | apply preserves_await
    | apply preserves_stop_each
    | apply preserves_mapM; intros ?
    | apply preserves_bind; [|intros ?]
    | apply preserves_try_except; [|intros ?]
    | match goal with
      | |- preserves _ (match ?x with _ => _ end) => destruct x
      end ].

Ltac pres := repeat pres_step.

Section StepPreserves.
Variable P : DeviceManager -> Prop.
Hypothesis P_set_client : forall c m, P m -> P (set_client c m).
Hypothesis P_set_initialized : forall b m, P m -> P (set_initialized b m).
Hypothesis P_set_last : forall t m, P m -> P (set_last_connection_attempt t m).
Hypothesis P_clear_devices : forall m, P m -> P (set_devices [] m).
Hypothesis P_scanned : forall l m, P m -> P (scanned l m).
Hypothesis P_selected : forall i m,
  0 <= i < Z.of_nat (List.length (_devices m)) ->
  P m -> P (set_active_device_index i m).

Lemma preserves_get_device_info (i : Z) : preserves P (_get_device_info i).
Proof. unfold _get_device_info. pres. Qed.

Lemma preserves_active_device : preserves P active_device.
Proof. unfold active_device. pres. Qed.

Lemma preserves_scan_devices (w : ScanWorld) : preserves P (scan_devices w).
Proof.
  intros m H.
  destruct (scan_devices_cases w m)
    as [[e [t E]]|[[infos [_ [_ [_ E]]]]|[k [_ [_ E]]]]];
    rewrite E; cbn [final].
  - exact H.
  - apply P_scanned. exact H.
  - apply P_scanned. exact H.
Qed.

Lemma preserves_set_active_device (i : Z) : preserves P (set_active_device i).
Proof.
  intros m H. rewrite set_active_device_run.
  destruct (((i <? 0)%Z || (Z.of_nat (List.length (_devices m)) <=? i)%Z)%bool)
    eqn:E; cbn [final]; [exact H|].
  apply out_of_range_test in E. apply P_selected; [exact E|exact H].
Qed.

Lemma P_mark_connected (m : DeviceManager) : P m -> P (mark_connected m).
Proof.
  unfold mark_connected. destruct (_client m); [apply P_set_client|trivial].
Qed.

Lemma preserves_initialize (now : float) (w : InitWorld) :
  preserves P (initialize now w).
Proof.
  unfold initialize.
  repeat first
    [ apply preserves_scan_devices
    | apply preserves_modify; solve [auto using P_mark_connected]
    | pres_step ].
Qed.

Lemma preserves_vibrate speed position duration (w : VibrateWorld) :
  preserves P (vibrate speed position duration w).
Proof.
  unfold vibrate.
  apply preserves_bind; [apply preserves_active_device|]. intros d. pres.
Qed.

Lemma preserves_stop (w : outcome) : preserves P (stop w).
Proof.
  unfold stop.
  apply preserves_bind; [apply preserves_active_device|]. intros d. pres.
Qed.

Lemma preserves_shutdown (w : ShutdownWorld) : preserves P (shutdown w).
Proof.
  intros m H. rewrite shutdown_run. cbn [final]. auto.
Qed.

(** Every operation keeps [P]. *)
Lemma step_preserves (m m' : DeviceManager) : step m m' -> P m -> P m'.
Proof.
  intros [now w m0|w m0|m0|m0|i m0|speed position duration w m0|w m0|w m0
         |m0|a duration w m0] H.
  - now apply preserves_initialize.
  - now apply preserves_scan_devices.
  - revert H. unfold get_all_devices. pres.
  - revert H. unfold get_active_device. pres.
  - now apply preserves_set_active_device.
  - now apply preserves_vibrate.
  - now apply preserves_stop.
  - now apply preserves_shutdown.
  - now apply preserves_active_device.
  - revert H. unfold _stop_after_delay. pres.
Qed.

End StepPreserves.

Lemma step_index_valid (m m' : DeviceManager) :
  step m m' -> index_valid m -> index_valid m'.
Proof.
  apply step_preserves; unfold index_valid; try (intros; cbn in *; tauto).
  intros [|d l] m0 _ H; cbn in *; [congruence|lia].
Qed.

Lemma init_index_valid (s : Settings) : index_valid (__init__ s).
Proof. intros H. cbn in H. congruence. Qed.

Lemma step_retry_delay (d : float) (m m' : DeviceManager) :
  step m m' -> _connection_retry_delay m = d -> _connection_retry_delay m' = d.
Proof.
  apply (step_preserves (fun m => _connection_retry_delay m = d));
    try (intros; cbn; assumption).
  - intros [|x l] m0 H; unfold scanned, client_sees; destruct (_client m0);
      exact H.
Qed.

Lemma reachable_retry_delay (m : DeviceManager) :
  reachable m -> _connection_retry_delay m = 5%float.
Proof.
  induction 1 as [s|m m' _ IH Hstep|m _ IH|l m _ IH _ _].
  - reflexivity.
  - exact (step_retry_delay _ _ _ Hstep IH).
  - unfold connection_lost. destruct (_client m); exact IH.
  - unfold devices_changed, client_sees. cbn [_client set_devices].
    destruct (_client m); exact IH.
Qed.

(* ================================================================== *)
(** ** Selecting a device *)

(** C3, on the code: inside [[0, len(devices))] the call does not always
    succeed.  The guard counts the entries of the mapping, the lookup
    goes by key.  With DeviceA and DeviceB found and DeviceA gone since,
    the mapping holds DeviceB under key 1: index 0 is inside the range,
    [set_active_device 0] passes the guard, assigns the index and raises
    [KeyError], which is neither a success nor [DeviceNotFoundError].
    With DeviceB selected before, the selection has moved to 0 although
    the call failed. *)
Theorem set_active_device_missing_key :
  reachable device_a_gone /\
  0 <= 0 < Z.of_nat (List.length (_devices device_a_gone)) /\
  res (set_active_device 0 device_a_gone) = Raise (KeyError 0) /\
  _active_device_index (devices_changed [device_b] second_selected) = 1 /\
  res (set_active_device 0 (devices_changed [device_b] second_selected)) =
    Raise (KeyError 0) /\
  _active_device_index
    (final (set_active_device 0
              (devices_changed [device_b] second_selected))) = 0.
Proof.
  split.
  { unfold device_a_gone, two_devices, new_manager.
    apply reach_devices.
    - eapply reach_step; [apply reach_init|apply step_initialize].
    - vm_compute. discriminate.
    - repeat constructor. intros []. }
  repeat split; vm_compute; congruence.
Qed.

(** X24: the three ways [set_active_device i] ends; it never calls the
    client.  Outside [[0, len(devices))] it raises
    [DeviceNotFoundError] (404, device_not_found) and the manager is
    unchanged.  Inside, the index becomes [i], nothing else changing,
    and then the lookup by key decides: with a device under key [i] its
    projection is returned, without one the [KeyError] escapes, the
    index staying assigned. *)
Theorem set_active_device_cases (m : DeviceManager) (i : Z) :
  trace (set_active_device i m) = [] /\
  ((i < 0 \/ Z.of_nat (List.length (_devices m)) <= i) ->
   (exists e, res (set_active_device i m) = Raise (App e) /\
              cls e = DeviceNotFoundError /\
              status_code_pair e = (404, "device_not_found")) /\
   final (set_active_device i m) = m) /\
  (0 <= i < Z.of_nat (List.length (_devices m)) ->
   final (set_active_device i m) = set_active_device_index i m /\
   _active_device_index (final (set_active_device i m)) = i /\
   (forall d, device_at (_devices m) i = Some d ->
      res (set_active_device i m) = Ok (projection d i)) /\
   (device_at (_devices m) i = None ->
      res (set_active_device i m) = Raise (KeyError i))).
Proof.
  split; [|split].
  - rewrite set_active_device_run.
    destruct (_ || _)%bool; reflexivity.
  - intros Hi. rewrite (set_active_device_out_of_range m i Hi).
    cbn [res final].
    split; [|reflexivity]. eexists. split; [reflexivity|].
    unfold exn_msg, new_exn, status_code_pair. cbn [cls status_code code].
    split; reflexivity.
  - intros Hi. rewrite set_active_device_run.
    apply out_of_range_test in Hi. rewrite Hi. cbn [res final].
    split; [reflexivity|]. split; [reflexivity|].
    split; [intros d ->; reflexivity|intros ->; reflexivity].
Qed.

(* ================================================================== *)
(** ** Scanning *)

(** C1, as the code has it: after a successful [scan_devices] the device
    list is the list the client reports, [get_all_devices] returns one
    projection per reported device, and the active-device index is 0 when
    at least one device is reported; a scan that reports no device leaves
    the index as it was. *)
Theorem scan_devices_resets_index (w : ScanWorld) (m : DeviceManager)
    (l : list DeviceInfo) :
  res (scan_devices w m) = Ok l ->
  let m' := final (scan_devices w m) in
  (reported w <> [] -> _active_device_index m' = 0) /\
  (reported w = [] -> _active_device_index m' = _active_device_index m) /\
  _devices m' = reported w /\
  List.length l = List.length (reported w) /\
  exists infos,
    res (get_all_devices m') = Ok infos /\
    List.length infos = List.length (reported w).
Proof.
  intros Hok m'. subst m'.
  destruct (scan_devices_cases w m)
    as [[e [t E]]|[[infos [Hall [Hlen [_ E]]]]|[k [_ [_ E]]]]];
    rewrite E in *; cbn [res final] in *; try discriminate Hok.
  injection Hok as <-.
  assert (_devices (scanned (reported w) m) = reported w) as Hdev.
  { unfold scanned. destruct (reported w); reflexivity. }
  repeat split.
  - unfold scanned. destruct (reported w); [congruence|reflexivity].
  - intros ->. unfold scanned, client_sees.
    destruct (_client m); reflexivity.
  - exact Hdev.
  - exact Hlen.
  - exists infos. rewrite get_all_devices_run, Hdev. cbn [res].
    split; [exact Hall|exact Hlen].
Qed.

(* ================================================================== *)
(** ** The active device *)

Lemma bind_get {A} (k : DeviceManager -> M A) (m : DeviceManager) :
  bind get k m = k m m.
Proof. unfold bind, get. cbn. destruct (k m m); reflexivity. Qed.

(** [active_device] in closed form: [None] on an empty container,
    otherwise the lookup of the active index, by key. *)
Lemma active_device_run (m : DeviceManager) :
  active_device m =
    {| res := match _devices m with
              | [] => Ok None
              | _ :: _ =>
                  match device_at (_devices m) (_active_device_index m) with
                  | Some d => Ok (Some d)
                  | None => Raise (KeyError (_active_device_index m))
                  end
              end;
       final := m; trace := [] |}.
Proof.
  unfold active_device. rewrite bind_get.
  destruct (_devices m) as [|d0 l]; [reflexivity|].
  unfold bind, lift, py_getitem.
  destruct (device_at (d0 :: l) (_active_device_index m)); reflexivity.
Qed.

(** [get_active_device] in closed form. *)
Lemma get_active_device_run (m : DeviceManager) :
  get_active_device m =
    {| res := match _devices m with
              | [] => Ok None
              | _ :: _ =>
                  match res (_get_device_info (_active_device_index m) m) with
                  | Ok i => Ok (Some i)
                  | Raise e => Raise e
                  end
              end;
       final := m; trace := [] |}.
Proof.
  unfold get_active_device. rewrite bind_get.
  destruct (_devices m) as [|d0 l] eqn:E; [reflexivity|].
  unfold bind. rewrite get_device_info_run. cbn [res final trace].
  match goal with |- context [if ?b then _ else _] => destruct b end;
    [reflexivity|].
  destruct (device_at (_devices m) (_active_device_index m)); reflexivity.
Qed.

(** C9, on the code: every operation keeps the index inside
    [[0, len(devices))], but that does not keep [active_device] and
    [get_active_device] from failing on a non-empty container: the
    lookup goes by key.  With DeviceA and DeviceB found and DeviceA gone
    since, the index 0 is inside the range of the one-entry mapping and
    both raise [KeyError].  The client changing its mapping is also what
    breaks the invariant without any operation: with DeviceB selected,
    index 1 is outside the range once DeviceA is gone. *)
Theorem active_device_missing_key :
  reachable device_a_gone /\
  index_valid device_a_gone /\
  _devices device_a_gone <> [] /\
  res (active_device device_a_gone) = Raise (KeyError 0) /\
  res (get_active_device device_a_gone) = Raise (KeyError 0) /\
  index_valid second_selected /\
  ~ index_valid (devices_changed [device_b] second_selected).
Proof.
  split.
  { unfold device_a_gone, two_devices, new_manager.
    apply reach_devices.
    - eapply reach_step; [apply reach_init|apply step_initialize].
    - vm_compute. discriminate.
    - repeat constructor. intros []. }
  split; [intros _; vm_compute; split; [discriminate|reflexivity]|].
  split; [vm_compute; discriminate|].
  split; [vm_compute; reflexivity|].
  split; [vm_compute; reflexivity|].
  split; [intros _; vm_compute; split; [discriminate|reflexivity]|].
  intros H. assert (_devices (devices_changed [device_b] second_selected)
                    <> []) as Hne by (vm_compute; discriminate).
  specialize (H Hne). vm_compute in H. destruct H as [_ H]. discriminate H.
Qed.

(** X25: the index invariant and what it gives.  It holds of a new
    manager and is kept by every operation and by a dropped connection;
    the client changing its mapping is what can break it.  Under it,
    [active_device] and [get_active_device] return [None] exactly when
    the container is empty; on a non-empty one they return the device
    under the active index and its projection when the mapping has that
    key, and raise [KeyError] when it does not. *)
Theorem index_valid_kept (m : DeviceManager) :
  index_valid m ->
  index_valid (__init__ (settings m)) /\
  (forall m', step m m' -> index_valid m') /\
  index_valid (connection_lost m) /\
  (res (active_device m) = Ok None <-> _devices m = []) /\
  (res (get_active_device m) = Ok None <-> _devices m = []) /\
  (forall d,
     device_at (_devices m) (_active_device_index m) = Some d ->
     res (active_device m) = Ok (Some d) /\
     res (get_active_device m) =
       Ok (Some (projection d (_active_device_index m)))) /\
  (_devices m <> [] ->
   device_at (_devices m) (_active_device_index m) = None ->
   res (active_device m) = Raise (KeyError (_active_device_index m)) /\
   res (get_active_device m) = Raise (KeyError (_active_device_index m))).
Proof.
  intros Hv.
  split; [apply init_index_valid|].
  split; [intros m' Hs; exact (step_index_valid m m' Hs Hv)|].
  split; [unfold connection_lost; destruct (_client m); exact Hv|].
  rewrite active_device_run, get_active_device_run, get_device_info_run.
  cbn [res].
  destruct (_devices m) as [|d0 l] eqn:El.
  - split; [split; reflexivity|]. split; [split; reflexivity|].
    split; [intros d H; discriminate H|intros H; congruence].
  - assert (0 <= _active_device_index m
            < Z.of_nat (List.length (d0 :: l))) as Hi.
    { rewrite <- El. apply Hv. rewrite El. discriminate. }
    apply out_of_range_test in Hi. rewrite Hi.
    destruct (device_at (d0 :: l) (_active_device_index m)) as [d|].
    + split; [split; discriminate|]. split; [split; discriminate|].
      split; [|intros _ H; discriminate H].
      intros d' [= <-]. split; reflexivity.
    + split; [split; discriminate|]. split; [split; discriminate|].
      split; [intros d' H; discriminate H|].
      intros _ _. split; reflexivity.
Qed.

Lemma index_valid_kept_witness :
  index_valid second_selected /\
  res (active_device second_selected) = Ok (Some device_b) /\
  res (get_active_device second_selected) = Ok (Some (projection device_b 1)) /\
  index_valid (final (scan_devices (scan_finds []) second_selected)).
Proof.
  assert (index_valid second_selected) as Hv.
  { intros _. vm_compute. split; [discriminate|reflexivity]. }
  destruct (index_valid_kept second_selected Hv)
    as [_ [Hstep [_ [_ [_ [Hd _]]]]]].
  destruct (Hd device_b) as [Ha Hg]; [vm_compute; reflexivity|].
  split; [exact Hv|]. split; [exact Ha|]. split; [exact Hg|].
  apply Hstep. apply step_scan_devices.
Defined.

(* ================================================================== *)
(** ** Vibrating *)

(** Reading the active device changes nothing, whatever it returns. *)
Lemma active_device_frame (m : DeviceManager) :
  active_device m =
    {| res := res (active_device m); final := m; trace := [] |}.
Proof.
  unfold active_device. rewrite bind_get.
  destruct (_devices m) as [|d0 l]; [reflexivity|].
  unfold bind. destruct (py_getitem (d0 :: l) (_active_device_index m));
    reflexivity.
Qed.

Lemma vibrate_run speed position duration (w : VibrateWorld)
    (m : DeviceManager) (d : Device) (a : Actuator) (l : list Actuator) :
  res (active_device m) = Ok (Some d) ->
  actuators d = a :: l ->
  vibrate speed position duration w m =
    vibrate_dispatch speed position duration w m d a.
Proof.
  intros Hd Ha. unfold vibrate, vibrate_dispatch, bind at 1.
  rewrite active_device_frame, Hd. cbn [res final trace]. rewrite Ha.
  destruct w as [o1 o2].
  destruct o1 as [|[e|msg|msg|msg|msg]]; [| | |destruct o2 as [|e]| |];
    destruct (0 <? duration)%float; run; reflexivity.
Qed.

(** Without an active device with an actuator, [vibrate] calls nothing. *)
Lemma vibrate_no_device speed position duration (w : VibrateWorld)
    (m : DeviceManager) :
  res (active_device m) = Ok None \/
  (exists d, res (active_device m) = Ok (Some d) /\ actuators d = []) ->
  vibrate speed position duration w m =
    {| res := Raise (App (exn_default DeviceNotFoundError));
       final := m; trace := [] |}.
Proof.
  intros H. unfold vibrate, bind at 1. rewrite active_device_frame.
  destruct H as [H|[d [H Ha]]]; rewrite H; cbn [res final trace];
    [|rewrite Ha]; reflexivity.
Qed.

Lemma vibrate_key_error speed position duration (w : VibrateWorld)
    (m : DeviceManager) (e : exn) :
  res (active_device m) = Raise e ->
  vibrate speed position duration w m =
    {| res := Raise e; final := m; trace := [] |} /\
  e = KeyError (_active_device_index m).
Proof.
  intros H. split.
  - unfold vibrate, bind at 1. rewrite active_device_frame, H. reflexivity.
  - revert H. rewrite active_device_run. cbn [res].
    destruct (_devices m) as [|d0 l]; [discriminate|].
    destruct (device_at _ _); [discriminate|]. intros [= <-]. reflexivity.
Qed.

(** The three ways a run of [vibrate] goes, by what the active device is. *)
Lemma vibrate_cases speed position duration (w : VibrateWorld)
    (m : DeviceManager) :
  (exists e, vibrate speed position duration w m =
               {| res := Raise e; final := m; trace := [] |}) \/
  (exists d a l,
     res (active_device m) = Ok (Some d) /\ actuators d = a :: l /\
     vibrate speed position duration w m =
       vibrate_dispatch speed position duration w m d a).
Proof.
  destruct (res (active_device m)) as [[d|]|e] eqn:Ea.
  - destruct (actuators d) as [|a l] eqn:Ha.
    + left. eexists. apply vibrate_no_device. right. exists d. auto.
    + right. exists d, a, l. repeat split; try assumption.
      now apply (vibrate_run speed position duration w m d a l).
  - left. eexists. apply vibrate_no_device. left. exact Ea.
  - left. exists e. now apply vibrate_key_error.
Qed.


(** C8: when [vibrate] is given a positive duration and its dispatch
    succeeds, it returns the result record (success flag, device name,
    applied speed, position if given, duration) after only the dispatch
    and the creation of the stop task: its own trace holds no sleep and no
    stop command.  The task, whatever the actuator answers to the stop
    command, ends normally: the exception is caught inside it. *)
Theorem vibrate_deferred_stop speed position duration
    (w : VibrateWorld) (m : DeviceManager) (rec : pydict) :
  (0 <? duration)%float = true ->
  res (vibrate speed position duration w m) = Ok rec ->
  exists d a l,
    res (active_device m) = Ok (Some d) /\ actuators d = a :: l /\
    rec = ([("success", VBool true); ("device", VStr (dev_name d));
            ("speed", VFloat (clamp01 speed))]
           ++ match position with
              | Some p => [("position", VFloat (clamp01 p))]
              | None => []
              end
           ++ [("duration", VFloat duration)])%list /\
    final (vibrate speed position duration w m) = m /\
    (exists t,
       trace (vibrate speed position duration w m) =
         (t ++ [CreateTask a duration])%list /\
       forall ev, In ev t ->
         exists p, ev = Command a (PyFloat (clamp01 speed)) p) /\
    forall o m',
      _stop_after_delay a duration o m' =
        {| res := Ok tt; final := m';
           trace := [Sleep (PyFloat duration); Command a (PyInt 0) None] |}.
Proof.
  intros Hdur Hok.
  destruct (vibrate_cases speed position duration w m)
    as [[e E]|[d [a [l [Hd [Ha E]]]]]]; rewrite E in *;
    [discriminate Hok|].
  exists d, a, l. split; [exact Hd|]. split; [exact Ha|].
  unfold vibrate_dispatch, vibrate_result in *. rewrite Hdur in *.
  assert (forall o m',
            _stop_after_delay a duration o m' =
              {| res := Ok tt; final := m';
                 trace := [Sleep (PyFloat duration);
                           Command a (PyInt 0) None] |}) as Htask.
  { intros [|e] m'; reflexivity. }
  destruct (first_command w) as [|[e|msg|msg|msg|msg]];
    [| | |destruct (fallback_command w) as [|e2]| |];
    cbn [res final trace] in *; try discriminate Hok;
    injection Hok as <-.
  - split; [destruct position; reflexivity|]. split; [reflexivity|].
    split; [|exact Htask].
    exists [Command a (PyFloat (clamp01 speed)) (option_map clamp01 position)].
    split; [reflexivity|].
    intros ev [<-|[]]. eexists. reflexivity.
  - split; [destruct position; reflexivity|]. split; [reflexivity|].
    split; [|exact Htask].
    exists [Command a (PyFloat (clamp01 speed)) (option_map clamp01 position);
            Command a (PyFloat (clamp01 speed)) None].
    split; [reflexivity|].
    intros ev [<-|[<-|[]]]; eexists; reflexivity.
Qed.

(** C4: for every speed and optional position, whatever [vibrate]
    dispatches carries the speed clamped into [[0.0, 1.0]], the first
    command dispatched carries the clamped position when one is given (the
    speed-only command sent after a [TypeError] carries none), the result
    record reports the clamped values, and an actuator that accepts the
    command makes [vibrate] return whatever the inputs were: nothing is
    rejected for being out of range.  Speed 1.5 is dispatched as 1.0 and
    speed -0.2 as 0.0. *)
Theorem vibrate_clamps speed position duration
    (w : VibrateWorld) (m : DeviceManager) :
  let r := vibrate speed position duration w m in
  clamped01 speed (clamp01 speed) /\
  (forall p, position = Some p -> clamped01 p (clamp01 p)) /\
  (forall a i p, In (Command a i p) (trace r) ->
     i = PyFloat (clamp01 speed) /\
     (p = None \/ p = option_map clamp01 position)) /\
  (forall d a l,
     res (active_device m) = Ok (Some d) -> actuators d = a :: l ->
     (exists t, trace r = Command a (PyFloat (clamp01 speed))
                            (option_map clamp01 position) :: t) /\
     (first_command w = Returns -> exists rec, res r = Ok rec)) /\
  (forall rec, res r = Ok rec ->
     dict_get "speed" rec = Some (VFloat (clamp01 speed)) /\
     dict_get "position" rec =
       option_map (fun p => VFloat (clamp01 p)) position) /\
  clamp01 1.5 = 1%float /\ clamp01 (-0.2) = 0%float.
Proof.
  intros r. subst r.
  split; [apply clamp01_clamped|].
  split; [intros p _; apply clamp01_clamped|].
  assert (forall d a,
            let r := vibrate_dispatch speed position duration w m d a in
            (forall a' i p, In (Command a' i p) (trace r) ->
               i = PyFloat (clamp01 speed) /\
               (p = None \/ p = option_map clamp01 position)) /\
            (exists t, trace r = Command a (PyFloat (clamp01 speed))
                                   (option_map clamp01 position) :: t) /\
            (first_command w = Returns -> exists rec, res r = Ok rec) /\
            (forall rec, res r = Ok rec ->
               dict_get "speed" rec = Some (VFloat (clamp01 speed)) /\
               dict_get "position" rec =
                 option_map (fun p => VFloat (clamp01 p)) position))
    as Hdispatch.
  { intros d a. unfold vibrate_dispatch, vibrate_result.
    destruct (first_command w) as [|[e|msg|msg|msg|msg]];
      [| | |destruct (fallback_command w) as [|e2]| |];
      destruct (0 <? duration)%float; cbn [res final trace];
      (split;
       [intros a' i p Hin; cbn [In] in Hin;
        repeat match goal with
               | H : _ \/ _ |- _ => destruct H
               | H : Command _ _ _ = Command _ _ _ |- _ =>
                   injection H as <- <- <-
               | H : CreateTask _ _ = Command _ _ _ |- _ => discriminate H
               | H : False |- _ => contradiction
               end; auto|]);
      (split; [eexists; reflexivity|]);
      (split; [intros H; try discriminate H; eexists; reflexivity|]);
      intros rec Hrec; try discriminate Hrec; injection Hrec as <-;
      destruct position; split; reflexivity. }
  destruct (vibrate_cases speed position duration w m)
    as [[e E]|[d [a [l [Hd [Ha E]]]]]]; rewrite E.
  - cbn [res trace]. split; [intros a i p []|].
    split.
    + intros d a l Hd Ha.
      rewrite (vibrate_run speed position duration w m d a l Hd Ha) in E.
      unfold vibrate_dispatch in E.
      destruct (first_command w) as [|[e0|msg|msg|msg|msg]];
        [| | |destruct (fallback_command w)| |]; discriminate E.
    + split; [intros rec Hrec; discriminate Hrec|].
      split; vm_compute; reflexivity.
  - destruct (Hdispatch d a) as [H1 [H2 [H3 H4]]].
    split; [exact H1|]. split.
    + intros d' a' l' Hd' Ha'.
      assert (d' = d) as -> by congruence.
      assert (a' = a) as -> by congruence.
      split; assumption.
    + split; [exact H4|]. split; vm_compute; reflexivity.
Qed.

(* ================================================================== *)
(** ** Connecting and the backoff *)

(** The three ways [initialize] goes: nothing to do, rejected by the
    backoff guard, or a connection attempt. *)
Lemma initialize_noop (now : float) (w : InitWorld) (m : DeviceManager) :
  (_initialized m && is_connected m)%bool = true ->
  initialize now w m = {| res := Ok tt; final := m; trace := [] |}.
Proof.
  intros H. unfold initialize. rewrite bind_get, H. reflexivity.
Qed.

Lemma initialize_rate_limited (now : float) (w : InitWorld) (m : DeviceManager) :
  (_initialized m && is_connected m)%bool = false ->
  too_recent now m = true ->
  initialize now w m = {| res := Raise rate_limited; final := m; trace := [] |}.
Proof.
  intros H1 H2. unfold initialize. rewrite bind_get, H1, H2. reflexivity.
Qed.

Lemma initialize_attempt (now : float) (w : InitWorld) (m : DeviceManager) :
  (_initialized m && is_connected m)%bool = false ->
  too_recent now m = false ->
  let r := initialize now w m in
  (exists t, trace r =
     NewClient "ButtplugST" :: Connect (url (websocket (settings m))) :: t) /\
  _last_connection_attempt (final r) = now /\
  (forall e, connect_result w = Raises e ->
     is_connected (final r) = false /\
     exists a, res r = Raise (App a) /\
       (cls a = IntifaceConnectionError \/ cls a = DeviceConnectionError)) /\
  (res r = Ok tt ->
     connect_result w = Returns /\ is_connected (final r) = true /\
     _initialized (final r) = true).
Proof.
  intros H1 H2 r. subst r. unfold initialize. rewrite bind_get, H1, H2.
  destruct m as [s c ds idx ini last delay], w as [o [o1 o2 rep]].
  clear H1 H2.
  destruct c as [[cn [|] cds]|], o as [|e]; run.
  all: try match goal with
    | |- context [scan_devices ?w ?s] =>
        destruct (scan_devices_cases w s)
          as [[e [t E]]|[[infos [_ [_ [_ E]]]]|[k [_ [_ E]]]]];
        rewrite E; run; [|destruct rep|destruct rep]
    end.
  all: try match goal with e : exn |- _ => destruct e end; run.
  all: (split; [eexists; reflexivity|]).
  all: (split; [reflexivity|]).
  all: split;
    [ intros e0 He0; try discriminate He0;
      (split; [reflexivity|]); eexists; (split; [reflexivity|]);
      cbn; auto
    | intros Hok; try discriminate Hok; repeat split ].
Qed.

(** A call whose trace holds a connect passed both guards. *)
Lemma initialize_connect_attempted (now : float) (w : InitWorld)
    (m : DeviceManager) (u : string) :
  In (Connect u) (trace (initialize now w m)) ->
  (_initialized m && is_connected m)%bool = false /\ too_recent now m = false.
Proof.
  intros Hin.
  destruct (_initialized m && is_connected m)%bool eqn:G1.
  - rewrite (initialize_noop now w m G1) in Hin. contradiction.
  - destruct (too_recent now m) eqn:G2; [|split; reflexivity].
    rewrite (initialize_rate_limited now w m G1 G2) in Hin. contradiction.
Qed.

(** C2: when a call of [initialize] at time [t] attempts a connection and
    the connection fails, a second call at a time [t'] with [t' - t < 5]
    raises the rate-limit failure of the backoff guard, issues no call to
    the outside (no client is created, no connect is sent) and leaves the
    manager as it was.  The clock reads a positive time (seconds since the
    epoch), and less-than is that of the floats [initialize] computes
    with. *)
Theorem initialize_backoff_after_failure (m0 : DeviceManager)
    (t t' : float) (w w' : InitWorld) (e : exn) :
  reachable m0 ->
  (0 <? t)%float = true ->
  In (Connect (url (websocket (settings m0)))) (trace (initialize t w m0)) ->
  connect_result w = Raises e ->
  (t' - t <? 5)%float = true ->
  let m1 := final (initialize t w m0) in
  (exists a, res (initialize t w m0) = Raise (App a)) /\
  initialize t' w' m1 =
    {| res := Raise rate_limited; final := m1; trace := [] |}.
Proof.
  intros Hreach Hpos Hin Hfail Hsoon m1. subst m1.
  destruct (initialize_connect_attempted t w m0 _ Hin) as [G1 G2].
  destruct (initialize_attempt t w m0 G1 G2) as [_ [Hlast [Hraise _]]].
  destruct (Hraise e Hfail) as [Hnc [a [Hres _]]].
  split; [exists a; exact Hres|].
  apply initialize_rate_limited.
  - rewrite Hnc. apply andb_false_r.
  - unfold too_recent. rewrite Hlast.
    rewrite (step_retry_delay 5%float m0 _ (step_initialize t w m0)
               (reachable_retry_delay m0 Hreach)).
    rewrite Hpos, Hsoon. reflexivity.
Qed.

(** C10: the backoff covers a successful attempt too.  After a call of
    [initialize] at time [t] that connected and returned, and a
    [shutdown], a call of [initialize] at a time [t'] with [t' - t < 5] is
    rejected by the backoff guard without any call to the outside:
    [shutdown] keeps the timestamp the attempt recorded. *)
Theorem initialize_backoff_after_shutdown (m0 : DeviceManager)
    (t t' : float) (w w' : InitWorld) (ws : ShutdownWorld) :
  reachable m0 ->
  (0 <? t)%float = true ->
  In (Connect (url (websocket (settings m0)))) (trace (initialize t w m0)) ->
  res (initialize t w m0) = Ok tt ->
  (t' - t <? 5)%float = true ->
  let m1 := final (initialize t w m0) in
  let m2 := final (shutdown ws m1) in
  is_connected m1 = true /\
  _last_connection_attempt m1 = t /\
  res (shutdown ws m1) = Ok tt /\
  _last_connection_attempt m2 = t /\
  initialize t' w' m2 =
    {| res := Raise rate_limited; final := m2; trace := [] |}.
Proof.
  intros Hreach Hpos Hin Hok Hsoon m1 m2. subst m1 m2.
  destruct (initialize_connect_attempted t w m0 _ Hin) as [G1 G2].
  destruct (initialize_attempt t w m0 G1 G2) as [_ [Hlast [_ Hdone]]].
  destruct (Hdone Hok) as [_ [Hconn _]].
  pose proof (step_retry_delay 5%float m0 _ (step_initialize t w m0)
                (reachable_retry_delay m0 Hreach)) as Hdelay.
  rewrite shutdown_run. cbn [res final].
  split; [exact Hconn|]. split; [exact Hlast|]. split; [reflexivity|].
  split; [exact Hlast|].
  apply initialize_rate_limited; [reflexivity|].
  unfold too_recent. cbn [_last_connection_attempt _connection_retry_delay
                          set_initialized set_devices set_client].
  rewrite Hlast, Hdelay, Hpos, Hsoon. reflexivity.
Qed.

(* ================================================================== *)
(** ** Shutting down *)

(** C5, as the code has it: [shutdown] on a manager without a connection
    returns, issues no call to the outside, and clears the client handle,
    the device list and the initialized flag; the settings, the retry
    delay, the active-device index and the timestamp of the last
    connection attempt keep their values, so the manager left behind is
    the newly constructed one exactly when the index and the timestamp
    already had their initial values.  A second [shutdown] changes
    nothing. *)
Theorem shutdown_without_connection (w w2 : ShutdownWorld)
    (m : DeviceManager) :
  is_connected m = false ->
  let m' := final (shutdown w m) in
  res (shutdown w m) = Ok tt /\
  trace (shutdown w m) = [] /\
  _client m' = None /\ _devices m' = [] /\ _initialized m' = false /\
  settings m' = settings m /\
  _connection_retry_delay m' = _connection_retry_delay m /\
  _active_device_index m' = _active_device_index m /\
  _last_connection_attempt m' = _last_connection_attempt m /\
  shutdown w2 m' = {| res := Ok tt; final := m'; trace := [] |} /\
  (m' = __init__ (settings m) <->
   _active_device_index m = 0 /\
   _last_connection_attempt m = 0%float /\
   _connection_retry_delay m = 5%float).
Proof.
  intros Hnc m'. subst m'.
  rewrite !shutdown_run. cbn [res final trace]. rewrite Hnc.
  change (is_connected
            (set_initialized false (set_devices [] (set_client None m))))
    with false. cbv iota.
  repeat match goal with |- _ /\ _ => split end; try reflexivity.
  split.
  - destruct m as [s c ds idx ini last delay]. cbn.
    intros H. injection H as -> -> ->. repeat split.
  - destruct m as [s c ds idx ini last delay]. cbn.
    intros [-> [-> ->]]. reflexivity.
Qed.

(* ================================================================== *)
(** ** The status/code pairs of the failures *)

Lemma class_pair_injective (c1 c2 : exn_class) :
  (class_status_code c1, class_code c1) = (class_status_code c2, class_code c2) ->
  c1 = c2.
Proof. destruct c1, c2; intros H; try reflexivity; discriminate H. Qed.

Lemma exn_msg_pair (c : exn_class) (msg : string) :
  status_code_pair (exn_msg c msg) = (class_status_code c, class_code c).
Proof. reflexivity. Qed.

(** C6, as the code has it: the exception classes carry pairwise distinct
    status/code pairs, so failures of two different kinds carry different
    pairs, except for the rate-limit failure and the upstream connection
    failure: both are raised as [IntifaceConnectionError] and carry the
    pair (502, intiface_connection_error), whatever their messages. *)
Theorem status_code_pairs_of_kinds (k1 k2 : failure_kind)
    (msg1 msg2 : string) :
  k1 <> k2 ->
  (status_code_pair (exn_msg (kind_class k1) msg1) =
   status_code_pair (exn_msg (kind_class k2) msg2) <->
   (k1 = RateLimited /\ k2 = UpstreamConnectionError) \/
   (k1 = UpstreamConnectionError /\ k2 = RateLimited)) /\
  status_code_pair (exn_msg (kind_class RateLimited) msg1) =
    (502, "intiface_connection_error") /\
  status_code_pair (exn_msg (kind_class UpstreamConnectionError) msg2) =
    (502, "intiface_connection_error") /\
  (forall c1 c2 : exn_class,
     status_code_pair (exn_msg c1 msg1) = status_code_pair (exn_msg c2 msg2) ->
     c1 = c2).
Proof.
  intros Hne. split; [|split; [reflexivity|split; [reflexivity|]]].
  - rewrite !exn_msg_pair. split.
    + intros H. apply class_pair_injective in H.
      destruct k1, k2; try congruence; try discriminate H; auto.
    + intros [[-> ->]|[-> ->]]; reflexivity.
  - intros c1 c2. rewrite !exn_msg_pair. apply class_pair_injective.
Qed.

(* ================================================================== *)
(** ** The properties on the session *)

(** C1 does not hold when no device is found: with the second device
    selected, a scan that reports no device returns and the index is
    still 1. *)
Lemma scan_devices_no_device_keeps_index :
  res (scan_devices (scan_finds []) second_selected) = Ok [] /\
  reported (scan_finds []) = [] /\
  _active_device_index second_selected = 1 /\
  _active_device_index
    (final (scan_devices (scan_finds []) second_selected)) = 1 /\
  _active_device_index
    (final (scan_devices (scan_finds []) second_selected)) <> 0.
Proof.
  repeat split; try (vm_compute; reflexivity).
  vm_compute. discriminate.
Qed.

Lemma scan_devices_resets_index_witness :
  res (scan_devices (scan_finds [device_a]) second_selected) =
    Ok [projection device_a 0] /\
  _active_device_index second_selected = 1 /\
  _active_device_index
    (final (scan_devices (scan_finds [device_a]) second_selected)) = 0 /\
  _devices (final (scan_devices (scan_finds [device_a]) second_selected)) =
    [device_a].
Proof.
  assert (res (scan_devices (scan_finds [device_a]) second_selected) =
            Ok [projection device_a 0]) as Hok by (vm_compute; reflexivity).
  destruct (scan_devices_resets_index (scan_finds [device_a]) second_selected
              [projection device_a 0] Hok) as [Hzero [_ [Hdev _]]].
  split; [exact Hok|]. split; [vm_compute; reflexivity|].
  split; [apply Hzero; discriminate|exact Hdev].
Defined.

Lemma initialize_backoff_after_failure_witness :
  (0 <? 100)%float = true /\
  In (Connect (url (websocket (settings new_manager))))
     (trace (initialize 100 server_down new_manager)) /\
  (102 - 100 <? 5)%float = true /\
  initialize 102 (server_up [device_a]) refused =
    {| res := Raise rate_limited; final := refused; trace := [] |}.
Proof.
  assert (In (Connect (url (websocket (settings new_manager))))
             (trace (initialize 100 server_down new_manager))) as Hin
    by (vm_compute; right; left; reflexivity).
  split; [reflexivity|]. split; [exact Hin|]. split; [reflexivity|].
  apply (initialize_backoff_after_failure new_manager 100 102 server_down
           (server_up [device_a]) (ConnectorError "connection refused")
           (reach_init default_settings) eq_refl Hin eq_refl eq_refl).
Defined.

Lemma initialize_backoff_after_shutdown_witness :
  (0 <? 100)%float = true /\
  res (initialize 100 (server_up [device_a; device_b]) new_manager) = Ok tt /\
  (102 - 100 <? 5)%float = true /\
  initialize 102 (server_up [device_a; device_b])
    (final (shutdown quiet_shutdown two_devices)) =
    {| res := Raise rate_limited;
       final := final (shutdown quiet_shutdown two_devices);
       trace := [] |}.
Proof.
  assert (In (Connect (url (websocket (settings new_manager))))
             (trace (initialize 100 (server_up [device_a; device_b])
                       new_manager))) as Hin
    by (vm_compute; right; left; reflexivity).
  assert (res (initialize 100 (server_up [device_a; device_b]) new_manager)
          = Ok tt) as Hok by (vm_compute; reflexivity).
  split; [reflexivity|]. split; [exact Hok|]. split; [reflexivity|].
  apply (initialize_backoff_after_shutdown new_manager 100 102
           (server_up [device_a; device_b]) (server_up [device_a; device_b])
           quiet_shutdown (reach_init default_settings) eq_refl Hin Hok
           eq_refl).
Defined.

(** C5 does not hold as stated: after a refused connection at time 100,
    [shutdown] finds no connection and returns, and the manager it leaves
    still has the timestamp 100, not the initial 0; after a dropped
    connection with the second device selected, it still has index 1. *)
Lemma shutdown_keeps_index_and_timestamp :
  (is_connected refused = false /\
   res (shutdown quiet_shutdown refused) = Ok tt /\
   (_last_connection_attempt (final (shutdown quiet_shutdown refused))
    =? 100)%float = true /\
   (_last_connection_attempt (__init__ (settings refused)) =? 100)%float
   = false /\
   final (shutdown quiet_shutdown refused) <> __init__ (settings refused)) /\
  (is_connected dropped = false /\
   res (shutdown quiet_shutdown dropped) = Ok tt /\
   _active_device_index (final (shutdown quiet_shutdown dropped)) = 1 /\
   _active_device_index (__init__ (settings dropped)) = 0 /\
   final (shutdown quiet_shutdown dropped) <> __init__ (settings dropped)).
Proof.
  repeat split; try (vm_compute; reflexivity).
  - intros H.
    apply (f_equal (fun m => (_last_connection_attempt m =? 100)%float)) in H.
    vm_compute in H. discriminate H.
  - intros H. apply (f_equal _active_device_index) in H.
    vm_compute in H. discriminate H.
Qed.

Lemma shutdown_without_connection_witness :
  is_connected refused = false /\
  res (shutdown quiet_shutdown refused) = Ok tt /\
  trace (shutdown quiet_shutdown refused) = [] /\
  _client (final (shutdown quiet_shutdown refused)) = None /\
  _last_connection_attempt (final (shutdown quiet_shutdown refused)) =
    _last_connection_attempt refused.
Proof.
  assert (is_connected refused = false) as Hnc by (vm_compute; reflexivity).
  destruct (shutdown_without_connection quiet_shutdown quiet_shutdown refused
              Hnc) as [H1 [H2 [H3 [_ [_ [_ [_ [_ [H4 _]]]]]]]]].
  repeat split; assumption.
Defined.

(** C6 does not hold as stated: the rate-limit failure of a second
    [initialize] and the connection failure of the first carry the same
    pair, and differ in their messages only. *)
Lemma rate_limit_shares_pair :
  exists e1 e2,
    res (initialize 102 (server_up [device_a]) refused) = Raise (App e1) /\
    res (initialize 100 server_down new_manager) = Raise (App e2) /\
    detail e1 = rate_limit_message /\
    detail e2 = "Failed to connect to Intiface: connection refused" /\
    cls e1 = kind_class RateLimited /\
    cls e2 = kind_class UpstreamConnectionError /\
    status_code_pair e1 = status_code_pair e2.
Proof.
  do 2 eexists. repeat split; vm_compute; reflexivity.
Qed.

Lemma status_code_pairs_of_kinds_witness :
  DeviceNotFound <> CommandFailed /\
  status_code_pair (exn_msg (kind_class DeviceNotFound) "no device") <>
  status_code_pair (exn_msg (kind_class CommandFailed) "failed").
Proof.
  assert (DeviceNotFound <> CommandFailed) as Hne by discriminate.
  split; [exact Hne|].
  destruct (status_code_pairs_of_kinds DeviceNotFound CommandFailed
              "no device" "failed" Hne) as [[H _] _].
  intros Heq. destruct (H Heq) as [[E _]|[E _]]; discriminate E.
Defined.

Lemma vibrate_deferred_stop_witness :
  (0 <? 2)%float = true /\
  res (vibrate 0.75 (Some 0.25%float) 2 accepting two_devices) =
    Ok [("success", VBool true); ("device", VStr "DeviceA");
        ("speed", VFloat 0.75); ("position", VFloat 0.25);
        ("duration", VFloat 2)] /\
  trace (vibrate 0.75 (Some 0.25%float) 2 accepting two_devices) =
    [Command (vibrator 0) (PyFloat 0.75) (Some 0.25%float);
     CreateTask (vibrator 0) 2] /\
  forall o m',
    res (_stop_after_delay (vibrator 0) 2 o m') = Ok tt.
Proof.
  assert (res (vibrate 0.75 (Some 0.25%float) 2 accepting two_devices) =
            Ok [("success", VBool true); ("device", VStr "DeviceA");
                ("speed", VFloat 0.75); ("position", VFloat 0.25);
                ("duration", VFloat 2)]) as Hok by (vm_compute; reflexivity).
  destruct (vibrate_deferred_stop 0.75 (Some 0.25%float) 2 accepting
              two_devices _ eq_refl Hok)
    as [d [a [l [Hd [Ha [_ [_ [_ Htask]]]]]]]].
  assert (a = vibrator 0) as ->.
  { vm_compute in Hd. injection Hd as <-. vm_compute in Ha.
    injection Ha as <- _. reflexivity. }
  split; [reflexivity|]. split; [exact Hok|].
  split; [vm_compute; reflexivity|].
  intros o m'. rewrite Htask. reflexivity.
Defined.

(* ================================================================== *)
(** ** The end-to-end scenario: DeviceA and DeviceB *)

(** The scan returns both devices in order, with their actuator counts. *)
Example scan_two_devices :
  res (scan_devices (scan_finds [device_a; device_b]) two_devices) =
    Ok [ {| id := 0; name := "DeviceA"; index := 0; actuator_count := 1;
            actuator_types := ["Actuator"] |};
         {| id := 1; name := "DeviceB"; index := 1; actuator_count := 2;
            actuator_types := ["Actuator"; "Actuator"] |} ].
Proof. vm_compute. reflexivity. Qed.

(** Selecting index 1 selects DeviceB; index 2 and index -1 are refused. *)
Example select_device_b :
  res (set_active_device 1 two_devices) = Ok (projection device_b 1) /\
  res (active_device second_selected) = Ok (Some device_b) /\
  res (set_active_device 2 two_devices) =
    Raise (App (exn_msg DeviceNotFoundError "Device index 2 out of range")) /\
  res (set_active_device (-1) two_devices) =
    Raise (App (exn_msg DeviceNotFoundError "Device index -1 out of range")).
Proof. repeat split; vm_compute; reflexivity. Qed.

(** [vibrate(speed=0.75, position=0.25)] on DeviceB tries the two-argument
    command on the first actuator, and sends the speed alone when the
    actuator rejects two arguments. *)
Example vibrate_falls_back :
  trace (vibrate 0.75 (Some 0.25%float) 0
           {| first_command := Raises (TypeError "takes 2 positional arguments");
              fallback_command := Returns |} second_selected) =
    [Command (vibrator 0) (PyFloat 0.75) (Some 0.25%float);
     Command (vibrator 0) (PyFloat 0.75) None] /\
  res (vibrate 0.75 (Some 0.25%float) 0
         {| first_command := Raises (TypeError "takes 2 positional arguments");
            fallback_command := Returns |} second_selected) =
    Ok [("success", VBool true); ("device", VStr "DeviceB");
        ("speed", VFloat 0.75); ("position", VFloat 0.25)].
Proof. split; vm_compute; reflexivity. Qed.

(** Out-of-range speeds are dispatched clamped. *)
Example vibrate_out_of_range :
  trace (vibrate 1.5 None 0 accepting two_devices) =
    [Command (vibrator 0) (PyFloat 1) None] /\
  trace (vibrate (-0.2) None 0 accepting two_devices) =
    [Command (vibrator 0) (PyFloat 0) None].
Proof. split; vm_compute; reflexivity. Qed.

(* ================================================================== *)
(** ** The device mapping and its projections *)

(** What [project_all] collects, by position. *)
Lemma project_all_ok (l : device_map) (infos : list DeviceInfo) :
  project_all l = Ok infos ->
  List.length infos = List.length l /\
  forall i, (i < List.length l)%nat ->
    exists d, device_at l (Z.of_nat i) = Some d /\
              nth_error infos i = Some (projection d (Z.of_nat i)).
Proof.
  unfold project_all. intros E.
  destruct (project_keys_ok _ _ _ E) as [Hlen Hnth].
  rewrite py_range_length in Hlen, Hnth.
  split; [exact Hlen|]. intros i Hi.
  destruct (Hnth i Hi) as [k [d [Hk [Hd Hi']]]].
  unfold py_range in Hk. rewrite nth_error_map, nth_error_seq in Hk.
  destruct (Nat.ltb_spec i (List.length l)) as [_|Hge]; [|lia].
  cbn in Hk. injection Hk as <-. exists d. split; assumption.
Qed.

Lemma project_all_raise (l : device_map) (e : exn) :
  project_all l = Raise e ->
  exists k, e = KeyError k /\ 0 <= k < Z.of_nat (List.length l) /\
            device_at l k = None.
Proof.
  unfold project_all. intros E.
  destruct (project_keys_raise _ _ _ E) as [k [He [Hin Hk]]].
  exists k. split; [exact He|]. split; [|exact Hk].
  apply py_range_in. exact Hin.
Qed.

Lemma project_all_complete (l : device_map) :
  (exists infos, project_all l = Ok infos) <-> complete l.
Proof.
  split.
  - intros [infos E] i Hi Hnone.
    destruct (project_all_ok l infos E) as [_ Hnth].
    destruct (Hnth (Z.to_nat i)) as [d [Hd _]]; [lia|].
    rewrite Z2Nat.id in Hd by lia. congruence.
  - intros Hc. apply project_keys_complete.
    intros i Hi. apply Hc. apply py_range_in. exact Hi.
Qed.

(** X1: [get_all_devices] calls nothing and changes nothing.  It
    returns exactly when every index below the number of devices is a
    key of the mapping, and then gives one projection per index, of the
    device under that key; otherwise it raises the [KeyError] of an
    index inside the range that is not a key. *)
Theorem get_all_devices_spec (m : DeviceManager) :
  final (get_all_devices m) = m /\
  trace (get_all_devices m) = [] /\
  ((exists infos, res (get_all_devices m) = Ok infos) <->
   complete (_devices m)) /\
  (forall infos, res (get_all_devices m) = Ok infos ->
     List.length infos = List.length (_devices m) /\
     forall i, (i < List.length (_devices m))%nat ->
       exists d, device_at (_devices m) (Z.of_nat i) = Some d /\
                 nth_error infos i = Some (projection d (Z.of_nat i))) /\
  (forall e, res (get_all_devices m) = Raise e ->
     exists k, e = KeyError k /\
               0 <= k < Z.of_nat (List.length (_devices m)) /\
               device_at (_devices m) k = None).
Proof.
  rewrite get_all_devices_run. cbn [res final trace].
  split; [reflexivity|]. split; [reflexivity|].
  split; [apply project_all_complete|].
  split; [apply project_all_ok|apply project_all_raise].
Qed.

(** A successful scan, in closed form. *)
Lemma scan_devices_success (w : ScanWorld) (m : DeviceManager)
    (l : list DeviceInfo) :
  res (scan_devices w m) = Ok l ->
  is_connected m = true /\
  start_scanning_result w = Returns /\
  stop_scanning_result w = Returns /\
  project_all (reported w) = Ok l /\
  scan_devices w m =
    {| res := Ok l;
       final := scanned (reported w) m;
       trace := [StartScanning;
                 Sleep (PyInt (scan_timeout (websocket (settings m))));
                 StopScanning] |}.
Proof.
  rewrite scan_devices_run. cbv zeta. unfold is_connected.
  destruct (_client m) as [c|]; [|discriminate].
  destruct (connected c); cbn [negb]; [|discriminate].
  destruct (start_scanning_result w); [|discriminate].
  destruct (stop_scanning_result w); [|discriminate].
  cbn [res]. destruct (project_all (reported w)) as [infos|e];
    [|discriminate].
  intros [= <-]. repeat split.
Qed.

Lemma scanned_devices (l : device_map) (m : DeviceManager) :
  _devices (scanned l m) = l.
Proof. unfold scanned. destruct l; reflexivity. Qed.

(** X2: a successful [scan_devices] returns one projection per reported
    device: the one at position [i] is the projection, with index [i],
    of the device the mapping holds under key [i].  That is what
    [get_all_devices] returns right after it, and it issued exactly the
    three calls of the scan protocol, with the configured scan window. *)
Theorem scan_devices_returns_projections (w : ScanWorld) (m : DeviceManager)
    (l : list DeviceInfo) :
  res (scan_devices w m) = Ok l ->
  List.length l = List.length (reported w) /\
  (forall i, (i < List.length (reported w))%nat ->
     exists d, device_at (reported w) (Z.of_nat i) = Some d /\
               nth_error l i = Some (projection d (Z.of_nat i))) /\
  res (get_all_devices (final (scan_devices w m))) = Ok l /\
  trace (scan_devices w m) =
    [StartScanning; Sleep (PyInt (scan_timeout (websocket (settings m))));
     StopScanning].
Proof.
  intros Hok.
  destruct (scan_devices_success w m l Hok) as [_ [_ [_ [Hall E]]]].
  rewrite E. cbn [res final trace].
  destruct (project_all_ok _ _ Hall) as [Hlen Hnth].
  split; [exact Hlen|]. split; [exact Hnth|]. split; [|reflexivity].
  rewrite get_all_devices_run. cbn [res]. rewrite scanned_devices.
  exact Hall.
Qed.

Lemma scan_devices_returns_projections_witness :
  res (scan_devices (scan_finds [device_a; device_b]) two_devices) =
    Ok [projection device_a 0; projection device_b 1] /\
  res (get_all_devices
         (final (scan_devices (scan_finds [device_a; device_b]) two_devices)))
    = Ok [projection device_a 0; projection device_b 1].
Proof.
  assert (res (scan_devices (scan_finds [device_a; device_b]) two_devices) =
            Ok [projection device_a 0; projection device_b 1]) as Hok
    by (vm_compute; reflexivity).
  split; [exact Hok|].
  apply (scan_devices_returns_projections _ _ _ Hok).
Defined.

(** A failed scan, in closed form. *)
Lemma scan_devices_failure (w : ScanWorld) (m : DeviceManager) (e : exn) :
  res (scan_devices w m) = Raise e ->
  (is_connected m = false /\ final (scan_devices w m) = m /\
   trace (scan_devices w m) = [] /\
   (e = App (exn_msg IntifaceConnectionError "Client not initialized") \/
    e = App (exn_msg IntifaceConnectionError "Not connected to Intiface"))) \/
  (is_connected m = true /\
   exists e0,
     e = App (exn_msg DeviceConnectionError
                ("Error scanning for devices: " ++ str_exn e0)) /\
     ((start_scanning_result w = Raises e0 /\
       final (scan_devices w m) = m /\
       trace (scan_devices w m) = [StartScanning]) \/
      (start_scanning_result w = Returns /\
       stop_scanning_result w = Raises e0 /\
       final (scan_devices w m) = m /\
       trace (scan_devices w m) =
         [StartScanning;
          Sleep (PyInt (scan_timeout (websocket (settings m))));
          StopScanning]) \/
      (start_scanning_result w = Returns /\
       stop_scanning_result w = Returns /\
       project_all (reported w) = Raise e0 /\
       final (scan_devices w m) = scanned (reported w) m /\
       trace (scan_devices w m) =
         [StartScanning;
          Sleep (PyInt (scan_timeout (websocket (settings m))));
          StopScanning]))).
Proof.
  rewrite scan_devices_run. cbv zeta. unfold is_connected.
  destruct (_client m) as [c|].
  - destruct (connected c); cbn [negb].
    + destruct (start_scanning_result w) as [|e1].
      * destruct (stop_scanning_result w) as [|e2].
        -- cbn [res final trace].
           destruct (project_all (reported w)) as [infos|e0];
             [discriminate|].
           intros [= <-]. right. split; [reflexivity|]. exists e0.
           split; [reflexivity|]. right. right. repeat split.
        -- intros [= <-]. right. split; [reflexivity|]. exists e2.
           split; [reflexivity|]. right. left. repeat split.
      * intros [= <-]. right. split; [reflexivity|]. exists e1.
        split; [reflexivity|]. left. repeat split.
    + intros [= <-]. left. repeat split. right. reflexivity.
  - intros [= <-]. left. repeat split. left. reflexivity.
Qed.

(** X3: how [scan_devices] fails.  Without a connected client it raises
    [IntifaceConnectionError], calls nothing and leaves the manager as
    it was.  With one it raises [DeviceConnectionError]: when a scanning
    call fails, with the message of that call and the manager left as it
    was (and when starting the scan fails, neither the wait nor the stop
    is issued); when both scanning calls return, because an index below
    the number of reported devices is not a key of the mapping, and then
    the manager already holds the reported mapping and the index 0. *)
Theorem scan_devices_failure_modes (w : ScanWorld) (m : DeviceManager)
    (e : exn) :
  res (scan_devices w m) = Raise e ->
  (is_connected m = false ->
   is_instance IntifaceConnectionError e /\
   trace (scan_devices w m) = [] /\ final (scan_devices w m) = m) /\
  (is_connected m = true ->
   is_instance DeviceConnectionError e /\
   (forall e0, start_scanning_result w = Raises e0 ->
      e = App (exn_msg DeviceConnectionError
                 ("Error scanning for devices: " ++ str_exn e0)) /\
      trace (scan_devices w m) = [StartScanning] /\
      final (scan_devices w m) = m) /\
   (forall e0, start_scanning_result w = Returns ->
      stop_scanning_result w = Raises e0 ->
      e = App (exn_msg DeviceConnectionError
                 ("Error scanning for devices: " ++ str_exn e0)) /\
      final (scan_devices w m) = m) /\
   (start_scanning_result w = Returns ->
    stop_scanning_result w = Returns ->
    exists k,
      0 <= k < Z.of_nat (List.length (reported w)) /\
      device_at (reported w) k = None /\
      e = App (exn_msg DeviceConnectionError
                 ("Error scanning for devices: " ++ str_int k)) /\
      _devices (final (scan_devices w m)) = reported w /\
      _active_device_index (final (scan_devices w m)) = 0)).
Proof.
  intros Hr.
  destruct (scan_devices_failure w m e Hr)
    as [[Hnc [Hf [Ht He]]]|[Hc [e0 [-> H]]]].
  - split; [|congruence]. intros _.
    split; [destruct He as [->| ->]; reflexivity|]. split; assumption.
  - split; [congruence|]. intros _. split; [reflexivity|].
    destruct H as [[Hs [Hf Ht]]|[[Hs [Hp [Hf Ht]]]|[Hs [Hp [Hall [Hf Ht]]]]]].
    + split; [|split; congruence].
      intros e1 He1. rewrite Hs in He1. injection He1 as <-.
      repeat split; assumption.
    + split; [congruence|]. split; [|congruence].
      intros e1 _ He1. rewrite Hp in He1. injection He1 as <-.
      split; [reflexivity|exact Hf].
    + split; [congruence|]. split; [congruence|].
      intros _ _. destruct (project_all_raise _ _ Hall) as [k [-> [Hk Hd]]].
      exists k. split; [exact Hk|]. split; [exact Hd|].
      split; [reflexivity|]. rewrite Hf.
      split; [apply scanned_devices|].
      unfold scanned. destruct (reported w); [cbn in Hk; lia|reflexivity].
Qed.

Lemma scan_devices_failure_modes_witness :
  res (scan_devices (scan_finds [device_b]) two_devices) =
    Raise (App (exn_msg DeviceConnectionError
                  "Error scanning for devices: 0")) /\
  is_connected two_devices = true /\
  _devices two_devices = [device_a; device_b] /\
  _devices (final (scan_devices (scan_finds [device_b]) two_devices)) =
    [device_b].
Proof.
  assert (res (scan_devices (scan_finds [device_b]) two_devices) =
            Raise (App (exn_msg DeviceConnectionError
                          "Error scanning for devices: 0"))) as Hr
    by (vm_compute; reflexivity).
  assert (is_connected two_devices = true) as Hc by (vm_compute; reflexivity).
  destruct (scan_devices_failure_modes _ _ _ Hr) as [_ H].
  destruct (H Hc) as [_ [_ [_ Hgap]]].
  destruct (Hgap eq_refl eq_refl) as [k [_ [_ [_ [Hd _]]]]].
  split; [exact Hr|]. split; [exact Hc|].
  split; [vm_compute; reflexivity|exact Hd].
Defined.

(* ================================================================== *)
(** ** More on connecting *)

Lemma initialize_attempt_cases (now : float) (w : InitWorld)
    (m : DeviceManager) :
  (_initialized m && is_connected m)%bool = false ->
  too_recent now m = false ->
  let attempt :=
    [NewClient "ButtplugST"; Connect (url (websocket (settings m)))] in
  match connect_result w with
  | Raises e0 =>
      initialize now w m =
        {| res := Raise (initialize_failure e0);
           final := connecting now m;
           trace := attempt |}
  | Returns =>
      let mc := mark_connected (connecting now m) in
      match res (scan_devices (scan_world w) mc) with
      | Ok _ =>
          initialize now w m =
            {| res := Ok tt;
               final :=
                 set_initialized true (final (scan_devices (scan_world w) mc));
               trace := (attempt ++ trace (scan_devices (scan_world w) mc))%list |}
      | Raise e1 =>
          initialize now w m =
            {| res := Raise (initialize_failure e1);
               final := final (scan_devices (scan_world w) mc);
               trace := (attempt ++ trace (scan_devices (scan_world w) mc))%list |}
      end
  end.
Proof.
  intros H1 H2 attempt. subst attempt.
  unfold initialize. rewrite bind_get, H1, H2. clear H1 H2.
  destruct m as [s c ds idx ini last delay], w as [o sw].
  unfold connecting, discard_stale.
  destruct c as [[cn [|] cds]|], o as [|e0]; run;
    try (destruct e0; reflexivity).
  all: match goal with
       | |- context [scan_devices ?w ?s] =>
           destruct (scan_devices w s) as [r f t]
       end;
       destruct r as [l|e1]; run; rewrite ?app_nil_r; [reflexivity|];
       destruct e1; run; rewrite ?app_nil_r; reflexivity.
Qed.

(** X4: once [initialize] has returned, the manager is connected and
    initialized, and a further [initialize], at any time and whatever the
    server would answer, returns at once: no call is issued, nothing
    changes, and the backoff does not apply. *)
Theorem initialize_twice (m : DeviceManager) (t t' : float)
    (w w' : InitWorld) :
  res (initialize t w m) = Ok tt ->
  let m1 := final (initialize t w m) in
  is_connected m1 = true /\ _initialized m1 = true /\
  initialize t' w' m1 = {| res := Ok tt; final := m1; trace := [] |}.
Proof.
  intros Hok m1. subst m1.
  assert (_initialized (final (initialize t w m)) = true /\
          is_connected (final (initialize t w m)) = true) as [Hi Hc].
  { destruct (_initialized m && is_connected m)%bool eqn:G1.
    - rewrite (initialize_noop t w m G1). cbn [final].
      apply andb_true_iff in G1. exact G1.
    - destruct (too_recent t m) eqn:G2.
      + rewrite (initialize_rate_limited t w m G1 G2) in Hok. discriminate Hok.
      + destruct (initialize_attempt t w m G1 G2) as [_ [_ [_ Hdone]]].
        destruct (Hdone Hok) as [_ [Hc Hi]]. split; assumption. }
  split; [exact Hc|]. split; [exact Hi|].
  apply initialize_noop. rewrite Hi, Hc. reflexivity.
Qed.

Lemma initialize_twice_witness :
  res (initialize 100 (server_up [device_a; device_b]) new_manager) = Ok tt /\
  initialize 101 server_down two_devices =
    {| res := Ok tt; final := two_devices; trace := [] |}.
Proof.
  assert (res (initialize 100 (server_up [device_a; device_b]) new_manager)
          = Ok tt) as Hok by (vm_compute; reflexivity).
  split; [exact Hok|].
  apply (initialize_twice new_manager 100 101
           (server_up [device_a; device_b]) server_down Hok).
Defined.

Lemma preserves_get_active_device (P : DeviceManager -> Prop) :
  preserves P get_active_device.
Proof. unfold get_active_device. pres. Qed.

Lemma preserves_stop_after_delay (P : DeviceManager -> Prop)
    (a : Actuator) (duration : float) (w : outcome) :
  preserves P (_stop_after_delay a duration w).
Proof. unfold _stop_after_delay. pres. Qed.

(** The operations that only read: whatever they return, the manager is
    the one they started from. *)
Lemma read_only_final (m m' : DeviceManager) :
  m' = final (active_device m) \/
  m' = final (get_all_devices m) \/
  m' = final (get_active_device m) \/
  (exists speed position duration w,
     m' = final (vibrate speed position duration w m)) \/
  (exists w, m' = final (stop w m)) \/
  (exists a duration w, m' = final (_stop_after_delay a duration w m)) ->
  m' = m.
Proof.
  intros [->|[->|[->|[[speed [position [duration [w ->]]]]
                     |[[w ->]|[a [duration [w ->]]]]]]]].
  - now apply (preserves_active_device (fun x => x = m)).
  - rewrite get_all_devices_run. reflexivity.
  - now apply (preserves_get_active_device (fun x => x = m)).
  - now apply (preserves_vibrate (fun x => x = m)).
  - now apply (preserves_stop (fun x => x = m)).
  - now apply (preserves_stop_after_delay (fun x => x = m)).
Qed.

(** What one operation can do to the manager. *)
Lemma step_cases (m m' : DeviceManager) :
  step m m' ->
  m' = m \/
  (exists now w, m' = final (initialize now w m)) \/
  (exists l, is_connected m = true /\ m' = scanned l m) \/
  (exists i, 0 <= i < Z.of_nat (List.length (_devices m)) /\
             m' = set_active_device_index i m) \/
  m' = set_initialized false (set_devices [] (set_client None m)).
Proof.
  intros [now w m0|w m0|m0|m0|i m0|speed position duration w m0|w m0|w m0
         |m0|a duration w m0].
  - right. left. eauto.
  - destruct (scan_devices_cases w m0)
      as [[e [t E]]|[[infos [_ [_ [Hc E]]]]|[k [_ [Hc E]]]]];
      rewrite E; cbn [final].
    + left. reflexivity.
    + right. right. left. eauto.
    + right. right. left. eauto.
  - left. apply read_only_final. auto.
  - left. apply read_only_final. auto.
  - rewrite set_active_device_run.
    destruct (((i <? 0)%Z || (Z.of_nat (List.length (_devices m0)) <=? i)%Z)%bool)
      eqn:E; cbn [final]; [left; reflexivity|].
    apply out_of_range_test in E.
    right. right. right. left. exists i. split; [exact E|reflexivity].
  - left. apply read_only_final. right. right. right. left. eauto.
  - left. apply read_only_final. right. right. right. right. left. eauto.
  - right. right. right. right. rewrite shutdown_run. reflexivity.
  - left. apply read_only_final. auto.
  - left. apply read_only_final. do 5 right. eauto.
Qed.

Lemma initialize_final_client (now : float) (w : InitWorld)
    (m : DeviceManager) :
  (_initialized m && is_connected m)%bool = false ->
  too_recent now m = false ->
  _client (final (initialize now w m)) <> None.
Proof.
  intros G1 G2. pose proof (initialize_attempt_cases now w m G1 G2) as H.
  cbv zeta in H. destruct (connect_result w) as [|e0].
  - assert (forall sw, _client (final (scan_devices sw
                (mark_connected (connecting now m)))) <> None) as Hscan.
    { intros sw.
      destruct (scan_devices_cases sw (mark_connected (connecting now m)))
        as [[e [t E]]|[[infos [_ [_ [_ E]]]]|[k [_ [_ E]]]]];
        rewrite E; cbn [final]; try (cbn; discriminate);
        unfold scanned; destruct (reported sw); cbn; discriminate. }
    destruct (res (scan_devices (scan_world w)
                     (mark_connected (connecting now m)))) as [l|e1] eqn:E;
      rewrite H; cbn [final]; [cbn [_client set_initialized]|]; apply Hscan.
  - rewrite H. cbn. discriminate.
Qed.

(** A manager that is marked initialized holds a client, and so does one
    that knows devices. *)
Lemma reachable_has_client (m : DeviceManager) :
  reachable m ->
  (_initialized m = true -> _client m <> None) /\
  (_devices m <> [] -> _client m <> None).
Proof.
  induction 1 as [s|m m' _ IH Hstep|m _ IH|l m _ IH Hcl _].
  - split; intros H; cbn in H; congruence.
  - destruct (step_cases m m' Hstep)
      as [->|[[now [w ->]]|[[l [Hc ->]]|[[i [_ ->]]| ->]]]].
    + exact IH.
    + destruct (_initialized m && is_connected m)%bool eqn:G1.
      { rewrite (initialize_noop now w m G1). exact IH. }
      destruct (too_recent now m) eqn:G2.
      { rewrite (initialize_rate_limited now w m G1 G2). exact IH. }
      split; intros _; apply initialize_final_client; assumption.
    + assert (_client m <> None) as Hm.
      { unfold is_connected in Hc. destruct (_client m); congruence. }
      unfold scanned, client_sees.
      destruct (_client m) as [c|]; [|congruence].
      destruct l; split; intros _; cbn; discriminate.
    + exact IH.
    + split; intros H; cbn in H; congruence.
  - unfold connection_lost. destruct (_client m) as [c|] eqn:E.
    + split; intros _; cbn; discriminate.
    + rewrite E. exact IH.
  - unfold devices_changed, client_sees. cbn [_client set_devices].
    destruct (_client m) as [c|]; [|congruence].
    split; intros _; cbn; discriminate.
Qed.

(** A scan touches neither the flag, nor the timestamp, nor the
    connection. *)
Lemma scan_devices_keeps (sw : ScanWorld) (m : DeviceManager) :
  _initialized (final (scan_devices sw m)) = _initialized m /\
  _last_connection_attempt (final (scan_devices sw m)) =
    _last_connection_attempt m /\
  is_connected (final (scan_devices sw m)) = is_connected m.
Proof.
  assert (forall l,
            _initialized (scanned l m) = _initialized m /\
            _last_connection_attempt (scanned l m) =
              _last_connection_attempt m /\
            is_connected (scanned l m) = is_connected m) as Hs.
  { intros l. unfold scanned, client_sees, is_connected.
    destruct l; destruct (_client m) as [c|] eqn:Ec; cbn; rewrite ?Ec;
      repeat split; reflexivity. }
  destruct (scan_devices_cases sw m)
    as [[e [t E]]|[[infos [_ [_ [_ E]]]]|[k [_ [_ E]]]]];
    rewrite E; cbn [final]; [repeat split|apply Hs..].
Qed.

(** X5: when [initialize] raises after having tried to connect, the
    manager is left not initialized, with the time of the attempt
    recorded.  A [connect] that fails with a [ConnectorError] gives an
    [IntifaceConnectionError], any other failure of [connect] a
    [DeviceConnectionError], each carrying the message of the cause; in
    both cases no scan is started and the new client is left
    disconnected.  When [connect] returns and the scan fails, the
    exception is a [DeviceConnectionError] and the manager stays
    connected. *)
Theorem initialize_failure_modes (m : DeviceManager) (t : float)
    (w : InitWorld) (e : exn) (u : string) :
  reachable m ->
  In (Connect u) (trace (initialize t w m)) ->
  res (initialize t w m) = Raise e ->
  let m1 := final (initialize t w m) in
  _initialized m1 = false /\
  _last_connection_attempt m1 = t /\
  (forall e0, connect_result w = Raises e0 ->
     trace (initialize t w m) =
       [NewClient "ButtplugST"; Connect (url (websocket (settings m)))] /\
     is_connected m1 = false /\
     (forall msg, e0 = ConnectorError msg ->
        e = App (exn_msg IntifaceConnectionError
                   ("Failed to connect to Intiface: " ++ msg))) /\
     ((forall msg, e0 <> ConnectorError msg) ->
        e = App (exn_msg DeviceConnectionError
                   ("Initialization error: " ++ str_exn e0)))) /\
  (connect_result w = Returns ->
   is_connected m1 = true /\ is_instance DeviceConnectionError e).
Proof.
  intros Hreach Hin Hr m1. subst m1.
  destruct (initialize_connect_attempted t w m u Hin) as [G1 G2].
  destruct (reachable_has_client m Hreach) as [Hcl _].
  assert (_initialized (connecting t m) = false /\
          _last_connection_attempt (connecting t m) = t /\
          is_connected (connecting t m) = false /\
          _initialized (mark_connected (connecting t m)) = false /\
          _last_connection_attempt (mark_connected (connecting t m)) = t /\
          is_connected (mark_connected (connecting t m)) = true)
    as [Hi [Hl [Hc [Hi' [Hl' Hc']]]]].
  { unfold connecting, discard_stale, mark_connected, is_connected in *.
    destruct m as [s c ds idx ini last delay]. cbn in *.
    destruct c as [[cn [|] cds]|]; cbn in *.
    - rewrite andb_true_r in G1. subst ini. repeat split.
    - repeat split.
    - destruct ini; [exfalso; apply Hcl; reflexivity|]. repeat split. }
  pose proof (initialize_attempt_cases t w m G1 G2) as H. cbv zeta in H.
  destruct (connect_result w) as [|e0].
  - destruct (res (scan_devices (scan_world w)
                     (mark_connected (connecting t m)))) as [l|e1] eqn:E;
      rewrite H in *; cbn [res final trace] in *; [discriminate Hr|].
    injection Hr as <-.
    destruct (scan_devices_keeps (scan_world w)
                (mark_connected (connecting t m))) as [Ki [Kl Kc]].
    rewrite Ki, Kl, Kc.
    split; [exact Hi'|]. split; [exact Hl'|]. split; [intros e0 He0;
                                                      discriminate He0|].
    intros _. split; [exact Hc'|].
    destruct (scan_devices_failure _ _ _ E)
      as [[_ [_ [_ [->| ->]]]]|[_ [e0 [-> _]]]]; reflexivity.
  - rewrite H in *. cbn [res final trace] in *. injection Hr as <-.
    split; [exact Hi|]. split; [exact Hl|]. split; [|intros H0;
                                                    discriminate H0].
    intros e1 [= <-]. split; [reflexivity|]. split; [exact Hc|]. split.
    + intros msg ->. reflexivity.
    + intros Hne. destruct e0; try reflexivity.
      exfalso. eapply Hne. reflexivity.
Qed.

Lemma initialize_failure_modes_witness :
  In (Connect "ws://127.0.0.1:12345")
     (trace (initialize 100 server_down new_manager)) /\
  res (initialize 100 server_down new_manager) =
    Raise (App (exn_msg IntifaceConnectionError
                  "Failed to connect to Intiface: connection refused")) /\
  _initialized refused = false /\
  is_connected refused = false.
Proof.
  assert (In (Connect "ws://127.0.0.1:12345")
             (trace (initialize 100 server_down new_manager))) as Hin
    by (vm_compute; right; left; reflexivity).
  assert (res (initialize 100 server_down new_manager) =
            Raise (App (exn_msg IntifaceConnectionError
                          "Failed to connect to Intiface: connection refused")))
    as Hr by (vm_compute; reflexivity).
  destruct (initialize_failure_modes new_manager 100 server_down _ _
              (reach_init default_settings) Hin Hr) as [Hi [_ [Hc _]]].
  split; [exact Hin|]. split; [exact Hr|]. split; [exact Hi|].
  apply (Hc (ConnectorError "connection refused") eq_refl).
Defined.

(** X6: the backoff window ends.  After a connection attempt at time [t]
    that failed, the next [initialize], at time [t'], issues a connect
    exactly when [t' - t < 5] does not hold; within the window it issues
    nothing. *)
Theorem initialize_retry_after_window (m0 : DeviceManager) (t t' : float)
    (w w' : InitWorld) (e : exn) :
  reachable m0 ->
  (0 <? t)%float = true ->
  In (Connect (url (websocket (settings m0)))) (trace (initialize t w m0)) ->
  connect_result w = Raises e ->
  let m1 := final (initialize t w m0) in
  ((exists u, In (Connect u) (trace (initialize t' w' m1))) <->
   (t' - t <? 5)%float = false) /\
  ((t' - t <? 5)%float = true -> trace (initialize t' w' m1) = []).
Proof.
  intros Hreach Hpos Hin Hfail m1. subst m1.
  destruct (initialize_connect_attempted t w m0 _ Hin) as [G1 G2].
  destruct (initialize_attempt t w m0 G1 G2) as [_ [Hlast [Hraise _]]].
  destruct (Hraise e Hfail) as [Hnc _].
  pose proof (step_retry_delay 5%float m0 _ (step_initialize t w m0)
                (reachable_retry_delay m0 Hreach)) as Hdelay.
  set (m1 := final (initialize t w m0)) in *.
  assert ((_initialized m1 && is_connected m1)%bool = false) as G1'
    by (rewrite Hnc; apply andb_false_r).
  assert (too_recent t' m1 = (t' - t <? 5)%float) as G2'
    by (unfold too_recent; rewrite Hlast, Hdelay, Hpos; reflexivity).
  destruct (t' - t <? 5)%float eqn:Hsoon.
  - rewrite (initialize_rate_limited t' w' m1 G1' G2'). cbn [trace].
    split; [|reflexivity]. split; [intros [u []]|discriminate].
  - destruct (initialize_attempt t' w' m1 G1' G2') as [[tr Htr] _].
    split; [|discriminate]. split; [reflexivity|]. intros _.
    eexists. rewrite Htr. right. left. reflexivity.
Qed.

Lemma initialize_retry_after_window_witness :
  (0 <? 100)%float = true /\
  (105 - 100 <? 5)%float = false /\
  (exists u, In (Connect u) (trace (initialize 105 server_down refused))).
Proof.
  assert (In (Connect (url (websocket (settings new_manager))))
             (trace (initialize 100 server_down new_manager))) as Hin
    by (vm_compute; right; left; reflexivity).
  destruct (initialize_retry_after_window new_manager 100 105 server_down
              server_down (ConnectorError "connection refused")
              (reach_init default_settings) eq_refl Hin eq_refl)
    as [[_ H] _].
  split; [reflexivity|]. split; [reflexivity|]. apply H. reflexivity.
Defined.

(* ================================================================== *)
(** ** Stopping *)

Lemma stop_cases (w : outcome) (m : DeviceManager) :
  stop w m =
    match res (active_device m) with
    | Ok None =>
        {| res := Raise (App (exn_default DeviceNotFoundError));
           final := m; trace := [] |}
    | Ok (Some d) =>
        {| res := match w with
                  | Returns =>
                      Ok [("success", VBool true); ("device", VStr (dev_name d));
                          ("status", VStr "stopped")]
                  | Raises e =>
                      Raise (App (exn_msg CommandError
                                    ("Error stopping device: " ++ str_exn e)))
                  end;
           final := m; trace := [DeviceStop d] |}
    | Raise e => {| res := Raise e; final := m; trace := [] |}
    end.
Proof.
  unfold stop, bind at 1. rewrite active_device_frame.
  destruct (res (active_device m)) as [[d|]|e]; cbn [res final trace];
    destruct w as [|e0]; reflexivity.
Qed.

(** X7: [stop] never changes the manager.  On an empty container it
    raises [DeviceNotFoundError] and calls nothing.  On a non-empty one
    it looks the active index up as a key: with a device under it, it
    sends one stop to that device, whether or not the device has
    actuators, and returns the record (success, device name, status
    "stopped") or, when the device does not answer, raises a
    [CommandError] carrying the cause; without one, the [KeyError] of
    the lookup escapes and nothing is sent. *)
Theorem stop_spec (w : outcome) (m : DeviceManager) :
  final (stop w m) = m /\
  (_devices m = [] ->
   res (stop w m) = Raise (App (exn_default DeviceNotFoundError)) /\
   trace (stop w m) = []) /\
  (forall d,
     _devices m <> [] ->
     device_at (_devices m) (_active_device_index m) = Some d ->
     trace (stop w m) = [DeviceStop d] /\
     (w = Returns ->
      res (stop w m) =
        Ok [("success", VBool true); ("device", VStr (dev_name d));
            ("status", VStr "stopped")]) /\
     (forall e, w = Raises e ->
        res (stop w m) =
          Raise (App (exn_msg CommandError
                        ("Error stopping device: " ++ str_exn e))))) /\
  (_devices m <> [] ->
   device_at (_devices m) (_active_device_index m) = None ->
   res (stop w m) = Raise (KeyError (_active_device_index m)) /\
   trace (stop w m) = []).
Proof.
  rewrite stop_cases, active_device_run. cbn [res].
  destruct (_devices m) as [|d0 l] eqn:El.
  - cbn [res final trace]. split; [reflexivity|].
    split; [intros _; split; reflexivity|].
    split; [intros d Hne; congruence|intros Hne; congruence].
  - destruct (device_at (d0 :: l) (_active_device_index m)) as [d|];
      cbn [res final trace].
    + split; [reflexivity|]. split; [discriminate|].
      split; [|intros _ H; discriminate H].
      intros d' _ [= <-]. split; [reflexivity|].
      split; [intros ->; reflexivity|intros e ->; reflexivity].
    + split; [reflexivity|]. split; [discriminate|].
      split; [intros d' _ H; discriminate H|].
      intros _ _. split; reflexivity.
Qed.

Lemma stop_spec_witness :
  _devices second_selected <> [] /\
  device_at (_devices second_selected)
    (_active_device_index second_selected) = Some device_b /\
  trace (stop Returns second_selected) = [DeviceStop device_b] /\
  res (stop Returns second_selected) =
    Ok [("success", VBool true); ("device", VStr "DeviceB");
        ("status", VStr "stopped")].
Proof.
  assert (_devices second_selected <> []) as Hne
    by (vm_compute; discriminate).
  assert (device_at (_devices second_selected)
            (_active_device_index second_selected) = Some device_b) as Hd
    by (vm_compute; reflexivity).
  destruct (stop_spec Returns second_selected) as [_ [_ [H _]]].
  destruct (H device_b Hne Hd) as [Ht [Hok _]].
  split; [exact Hne|]. split; [exact Hd|]. split; [exact Ht|].
  apply Hok. reflexivity.
Defined.

(* ================================================================== *)
(** ** More on shutting down *)

(** X8: [shutdown] never raises, and never stops a device: the loop over
    the container runs over the keys of the mapping, on which the stop
    fails, and the handler that names the device fails in turn, so the
    loop is left at its first key with no call issued.  The one call of
    a [shutdown] is the disconnect, sent exactly when the manager is
    connected, whatever it answers.  Afterwards the manager holds no
    client and no device: [get_all_devices] returns the empty list,
    [get_active_device] returns [None], and [vibrate], [stop] and
    [scan_devices] raise without calling anything. *)
Theorem shutdown_connected (w : ShutdownWorld) (m : DeviceManager) :
  let m' := final (shutdown w m) in
  res (shutdown w m) = Ok tt /\
  trace (shutdown w m) = (if is_connected m then [Disconnect] else []) /\
  (forall d, ~ In (DeviceStop d) (trace (shutdown w m))) /\
  get_all_devices m' = {| res := Ok []; final := m'; trace := [] |} /\
  get_active_device m' = {| res := Ok None; final := m'; trace := [] |} /\
  (forall speed position duration wv,
     vibrate speed position duration wv m' =
       {| res := Raise (App (exn_default DeviceNotFoundError));
          final := m'; trace := [] |}) /\
  (forall ws, stop ws m' =
     {| res := Raise (App (exn_default DeviceNotFoundError));
        final := m'; trace := [] |}) /\
  (forall ws, scan_devices ws m' =
     {| res := Raise (App (exn_msg IntifaceConnectionError
                             "Client not initialized"));
        final := m'; trace := [] |}).
Proof.
  intros m'. subst m'. rewrite shutdown_run. cbn [res final trace].
  split; [reflexivity|]. split; [reflexivity|].
  split.
  { intros d. destruct (is_connected m); [intros [H|[]]; discriminate H|].
    intros []. }
  repeat split; reflexivity.
Qed.

(* ================================================================== *)
(** ** More on vibrating *)

Lemma vibrate_dispatch_trace speed position duration (w : VibrateWorld)
    (m : DeviceManager) (d : Device) (a : Actuator) :
  let r := vibrate_dispatch speed position duration w m d a in
  exists cmds,
    (forall ev, In ev cmds ->
       exists p, ev = Command a (PyFloat (clamp01 speed)) p) /\
    cmds <> [] /\
    trace r =
      (cmds ++ match res r with
               | Ok _ => if (0 <? duration)%float
                         then [CreateTask a duration] else []
               | Raise _ => []
               end)%list /\
    (forall rec, res r = Ok rec ->
       rec = vibrate_result d (clamp01 speed) (option_map clamp01 position)
               duration).
Proof.
  intros r. subst r. unfold vibrate_dispatch.
  assert (forall p ev,
            In ev [Command a (PyFloat (clamp01 speed)) p] ->
            exists q, ev = Command a (PyFloat (clamp01 speed)) q) as H1.
  { intros p ev [<-|[]]. eexists. reflexivity. }
  assert (forall p q ev,
            In ev [Command a (PyFloat (clamp01 speed)) p;
                   Command a (PyFloat (clamp01 speed)) q] ->
            exists q', ev = Command a (PyFloat (clamp01 speed)) q') as H2.
  { intros p q ev [<-|[<-|[]]]; eexists; reflexivity. }
  destruct (first_command w) as [|[e|msg|msg|msg|msg]];
    [| | |destruct (fallback_command w) as [|e2]| |]; cbn [res trace].
  4, 5: exists [Command a (PyFloat (clamp01 speed))
                  (option_map clamp01 position);
                Command a (PyFloat (clamp01 speed)) None].
  1-3, 6, 7: exists [Command a (PyFloat (clamp01 speed))
                       (option_map clamp01 position)].
  all: (split; [first [apply H1|apply H2]|]);
       (split; [discriminate|]);
       (split; [rewrite ?app_nil_r; reflexivity|]);
       intros rec Hrec; try discriminate Hrec; injection Hrec as <-;
       reflexivity.
Qed.

(** X9: [vibrate] creates the stop task exactly when the duration is
    positive and the dispatch succeeded, and then creates one, for the
    actuator it commanded and with the duration given; a dispatch that
    fails schedules no stop.  The result record holds the duration
    exactly when the duration is positive. *)
Theorem vibrate_stop_task speed position duration
    (w : VibrateWorld) (m : DeviceManager) :
  let r := vibrate speed position duration w m in
  ((exists a d, In (CreateTask a d) (trace r)) <->
   (0 <? duration)%float = true /\ exists rec, res r = Ok rec) /\
  (forall a d, In (CreateTask a d) (trace r) ->
     d = duration /\
     exists p, In (Command a (PyFloat (clamp01 speed)) p) (trace r)) /\
  (forall rec, res r = Ok rec ->
     dict_get "duration" rec =
       if (0 <? duration)%float then Some (VFloat duration) else None).
Proof.
  intros r. subst r.
  destruct (vibrate_cases speed position duration w m)
    as [[e E]|[d [a [l [Hd [Ha E]]]]]]; rewrite E.
  - cbn [res trace]. split; [split|split].
    + intros [a [d []]].
    + intros [_ [rec H]]. discriminate H.
    + intros a d [].
    + intros rec H. discriminate H.
  - destruct (vibrate_dispatch_trace speed position duration w m d a)
      as [cmds [Hcmds [Hne [Ht Hrec]]]].
    rewrite Ht.
    assert (forall a' d', ~ In (CreateTask a' d') cmds) as Hno.
    { intros a' d' Hin. destruct (Hcmds _ Hin) as [p Hp]. discriminate Hp. }
    split; [|split].
    + split.
      * intros [a' [d' Hin]]. apply in_app_or in Hin.
        destruct Hin as [Hin|Hin]; [destruct (Hno _ _ Hin)|].
        destruct (res (vibrate_dispatch speed position duration w m d a))
          as [rec|e]; [|destruct Hin].
        destruct (0 <? duration)%float; [|destruct Hin].
        split; [reflexivity|eexists; reflexivity].
      * intros [Hdur [rec Hok]]. rewrite Hok, Hdur.
        exists a, duration. apply in_or_app. right. left. reflexivity.
    + intros a' d' Hin. apply in_app_or in Hin.
      destruct Hin as [Hin|Hin]; [destruct (Hno _ _ Hin)|].
      destruct (res (vibrate_dispatch speed position duration w m d a))
        as [rec|e]; [|destruct Hin].
      destruct (0 <? duration)%float; [|destruct Hin].
      destruct Hin as [[= <- <-]|[]]. split; [reflexivity|].
      destruct cmds as [|ev cmds']; [congruence|].
      destruct (Hcmds ev (or_introl eq_refl)) as [p ->].
      exists p. left. reflexivity.
    + intros rec Hok. rewrite (Hrec rec Hok). unfold vibrate_result.
      destruct position; destruct (0 <? duration)%float; reflexivity.
Qed.

(* ================================================================== *)
(** ** What the operations leave alone, and how they fail *)

Lemma step_settings (s : Settings) (m m' : DeviceManager) :
  step m m' -> settings m = s -> settings m' = s.
Proof.
  apply (step_preserves (fun m => settings m = s));
    try (intros; cbn; assumption).
  intros [|x l] m0 H; unfold scanned, client_sees; destruct (_client m0);
    exact H.
Qed.

(** X10: no operation ever changes the settings or the retry delay, and
    only [initialize] changes the time of the last connection attempt. *)
Theorem step_frame (m m' : DeviceManager) :
  step m m' ->
  settings m' = settings m /\
  _connection_retry_delay m' = _connection_retry_delay m /\
  ((exists now w, m' = final (initialize now w m)) \/
   _last_connection_attempt m' = _last_connection_attempt m).
Proof.
  intros Hstep. split; [|split].
  - exact (step_settings _ m m' Hstep eq_refl).
  - exact (step_retry_delay _ m m' Hstep eq_refl).
  - destruct (step_cases m m' Hstep)
      as [->|[[now [w ->]]|[[l [_ ->]]|[[i [_ ->]]| ->]]]].
    + right. reflexivity.
    + left. eauto.
    + right. unfold scanned, client_sees.
      destruct l, (_client m); reflexivity.
    + right. reflexivity.
    + right. reflexivity.
Qed.

Lemma step_frame_witness :
  step two_devices second_selected /\
  settings second_selected = settings two_devices /\
  _connection_retry_delay second_selected = _connection_retry_delay two_devices.
Proof.
  assert (step two_devices second_selected) as Hs
    by apply step_set_active_device.
  destruct (step_frame _ _ Hs) as [H1 [H2 _]].
  repeat split; assumption.
Defined.

Lemma raised_among_msg (cs : list exn_class) (c : exn_class) (msg : string) :
  In c cs -> raised_among cs (App (exn_msg c msg)).
Proof.
  intros Hin. eexists. split; [reflexivity|]. split; [exact Hin|reflexivity].
Qed.

Lemma raised_among_default (cs : list exn_class) (c : exn_class) :
  In c cs -> raised_among cs (App (exn_default c)).
Proof.
  intros Hin. eexists. split; [reflexivity|]. split; [exact Hin|reflexivity].
Qed.

Lemma active_device_raise (m : DeviceManager) (e : exn) :
  res (active_device m) = Raise e ->
  e = KeyError (_active_device_index m) /\
  device_at (_devices m) (_active_device_index m) = None.
Proof.
  rewrite active_device_run. cbn [res].
  destruct (_devices m) as [|d0 l]; [discriminate|].
  destruct (device_at _ _); [discriminate|]. intros [= <-].
  split; reflexivity.
Qed.

(** X11: the failures of each operation.  [initialize] and [scan_devices]
    raise only [IntifaceConnectionError] or [DeviceConnectionError], and
    [shutdown] never raises.  The others raise the exceptions of the
    application ([set_active_device] and [get_active_device] only
    [DeviceNotFoundError], [vibrate] and [stop] only
    [DeviceNotFoundError] or [CommandError]) or let the [KeyError] of a
    lookup in the device mapping escape, which is the only exception
    that reaches a caller unwrapped; [get_all_devices] raises nothing
    else.  Where the keys of the mapping are the indices below its
    length and the active index is one of them, no [KeyError] is raised
    and the projections never fail.  Every exception of the application
    carries the status code and the code of its class, whatever the
    external client raised underneath: the status is 404, 500 or 502. *)
Theorem error_taxonomy (m : DeviceManager) :
  (forall t w e, res (initialize t w m) = Raise e ->
     raised_among [IntifaceConnectionError; DeviceConnectionError] e) /\
  (forall w e, res (scan_devices w m) = Raise e ->
     raised_among [IntifaceConnectionError; DeviceConnectionError] e) /\
  (forall i e, res (set_active_device i m) = Raise e ->
     raised_among [DeviceNotFoundError] e \/
     (e = KeyError i /\ device_at (_devices m) i = None)) /\
  (forall speed position duration w e,
     res (vibrate speed position duration w m) = Raise e ->
     raised_among [DeviceNotFoundError; CommandError] e \/
     (e = KeyError (_active_device_index m) /\
      device_at (_devices m) (_active_device_index m) = None)) /\
  (forall w e, res (stop w m) = Raise e ->
     raised_among [DeviceNotFoundError; CommandError] e \/
     (e = KeyError (_active_device_index m) /\
      device_at (_devices m) (_active_device_index m) = None)) /\
  (forall e, res (get_all_devices m) = Raise e ->
     exists k, e = KeyError k /\ device_at (_devices m) k = None) /\
  (forall e, res (get_active_device m) = Raise e ->
     raised_among [DeviceNotFoundError] e \/
     (e = KeyError (_active_device_index m) /\
      device_at (_devices m) (_active_device_index m) = None)) /\
  (forall w e, res (shutdown w m) <> Raise e) /\
  (complete (_devices m) -> index_valid m ->
   (forall e, res (get_all_devices m) <> Raise e) /\
   (forall e, res (get_active_device m) <> Raise e) /\
   (forall e, res (active_device m) <> Raise e) /\
   (forall i e, res (set_active_device i m) = Raise e ->
      raised_among [DeviceNotFoundError] e)) /\
  (forall cs e, raised_among cs e ->
     (forall c, In c cs -> c <> ButtplugSTException /\ c <> ValidationError) ->
     exists a, e = App a /\
       (status_code a = 404 \/ status_code a = 500 \/ status_code a = 502)).
Proof.
  assert (forall w e, res (scan_devices w m) = Raise e ->
            raised_among [IntifaceConnectionError; DeviceConnectionError] e)
    as Hscan.
  { intros w e Hr.
    destruct (scan_devices_failure w m e Hr)
      as [[_ [_ [_ [->| ->]]]]|[_ [e0 [-> _]]]];
      apply raised_among_msg; cbn; auto. }
  assert (forall i e, res (set_active_device i m) = Raise e ->
            raised_among [DeviceNotFoundError] e \/
            (e = KeyError i /\ device_at (_devices m) i = None)) as Hset.
  { intros i e. rewrite set_active_device_run.
    destruct (((i <? 0)%Z || (Z.of_nat (List.length (_devices m)) <=? i)%Z)%bool);
      cbn [res].
    - intros [= <-]. left. apply raised_among_msg. cbn. auto.
    - destruct (device_at (_devices m) i) eqn:Ed; [discriminate|].
      intros [= <-]. right. split; reflexivity. }
  assert (forall e, res (get_active_device m) = Raise e ->
            raised_among [DeviceNotFoundError] e \/
            (e = KeyError (_active_device_index m) /\
             device_at (_devices m) (_active_device_index m) = None)) as Hget.
  { intros e. rewrite get_active_device_run. cbn [res].
    destruct (_devices m) as [|d0 l] eqn:El; [discriminate|].
    rewrite get_device_info_run. cbn [res]. rewrite El.
    match goal with |- context [if ?b then _ else _] => destruct b end.
    - intros [= <-]. left. apply raised_among_msg. cbn. auto.
    - destruct (device_at _ _); [discriminate|]. intros [= <-].
      right. split; reflexivity. }
  repeat match goal with |- _ /\ _ => split end.
  - intros t w e Hr.
    destruct (_initialized m && is_connected m)%bool eqn:G1;
      [rewrite (initialize_noop t w m G1) in Hr; discriminate Hr|].
    destruct (too_recent t m) eqn:G2.
    { rewrite (initialize_rate_limited t w m G1 G2) in Hr.
      injection Hr as <-. apply raised_among_msg. cbn. auto. }
    pose proof (initialize_attempt_cases t w m G1 G2) as H. cbv zeta in H.
    assert (forall e0,
              raised_among [IntifaceConnectionError; DeviceConnectionError]
                (initialize_failure e0)) as Hf.
    { intros e0. destruct e0; apply raised_among_msg; cbn; auto. }
    destruct (connect_result w) as [|e0].
    + destruct (res (scan_devices (scan_world w)
                       (mark_connected (connecting t m)))) as [l|e1];
        rewrite H in Hr; cbn [res] in Hr; [discriminate Hr|].
      injection Hr as <-. apply Hf.
    + rewrite H in Hr. injection Hr as <-. apply Hf.
  - exact Hscan.
  - exact Hset.
  - intros speed position duration w e Hr.
    destruct (res (active_device m)) as [[d|]|e0] eqn:Ea.
    + destruct (actuators d) as [|a l] eqn:Hact'.
      * rewrite (vibrate_no_device speed position duration w m) in Hr
          by (right; exists d; auto).
        injection Hr as <-. left. apply raised_among_default. cbn. auto.
      * rewrite (vibrate_run speed position duration w m d a l Ea Hact')
          in Hr.
        unfold vibrate_dispatch in Hr.
        destruct (first_command w) as [|[e0|msg|msg|k|msg]];
          [| | |destruct (fallback_command w) as [|e2]| |];
          cbn [res] in Hr; try discriminate Hr; injection Hr as <-;
          left; apply raised_among_msg; cbn; auto.
    + rewrite (vibrate_no_device speed position duration w m) in Hr
        by (left; exact Ea).
      injection Hr as <-. left. apply raised_among_default. cbn. auto.
    + destruct (vibrate_key_error speed position duration w m e0 Ea)
        as [Hv _]. rewrite Hv in Hr. injection Hr as <-.
      right. apply active_device_raise. exact Ea.
  - intros w e Hr. rewrite stop_cases in Hr.
    destruct (res (active_device m)) as [[d|]|e0] eqn:Ea; cbn [res] in Hr.
    + destruct w as [|e0]; [discriminate Hr|]. injection Hr as <-.
      left. apply raised_among_msg. cbn. auto.
    + injection Hr as <-. left. apply raised_among_default. cbn. auto.
    + injection Hr as <-. right. apply active_device_raise. exact Ea.
  - intros e. rewrite get_all_devices_run. cbn [res]. intros Hr.
    destruct (project_all_raise _ _ Hr) as [k [-> [_ Hk]]].
    exists k. split; [reflexivity|exact Hk].
  - exact Hget.
  - intros w e. rewrite shutdown_run. discriminate.
  - intros Hc Hv.
    assert (_devices m <> [] ->
            device_at (_devices m) (_active_device_index m) <> None) as Hk.
    { intros Hne. apply Hc. apply Hv. exact Hne. }
    repeat match goal with |- _ /\ _ => split end.
    + intros e. rewrite get_all_devices_run. cbn [res]. intros Hr.
      destruct (project_all_raise _ _ Hr) as [k [_ [Hk' Hd]]].
      exact (Hc k Hk' Hd).
    + intros e. rewrite get_active_device_run. cbn [res].
      destruct (_devices m) as [|d0 l] eqn:El; [discriminate|].
      rewrite get_device_info_run. cbn [res]. rewrite El.
      assert (0 <= _active_device_index m
              < Z.of_nat (List.length (d0 :: l))) as Hi.
      { rewrite <- El. apply Hv. rewrite El. discriminate. }
      apply out_of_range_test in Hi. rewrite Hi.
      destruct (device_at (d0 :: l) (_active_device_index m)) eqn:Ed;
        [discriminate|].
      exfalso. apply Hk; [discriminate|reflexivity].
    + intros e Hr. destruct (active_device_raise m e Hr) as [_ Hd].
      apply Hk; [|exact Hd].
      intros El. rewrite active_device_run, El in Hr. discriminate Hr.
    + intros i e Hr. destruct (Hset i e Hr) as [Hra|[-> Hd]]; [exact Hra|].
      exfalso. revert Hr. rewrite set_active_device_run.
      destruct (((i <? 0)%Z || (Z.of_nat (List.length (_devices m)) <=? i)%Z)%bool)
        eqn:E; cbn [res]; [discriminate|].
      apply out_of_range_test in E. intros _. exact (Hc i E Hd).
  - intros cs e [a [-> [Hin Hp]]] Hcs. exists a. split; [reflexivity|].
    destruct (Hcs _ Hin) as [H1 H2].
    unfold status_code_pair in Hp. injection Hp as Hs _. rewrite Hs.
    destruct (cls a); cbn; auto; congruence.
Qed.

Lemma error_taxonomy_witness :
  complete (_devices two_devices) /\
  index_valid two_devices /\
  raised_among [DeviceNotFoundError]
    (App (exn_msg DeviceNotFoundError "Device index 5 out of range")).
Proof.
  assert (complete (_devices two_devices)) as Hc.
  { intros i Hi. change (_devices two_devices) with [device_a; device_b] in *.
    cbn in Hi. assert (i = 0 \/ i = 1) as [->| ->] by lia;
      vm_compute; discriminate. }
  assert (index_valid two_devices) as Hv.
  { intros _. vm_compute. split; [discriminate|reflexivity]. }
  destruct (error_taxonomy two_devices) as [_ [_ [_ [_ [_ [_ [_ [_ [H _]]]]]]]]].
  destruct (H Hc Hv) as [_ [_ [_ Hset]]].
  split; [exact Hc|]. split; [exact Hv|]. apply (Hset 5).
  vm_compute. reflexivity.
Defined.

(* ================================================================== *)
(** ** exceptions.py *)

(** X12: whatever arguments an exception of the application is built
    with, it never carries an empty detail, an empty code or a status of
    0: an argument that is missing, empty or 0 leaves the attribute of
    the class, and any other argument replaces it.  [to_dict] holds the
    three values under the keys error, detail and status_code. *)
Theorem exception_attributes (c : exn_class) (detail0 code0 : option string)
    (status0 : option Z) :
  let e := new_exn c detail0 code0 status0 in
  detail e <> "" /\ code e <> "" /\ status_code e <> 0 /\
  (forall d, detail0 = Some d -> d <> "" -> detail e = d) /\
  (detail0 = None \/ detail0 = Some "" -> detail e = class_detail c) /\
  (forall k, code0 = Some k -> k <> "" -> code e = k) /\
  (code0 = None \/ code0 = Some "" -> code e = class_code c) /\
  (forall s, status0 = Some s -> s <> 0 -> status_code e = s) /\
  (status0 = None \/ status0 = Some 0 -> status_code e = class_status_code c) /\
  dict_get "error" (to_dict e) = Some (VStr (code e)) /\
  dict_get "detail" (to_dict e) = Some (VStr (detail e)) /\
  dict_get "status_code" (to_dict e) = Some (VInt (status_code e)).
Proof.
  intros e. subst e. unfold new_exn. cbn [detail code status_code cls].
  assert (class_detail c <> "") as Hd by (destruct c; discriminate).
  assert (class_code c <> "") as Hk by (destruct c; discriminate).
  assert (class_status_code c <> 0) as Hs by (destruct c; discriminate).
  repeat match goal with |- _ /\ _ => split end; try reflexivity.
  - destruct detail0 as [[|a d]|]; cbn; try assumption. discriminate.
  - destruct code0 as [[|a k]|]; cbn; try assumption. discriminate.
  - destruct status0 as [s|]; [|assumption].
    destruct (Z.eqb_spec s 0); assumption.
  - intros d -> Hne. destruct d; [congruence|reflexivity].
  - intros [->| ->]; reflexivity.
  - intros k -> Hne. destruct k; [congruence|reflexivity].
  - intros [->| ->]; reflexivity.
  - intros s -> Hne. destruct (Z.eqb_spec s 0); [congruence|reflexivity].
  - intros [->| ->]; reflexivity.
Qed.

(* ================================================================== *)
(** ** validators.py *)

Section FloatNaN.
Local Open Scope float_scope.

(** A float that does not compare equal to itself compares below and
    above nothing. *)
Lemma nan_ltb (x y : float) :
  (x =? x) = false -> (x <? y) = false /\ (y <? x) = false.
Proof.
  rewrite eqb_spec, !ltb_spec. unfold SFeqb, SFltb. intros H.
  assert (Prim2SF x = S754_nan) as ->.
  { destruct (Prim2SF x) as [s|s| |s m e] eqn:E; try reflexivity;
      rewrite SFcompare_refl in H by discriminate; discriminate H. }
  split; [reflexivity|]. destruct (Prim2SF y); reflexivity.
Qed.

(** The floats that compare equal to themselves are totally ordered. *)
Lemma not_ltb_leb (x y : float) :
  (x =? x) = true -> (y =? y) = true -> (x <? y) = false -> (y <=? x) = true.
Proof.
  rewrite !eqb_spec, ltb_spec, leb_spec. unfold SFeqb, SFltb, SFleb.
  intros Hx Hy.
  rewrite (SFcompare_antisym (Prim2SF x) (Prim2SF y)).
  destruct (Prim2SF x) as [s1|s1| |s1 m1 e1], (Prim2SF y) as [s2|s2| |s2 m2 e2];
    try discriminate Hx; try discriminate Hy;
    try destruct s1; try destruct s2; cbn [SFcompare option_map CompOpp];
    try discriminate; try reflexivity;
    destruct (e1 ?= e2)%Z; cbn [CompOpp]; try discriminate; try reflexivity;
    destruct (Pos.compare_cont Eq m1 m2); cbn [CompOpp];
    try discriminate; reflexivity.
Qed.

Lemma SFcompare_finite_eq s m e s' m' e' :
  SFcompare (S754_finite s m e) (S754_finite s' m' e') = Some Eq ->
  S754_finite s m e = S754_finite s' m' e'.
Proof.
  cbn [SFcompare]. destruct s, s'; try discriminate;
    destruct (Z.compare_spec e e') as [He|He|He]; try discriminate;
    intros H; f_equal; try assumption; apply Pos.compare_eq;
    unfold Pos.compare;
    destruct (Pos.compare_cont Eq m m'); try discriminate; reflexivity.
Qed.

(** The only float that compares equal to 1.0 is 1.0. *)
Lemma eqb_one (f : float) : (f =? 1) = true -> f = 1.
Proof.
  rewrite eqb_spec. unfold SFeqb.
  intros Heq. apply Prim2SF_inj.
  change (Prim2SF 1) with (S754_finite false 4503599627370496 (-52)) in *.
  destruct (Prim2SF f) as [s|s| |s m e];
    [destruct s; discriminate Heq|destruct s; discriminate Heq
    |discriminate Heq|].
  apply SFcompare_finite_eq.
  destruct (SFcompare (S754_finite s m e)
              (S754_finite false 4503599627370496 (-52))) as [[| |]|];
    try discriminate Heq.
  reflexivity.
Qed.

End FloatNaN.

(** X13: [validate_float_range] returns the converted value itself,
    exactly when it is neither below [min_val] nor above [max_val]; a
    value outside, or one that does not convert, raises the
    [ValidationError] of status 400, and any other exception of the
    conversion passes through.  A NaN is accepted, whatever the bounds:
    it is neither below nor above anything. *)
Theorem validate_float_range_spec (repr_float : float -> string)
    (value : conversion) (min_val max_val : float) (param_name : string) :
  let r := validate_float_range repr_float value min_val max_val param_name in
  (forall f, value = Converted f ->
     (r = Ok f <->
      (f <? min_val)%float = false /\ (max_val <? f)%float = false) /\
     (forall f', r = Ok f' -> f' = f) /\
     ((f =? f)%float = false -> r = Ok f) /\
     (r <> Ok f ->
      exists a, r = Raise (App a) /\ cls a = ValidationError /\
        status_code_pair a = (400, "validation_error"))) /\
  (forall msg, value = NotConvertible msg ->
     r = Raise (App (exn_msg ValidationError
                       ("Parameter '" ++ param_name ++ "' must be a number")))) /\
  (forall msg, value = ConversionRaises msg -> r = Raise (OtherError msg)).
Proof.
  intros r. subst r. split; [|split].
  - intros f ->. cbn [validate_float_range].
    destruct (f <? min_val)%float eqn:E1, (max_val <? f)%float eqn:E2;
      cbn [orb].
    all: split; [split; [intros H; try discriminate H; auto
                        |intros [H1 H2]; try discriminate; reflexivity]|].
    all: split; [intros f' H; try discriminate H; congruence|].
    all: split;
      [intros Hnan; destruct (nan_ltb f min_val Hnan) as [H1 _];
       destruct (nan_ltb f max_val Hnan) as [_ H2];
       try congruence; reflexivity|].
    all: intros Hne;
      first [congruence
            |eexists; split; [reflexivity|split; reflexivity]].
  - intros msg ->. reflexivity.
  - intros e ->. reflexivity.
Qed.

(** X14: a value [validate_float_range] accepts for the default range
    [[0.0, 1.0]], unless it is a NaN, goes through the clamp of [vibrate]
    unchanged (up to the sign of a zero): the manager's clamp only acts on
    what the validator would refuse. *)
Theorem validated_value_not_clamped (repr_float : float -> string)
    (value : conversion) (param_name : string) (f : float) :
  validate_float_range repr_float value 0 1 param_name = Ok f ->
  (f =? f)%float = true ->
  (clamp01 f =? f)%float = true /\
  ((0 <? f)%float = true -> clamp01 f = f).
Proof.
  intros Hok Hnn.
  destruct value as [f0|msg|e]; cbn [validate_float_range] in Hok;
    try discriminate Hok.
  destruct (f0 <? 0)%float eqn:E1, (1 <? f0)%float eqn:E2; cbn [orb] in Hok;
    try discriminate Hok.
  injection Hok as ->.
  assert ((0 <=? f)%float = true) as H0
    by (apply not_ltb_leb; [exact Hnn|reflexivity|exact E1]).
  assert ((f <=? 1)%float = true) as H1
    by (apply not_ltb_leb; [reflexivity|exact Hnn|exact E2]).
  split.
  - destruct (clamp01_clamped f) as [_ [_ [_ H]]]. apply H; assumption.
  - intros Hpos. unfold clamp01, py_min, py_max.
    destruct (f <? 1)%float eqn:E3.
    + rewrite Hpos. reflexivity.
    + change (0 <? 1)%float with true. cbv iota. symmetry.
      apply eqb_one. apply leb_not_ltb_eqb; assumption.
Qed.

Lemma validated_value_not_clamped_witness :
  validate_float_range (fun _ => "") (Converted 0.75) 0 1 "speed" = Ok 0.75%float /\
  (0.75 =? 0.75)%float = true /\
  clamp01 0.75 = 0.75%float.
Proof.
  assert (validate_float_range (fun _ => "") (Converted 0.75) 0 1 "speed"
          = Ok 0.75%float) as Hok by reflexivity.
  destruct (validated_value_not_clamped _ _ _ _ Hok eq_refl) as [_ H].
  split; [exact Hok|]. split; [reflexivity|]. apply H. reflexivity.
Defined.

Section Dicts.
Context {V : Type}.

Lemma dict_lookup_none_keys (k : string) (d : dict V) :
  dict_lookup k d = None <-> ~ In k (map fst d).
Proof.
  induction d as [|[k' v] d IH]; cbn; [tauto|].
  destruct (String.eqb_spec k k') as [->|Hne].
  - split; [discriminate|]. intros H. exfalso. apply H. left. reflexivity.
  - rewrite IH. split; [intros H [E|E]; [congruence|tauto]|tauto].
Qed.

Lemma dict_set_fresh (k : string) (v : V) (d : dict V) :
  ~ In k (map fst d) -> dict_set k v d = (d ++ [(k, v)])%list.
Proof.
  induction d as [|[k' v'] d IH]; cbn; [reflexivity|].
  intros H. destruct (String.eqb_spec k k') as [->|Hne]; [tauto|].
  rewrite IH by tauto. reflexivity.
Qed.

Lemma dict_lookup_app (k : string) (d1 d2 : dict V) :
  dict_lookup k (d1 ++ d2)%list =
    match dict_lookup k d1 with
    | Some v => Some v
    | None => dict_lookup k d2
    end.
Proof.
  induction d1 as [|[k' v] d1 IH]; cbn; [reflexivity|].
  destruct (String.eqb k k'); [reflexivity|exact IH].
Qed.

(** The value [extract_query_params] stores for an item of [defaults]. *)
Lemma extract_loop_spec (query_args : dict V) (items acc : dict V) :
  NoDup (map fst items) ->
  (forall k, In k (map fst items) -> ~ In k (map fst acc)) ->
  extract_loop query_args items acc =
    (acc ++ map (fun kv => (fst kv,
                            match dict_lookup (fst kv) query_args with
                            | Some v => v
                            | None => snd kv
                            end)) items)%list.
Proof.
  revert acc. induction items as [|[k dv] items IH]; intros acc Hnd Hdisj.
  - cbn. rewrite app_nil_r. reflexivity.
  - cbn [extract_loop map fst snd]. inversion Hnd as [|? ? Hk Hnd']; subst.
    assert (~ In k (map fst acc)) as Hfresh by (apply Hdisj; left; reflexivity).
    assert (forall v,
              extract_loop query_args items (dict_set k v acc) =
                (acc ++ (k, v) :: map (fun kv => (fst kv,
                            match dict_lookup (fst kv) query_args with
                            | Some v => v
                            | None => snd kv
                            end)) items)%list) as Hstep.
    { intros v. rewrite IH; [| exact Hnd' |].
      - rewrite dict_set_fresh by exact Hfresh.
        rewrite <- app_assoc. reflexivity.
      - intros k' Hk'. rewrite dict_set_fresh by exact Hfresh.
        rewrite map_app, in_app_iff. cbn.
        intros [H|[H|[]]].
        + apply (Hdisj k'); [right; exact Hk'|exact H].
        + subst. contradiction. }
    destruct (dict_lookup k query_args); apply Hstep.
Qed.

End Dicts.

(** X15: [extract_query_params] returns a dict with exactly the keys of
    [defaults], in their order; each holds the value of [query_args] when
    [query_args] has the key, and the default otherwise.  Keys of
    [query_args] that [defaults] does not have are dropped, and without
    [defaults] the result is empty. *)
Theorem extract_query_params_spec {V : Type} (query_args defaults : dict V) :
  NoDup (map fst defaults) ->
  let result := extract_query_params query_args (Some defaults) in
  map fst result = map fst defaults /\
  (forall k,
     dict_lookup k result =
       match dict_lookup k defaults with
       | Some dv => Some match dict_lookup k query_args with
                         | Some v => v
                         | None => dv
                         end
       | None => None
       end) /\
  (forall k, dict_mem k defaults = false -> dict_mem k result = false) /\
  extract_query_params query_args None = [].
Proof.
  intros Hnd result. subst result. unfold extract_query_params.
  rewrite (extract_loop_spec query_args defaults []) by (auto; intros k _ []).
  cbn [app].
  assert (forall k,
            dict_lookup k
              (map (fun kv => (fst kv,
                               match dict_lookup (fst kv) query_args with
                               | Some v => v
                               | None => snd kv
                               end)) defaults) =
              match dict_lookup k defaults with
              | Some dv => Some match dict_lookup k query_args with
                                | Some v => v
                                | None => dv
                                end
              | None => None
              end) as Hlook.
  { intros k. clear Hnd. induction defaults as [|[k' dv] d IH]; cbn;
      [reflexivity|].
    destruct (String.eqb_spec k k') as [->|Hne]; [reflexivity|exact IH]. }
  split; [|split; [exact Hlook|split; [|reflexivity]]].
  - rewrite map_map. reflexivity.
  - intros k. unfold dict_mem. rewrite Hlook.
    destruct (dict_lookup k defaults); [discriminate|reflexivity].
Qed.

Lemma extract_query_params_spec_witness :
  NoDup (map fst [("speed", 5%Z); ("duration", 0%Z)]) /\
  dict_lookup "speed"
    (extract_query_params [("duration", 3%Z); ("other", 9%Z)]
       (Some [("speed", 5%Z); ("duration", 0%Z)])) = Some 5%Z /\
  dict_lookup "duration"
    (extract_query_params [("duration", 3%Z); ("other", 9%Z)]
       (Some [("speed", 5%Z); ("duration", 0%Z)])) = Some 3%Z /\
  dict_lookup "other"
    (extract_query_params [("duration", 3%Z); ("other", 9%Z)]
       (Some [("speed", 5%Z); ("duration", 0%Z)])) = None.
Proof.
  assert (NoDup (map fst [("speed", 5%Z); ("duration", 0%Z)])) as Hnd.
  { repeat constructor; cbn; intuition discriminate. }
  split; [exact Hnd|].
  destruct (extract_query_params_spec
              [("duration", 3%Z); ("other", 9%Z)]
              [("speed", 5%Z); ("duration", 0%Z)] Hnd) as [_ [Hlook _]].
  split; [|split]; rewrite Hlook; reflexivity.
Defined.

(* ================================================================== *)
(** ** What a run returns, raises and emits *)

Section Outcomes.
Context {A : Type}.

Lemma returns_ret (Q : A -> Prop) (a : A) : Q a -> returns Q (ret a).
Proof. intros H m a' [= <-]. exact H. Qed.

Lemma returns_raise (Q : A -> Prop) (e : exn) : returns Q (raise e).
Proof. intros m a H. discriminate H. Qed.

Lemma returns_bind {B} (Q : A -> Prop) (c : M B) (k : B -> M A) :
  (forall b, returns Q (k b)) -> returns Q (bind c k).
Proof.
  intros Hk m a. unfold bind. destruct (res (c m)) as [b|e]; cbn [res].
  - apply Hk.
  - discriminate.
Qed.

Lemma raises_ret (Q : exn -> Prop) (a : A) : raises Q (ret a).
Proof. intros m e H. discriminate H. Qed.

Lemma raises_raise (Q : exn -> Prop) (e : exn) : Q e -> raises Q (@raise A e).
Proof. intros H m e' [= <-]. exact H. Qed.

Lemma raises_lift (Q : exn -> Prop) (r : result A) :
  (forall e, r = Raise e -> Q e) -> raises Q (lift r).
Proof.
  intros H m e. destruct r as [a|e']; cbn; [discriminate|].
  intros [= <-]. apply H. reflexivity.
Qed.

Lemma raises_bind {B} (Q : exn -> Prop) (c : M B) (k : B -> M A) :
  raises Q c -> (forall b, raises Q (k b)) -> raises Q (bind c k).
Proof.
  intros Hc Hk m e. unfold bind. specialize (Hc m).
  destruct (res (c m)) as [b|e']; cbn [res].
  - apply Hk.
  - intros [= <-]. apply Hc. reflexivity.
Qed.

Lemma raises_try_except (Q : exn -> Prop) (c : M A) (h : exn -> M A) :
  (forall e, raises Q (h e)) -> raises Q (try_except c h).
Proof.
  intros Hh m e. unfold try_except.
  destruct (res (c m)) as [a|e'] eqn:E; cbn [res].
  - rewrite E. discriminate.
  - apply Hh.
Qed.

Lemma emits_ret (Q : event -> Prop) (a : A) : emits Q (ret a).
Proof. intros m. constructor. Qed.

Lemma emits_raise (Q : event -> Prop) (e : exn) : emits Q (@raise A e).
Proof. intros m. constructor. Qed.

Lemma emits_lift (Q : event -> Prop) (r : result A) : emits Q (lift r).
Proof. intros m. destruct r; constructor. Qed.

Lemma emits_bind {B} (Q : event -> Prop) (c : M B) (k : B -> M A) :
  emits Q c -> (forall b, emits Q (k b)) -> emits Q (bind c k).
Proof.
  intros Hc Hk m. unfold bind. specialize (Hc m).
  destruct (res (c m)) as [b|e]; cbn [trace]; [|exact Hc].
  apply Forall_app. split; [exact Hc|apply Hk].
Qed.

Lemma emits_try_except (Q : event -> Prop) (c : M A) (h : exn -> M A) :
  emits Q c -> (forall e, emits Q (h e)) -> emits Q (try_except c h).
Proof.
  intros Hc Hh m. unfold try_except. specialize (Hc m).
  destruct (res (c m)) as [a|e]; cbn [trace]; [exact Hc|].
  apply Forall_app. split; [exact Hc|apply Hh].
Qed.

End Outcomes.

Lemma emits_get (Q : event -> Prop) : emits Q get.
Proof. intros m. constructor. Qed.

Lemma emits_modify (Q : event -> Prop) f : emits Q (modify f).
Proof. intros m. constructor. Qed.

Lemma emits_emit (Q : event -> Prop) (ev : event) : Q ev -> emits Q (emit ev).
Proof. intros H m. repeat constructor. exact H. Qed.

Lemma emits_await (Q : event -> Prop) (ev : event) (o : outcome) :
  Q ev -> emits Q (await ev o).
Proof.
  intros H. unfold await. apply emits_bind; [apply emits_emit; exact H|].
  intros _. destruct o; [apply emits_ret|apply emits_raise].
Qed.

Lemma emits_mapM {A B} (Q : event -> Prop) (f : A -> M B) (l : list A) :
  (forall a, emits Q (f a)) -> emits Q (mapM f l).
Proof.
  intros Hf. induction l as [|a l IH]; cbn [mapM].
  - apply emits_ret.
  - apply emits_bind; [apply Hf|]. intros b.
    apply emits_bind; [exact IH|]. intros bs. apply emits_ret.
Qed.

Ltac emits_step :=
  first
    [ apply emits_ret | apply emits_raise | apply emits_get
    | apply emits_modify | apply emits_lift
    | apply emits_await; exact I
    | apply emits_emit; exact I
    | apply emits_mapM; intros ?
    | apply emits_bind; [|intros ?]
    | apply emits_try_except; [|intros ?]
    | match goal with
      | |- emits _ (match ?x with _ => _ end) => destruct x
      end ].

(** Only [initialize] opens a connection. *)
Lemma scan_devices_no_connection (w : ScanWorld) :
  emits (fun ev => ~ opens_connection ev) (scan_devices w).
Proof.
  unfold scan_devices.
  repeat first [ apply emits_await; solve [intros []]
               | apply emits_emit; solve [intros []]
               | emits_step ].
Qed.

Lemma active_device_no_connection :
  emits (fun ev => ~ opens_connection ev) active_device.
Proof. unfold active_device. repeat emits_step. Qed.

Lemma vibrate_no_connection speed position duration (w : VibrateWorld) :
  emits (fun ev => ~ opens_connection ev)
    (vibrate speed position duration w).
Proof.
  unfold vibrate.
  apply emits_bind; [apply active_device_no_connection|]. intros d.
  repeat first [ apply emits_await; solve [intros []]
               | apply emits_emit; solve [intros []]
               | emits_step ].
Qed.

Lemma stop_no_connection (w : outcome) :
  emits (fun ev => ~ opens_connection ev) (stop w).
Proof.
  unfold stop.
  apply emits_bind; [apply active_device_no_connection|]. intros d.
  repeat first [ apply emits_await; solve [intros []]
               | emits_step ].
Qed.

Lemma raises_get (Q : exn -> Prop) : raises Q get.
Proof. intros m e H. discriminate H. Qed.

Lemma raises_modify (Q : exn -> Prop) f : raises Q (modify f).
Proof. intros m e H. discriminate H. Qed.

Lemma raises_mapM {A B} (Q : exn -> Prop) (f : A -> M B) (l : list A) :
  (forall a, raises Q (f a)) -> raises Q (mapM f l).
Proof.
  intros Hf. induction l as [|a l IH]; cbn [mapM].
  - apply raises_ret.
  - apply raises_bind; [apply Hf|]. intros b.
    apply raises_bind; [exact IH|]. intros bs. apply raises_ret.
Qed.

Lemma manager_status_msg (c : exn_class) (msg : string) :
  c <> ButtplugSTException -> c <> ValidationError ->
  manager_status (App (exn_msg c msg)).
Proof. intros H1 H2. destruct c; cbn; auto; congruence. Qed.

Lemma manager_status_default (c : exn_class) :
  c <> ButtplugSTException -> c <> ValidationError ->
  manager_status (App (exn_default c)).
Proof. intros H1 H2. destruct c; cbn; auto; congruence. Qed.

Ltac raises_step :=
  first
    [ apply raises_ret | apply raises_get | apply raises_modify
    | apply raises_raise;
      first [apply manager_status_msg; discriminate
            |apply manager_status_default; discriminate]
    | apply raises_mapM; intros ?
    | apply raises_try_except; intros ?
    | apply raises_bind; [|intros ?]
    | match goal with
      | |- raises _ (match ?x with _ => _ end) => destruct x
      end ].

Lemma py_getitem_raises (l : device_map) (i : Z) (e : exn) :
  py_getitem l i = Raise e -> manager_status e.
Proof.
  unfold py_getitem. destruct (device_at l i); [discriminate|].
  intros [= <-]. exact I.
Qed.

(** Whatever state the manager is in, what its operations raise is an
    exception of the application with status 404, 500 or 502, or the
    [KeyError] of a lookup in the device mapping. *)
Lemma get_device_info_raises (i : Z) : raises manager_status (_get_device_info i).
Proof.
  unfold _get_device_info.
  repeat first [ apply raises_lift; apply py_getitem_raises | raises_step ].
Qed.

Lemma active_device_raises : raises manager_status active_device.
Proof.
  unfold active_device.
  repeat first [ apply raises_lift; apply py_getitem_raises | raises_step ].
Qed.

Lemma get_active_device_raises : raises manager_status get_active_device.
Proof.
  unfold get_active_device.
  repeat first [ apply get_device_info_raises | raises_step ].
Qed.

Lemma get_all_devices_raises : raises manager_status get_all_devices.
Proof.
  intros m e. rewrite get_all_devices_run. cbn [res]. intros Hr.
  destruct (project_all_raise _ _ Hr) as [k [-> _]]. exact I.
Qed.

Lemma set_active_device_raises (i : Z) :
  raises manager_status (set_active_device i).
Proof.
  unfold set_active_device.
  repeat first [ apply get_device_info_raises | raises_step ].
Qed.

Lemma scan_devices_raises (w : ScanWorld) :
  raises manager_status (scan_devices w).
Proof. unfold scan_devices. repeat raises_step. Qed.

Lemma vibrate_raises speed position duration (w : VibrateWorld) :
  raises manager_status (vibrate speed position duration w).
Proof.
  unfold vibrate.
  apply raises_bind; [apply active_device_raises|]. intros d.
  repeat raises_step.
Qed.

Lemma stop_raises (w : outcome) : raises manager_status (stop w).
Proof.
  unfold stop.
  apply raises_bind; [apply active_device_raises|]. intros d.
  repeat raises_step.
Qed.

(* ================================================================== *)
(** ** routes.py *)

Section RouteProperties.
Variable pydantic_error : string -> string.
Variable format_percent : float -> string.
Variable format_float : float -> string.

#[local] Abbreviation view :=
  (view_of pydantic_error format_percent format_float).
#[local] Abbreviation served :=
  (serve pydantic_error format_percent format_float).

Lemma handle_errors_run (f : M (string + response)) (m : DeviceManager) :
  handle_errors f m =
    {| res := Ok (answer_of (res (f m)));
       final := final (f m);
       trace := trace (f m) |}.
Proof.
  unfold handle_errors, try_except, bind.
  destruct (f m) as [[[msg|answer]|[a|msg|msg|msg|msg]] m' t];
    cbn [res final trace]; rewrite ?app_nil_r; reflexivity.
Qed.

Lemma ensure_initialized_ok (path : string) (now : float) (w : RequestWorld)
    (m : DeviceManager) :
  res (ensure_initialized path now w m) = Ok tt.
Proof.
  unfold ensure_initialized, bind at 1.
  assert (forall (c : M unit) m0,
            res (try_except c (fun _ => ret tt) m0) = Ok tt) as Htry.
  { intros c m0. unfold try_except.
    destruct (res (c m0)) as [[]|e] eqn:E; [exact E|reflexivity]. }
  rewrite Htry. cbn [res].
  destruct (String.eqb path "/status"); [reflexivity|].
  rewrite bind_get.
  destruct (negb (has_devices _)); [apply Htry|reflexivity].
Qed.

(** A manager marked initialized is not initialized again. *)
Lemma ensure_initialized_no_connection (path : string) (now : float)
    (w : RequestWorld) (m : DeviceManager) :
  _initialized m = true ->
  Forall (fun ev => ~ opens_connection ev)
    (trace (ensure_initialized path now w m)).
Proof.
  intros Hi. unfold ensure_initialized, bind at 1.
  assert (try_except
            (m0 <- get;;
             (if negb (_initialized m0)
              then initialize now (on_initialize w) else ret tt))
            (fun _ => ret tt) m =
          {| res := Ok tt; final := m; trace := [] |}) as E.
  { unfold try_except. rewrite bind_get, Hi. reflexivity. }
  rewrite E. cbn [res final trace app].
  assert (emits (fun ev => ~ opens_connection ev)
            (if String.eqb path "/status" then ret tt
             else m0 <- get;;
                  (if negb (has_devices m0)
                   then try_except (scan_devices (on_ensure_scan w);; ret tt)
                          (fun _ => ret tt)
                   else ret tt))) as H.
  { repeat first [ apply scan_devices_no_connection | emits_step ]. }
  apply H.
Qed.

Lemma view_no_connection (r : request) (w : RequestWorld) :
  emits (fun ev => ~ opens_connection ev) (view r w).
Proof.
  destruct r; cbn [view_of];
    unfold status, list_devices, select_device, vibrate_view, stop_view,
      scan_view;
    repeat first [ apply scan_devices_no_connection
                 | apply vibrate_no_connection
                 | apply stop_no_connection
                 | emits_step ].
Qed.

Lemma arg_raises (o : option conversion) (d : float) :
  raises manager_status (lift (query_float o d)).
Proof.
  apply raises_lift. intros e. destruct o as [[f|msg|msg]|]; cbn;
    intros H; try discriminate H; injection H as <-; exact I.
Qed.

Lemma optional_arg_raises (o : option conversion) :
  raises manager_status (lift (query_optional_float o)).
Proof.
  apply raises_lift. intros e. destruct o as [[f|msg|msg]|]; cbn;
    intros H; try discriminate H; injection H as <-; exact I.
Qed.

Lemma body_raises (body : request_body) :
  raises manager_status (lift (get_json body)).
Proof.
  apply raises_lift. intros e. destruct body; cbn;
    intros H; try discriminate H; injection H as <-; exact I.
Qed.

Lemma view_raises (r : request) (w : RequestWorld) :
  raises manager_status (view r w).
Proof.
  destruct r; cbn [view_of];
    unfold status, list_devices, select_device, vibrate_view, stop_view,
      scan_view;
    repeat first [ apply scan_devices_raises | apply vibrate_raises
                 | apply stop_raises | apply get_active_device_raises
                 | apply get_all_devices_raises
                 | apply set_active_device_raises
                 | apply arg_raises | apply optional_arg_raises
                 | apply body_raises
                 | raises_step ].
Qed.

Lemma view_returns (r : request) (w : RequestWorld) :
  returns (fun a => match a with
                    | inr (_, st) => st = 200
                    | inl _ => True
                    end) (view r w).
Proof.
  destruct r; cbn [view_of];
    unfold status, list_devices, select_device, vibrate_view, stop_view,
      scan_view;
    repeat first [ apply returns_ret; solve [reflexivity|exact I]
                 | apply returns_bind; intros ?
                 | match goal with
                   | |- returns _ (match ?x with _ => _ end) => destruct x
                   end ].
Qed.

(** X16: every request is answered: [serve] never raises, whatever the
    manager, the request and the external client do.  The status is 200,
    400, 404, 500 or 502, and every answer other than a 200 is an error
    body (error, detail, status_code) whose status_code is the status
    sent. *)
Theorem serve_answers (r : request) (now : float) (w : RequestWorld)
    (m : DeviceManager) :
  exists body status,
    res (served r now w m) = Ok (body, status) /\
    (status = 200 \/ status = 400 \/ status = 404 \/ status = 500 \/
     status = 502) /\
    (status <> 200 ->
     exists error detail0, body = error_response error detail0 status).
Proof.
  unfold serve, bind. rewrite ensure_initialized_ok. cbn [res final trace].
  rewrite handle_errors_run. cbn [res].
  set (m' := final (ensure_initialized (path_of r) now w m)).
  destruct (res (view r w m')) as [[msg|[body st]]|e] eqn:E;
    cbn [answer_of].
  - do 2 eexists. split; [reflexivity|]. split; [auto|].
    intros _. do 2 eexists. reflexivity.
  - pose proof (view_returns r w m' _ E) as Hret. cbn in Hret. subst st.
    do 2 eexists. split; [reflexivity|]. split; [auto|].
    intros H. congruence.
  - pose proof (view_raises r w m' _ E) as Hraise.
    destruct e as [a|msg|msg|msg|msg]; cbn [manager_status] in Hraise;
      do 2 eexists; (split; [reflexivity|]);
      (split; [tauto|]); intros _; do 2 eexists; reflexivity.
Qed.

Lemma scan_devices_disconnected (ws : ScanWorld) (m : DeviceManager) :
  is_connected m = false ->
  exists d,
    (d = "Client not initialized" \/ d = "Not connected to Intiface") /\
    scan_devices ws m =
      {| res := Raise (App (exn_msg IntifaceConnectionError d));
         final := m; trace := [] |}.
Proof.
  destruct m as [s c ds idx ini last delay]. unfold is_connected. cbn.
  destruct c as [[cn [|] cds]|]; intros H; try discriminate H;
    eexists; (split; [|reflexivity]); auto.
Qed.

(** X17: the HTTP layer never reconnects a manager that is marked
    initialized: whatever the request, no client is created and no
    connect is issued, also when the connection has been lost.  On such a
    manager the scan and the device listing answer 502
    (intiface_connection_error) without calling the client and without
    changing anything. *)
Theorem initialized_never_reconnects (r : request) (now : float)
    (w : RequestWorld) (m : DeviceManager) :
  _initialized m = true ->
  Forall (fun ev => ~ opens_connection ev) (trace (served r now w m)) /\
  (is_connected m = false -> r = GetScan \/ r = GetDevices ->
   exists detail0,
     (detail0 = "Client not initialized" \/
      detail0 = "Not connected to Intiface") /\
     served r now w m =
       {| res := Ok (error_response "intiface_connection_error" detail0 502,
                     502);
          final := m; trace := [] |}).
Proof.
  intros Hi. split.
  - unfold serve, bind. rewrite ensure_initialized_ok. cbn [res trace].
    apply Forall_app. split.
    + apply ensure_initialized_no_connection. exact Hi.
    + rewrite handle_errors_run. cbn [trace]. apply view_no_connection.
  - intros Hnc Hr.
    assert (ensure_initialized (path_of r) now w m =
              {| res := Ok tt; final := m; trace := [] |}) as Ee.
    { unfold ensure_initialized, bind at 1.
      assert (try_except
                (m0 <- get;;
                 (if negb (_initialized m0)
                  then initialize now (on_initialize w) else ret tt))
                (fun _ => ret tt) m =
              {| res := Ok tt; final := m; trace := [] |}) as E.
      { unfold try_except. rewrite bind_get, Hi. reflexivity. }
      rewrite E. cbn [res final trace app].
      destruct (String.eqb (path_of r) "/status"); [reflexivity|].
      rewrite bind_get. destruct (negb (has_devices m)); [|reflexivity].
      destruct (scan_devices_disconnected (on_ensure_scan w) m Hnc)
        as [d [_ Es]].
      unfold try_except, bind. rewrite Es. reflexivity. }
    destruct (scan_devices_disconnected (on_scan w) m Hnc) as [d [Hd Es]].
    exists d. split; [exact Hd|]. unfold serve, bind. rewrite Ee. cbn [res final trace app].
    rewrite handle_errors_run.
    destruct Hr as [-> | ->]; cbn [view_of]; unfold scan_view, list_devices;
      unfold bind; rewrite Es; cbn [res final trace app answer_of];
      destruct Hd as [-> | ->]; reflexivity.
Qed.

Lemma bind_lift_ok {A B} (x : A) (k : A -> M B) (m : DeviceManager) :
  bind (lift (Ok x)) k m = k x m.
Proof.
  unfold bind, lift, ret. cbn [res final trace app].
  destruct (k x m). reflexivity.
Qed.

Lemma bind_lift_raise {A B} (e : exn) (k : A -> M B) (m : DeviceManager) :
  bind (lift (Raise e)) k m = {| res := Raise e; final := m; trace := [] |}.
Proof. reflexivity. Qed.

(** X18: a 200 answer of [/devices] lists one projection per device the
    client reports after the scan of this request: the entry at position
    [i] is the projection, with index [i], of the device the mapping
    holds under key [i].  The manager then holds exactly the reported
    mapping, and whenever it is not empty the active index is 0 again,
    whichever device was selected before the request. *)
Theorem list_devices_answer (now : float) (w : RequestWorld)
    (m : DeviceManager) (body : json) :
  res (served GetDevices now w m) = Ok (body, 200) ->
  let m' := final (served GetDevices now w m) in
  _devices m' = reported (on_scan w) /\
  (reported (on_scan w) <> [] -> _active_device_index m' = 0) /\
  exists infos,
    List.length infos = List.length (reported (on_scan w)) /\
    (forall i, (i < List.length (reported (on_scan w)))%nat ->
       exists d, device_at (reported (on_scan w)) (Z.of_nat i) = Some d /\
                 nth_error infos i = Some (projection d (Z.of_nat i))) /\
    body =
      api_response
        ("Found " ++ str_int (Z.of_nat (List.length (reported (on_scan w))))
         ++ " devices")
        (JDict [("devices", JList (map device_json infos));
                ("active_index", JInt (_active_device_index m'))]).
Proof.
  unfold serve, bind. rewrite ensure_initialized_ok. cbn [res final trace].
  rewrite handle_errors_run. cbn [res final].
  set (m0 := final (ensure_initialized (path_of GetDevices) now w m)).
  intros Hok.
  revert Hok. cbn [view_of]. unfold list_devices, bind.
  destruct (res (scan_devices (on_scan w) m0)) as [l|e] eqn:E.
  - destruct (scan_devices_success _ _ _ E) as [_ [_ [_ [Hall Hrun]]]].
    rewrite Hrun. cbn [res final trace]. rewrite get_all_devices_run.
    cbn [res final trace]. rewrite scanned_devices, Hall.
    unfold get, ret. cbn [res final trace answer_of].
    destruct (project_all_ok _ _ Hall) as [Hlen Hnth].
    intros [= <-]. split; [apply scanned_devices|].
    split.
    + unfold scanned. destruct (reported (on_scan w)); [congruence|].
      reflexivity.
    + exists l. split; [exact Hlen|]. split; [exact Hnth|].
      rewrite Hlen. reflexivity.
  - cbn [answer_of]. intros Hok. exfalso.
    pose proof (scan_devices_raises (on_scan w) m0 e E) as Hm.
    destruct e as [a|msg|msg|k|msg]; cbn [manager_status] in Hm;
      try discriminate Hok.
    injection Hok as _ Hs. lia.
Qed.

(** X19: what [/device] answers.  A body that cannot be read as JSON is
    answered 500 (internal_error); a body without an integer index and
    a negative index are refused by the request schema with 400; an
    index at or beyond the number of devices is refused by the manager
    with 404 (device_not_found); in these cases nothing changes.  An
    index below the number of devices is selected: with a device under
    that key the answer describes it; without one, the lookup fails
    after the index has been assigned, and the answer is 500
    (internal_error) with the index as detail.  No case talks to the
    client. *)
Theorem select_device_answers (body : request_body) (m : DeviceManager) :
  let r := handle_errors (select_device pydantic_error body) m in
  trace r = [] /\
  (forall msg, body = NotJson msg ->
     res r = Ok (error_response "internal_error" msg 500, 500) /\
     final r = m) /\
  (forall msg, body = NoIndex msg ->
     res r = Ok (error_response "validation_error" msg 400, 400) /\
     final r = m) /\
  (forall i, body = Index i -> i < 0 ->
     res r = Ok (error_response "validation_error" (pydantic_error "index")
                   400, 400) /\
     final r = m) /\
  (forall i, body = Index i -> Z.of_nat (List.length (_devices m)) <= i ->
     res r = Ok (error_response "device_not_found"
                   ("Device index " ++ str_int i ++ " out of range") 404,
                 404) /\
     final r = m) /\
  (forall i d, body = Index i ->
     0 <= i < Z.of_nat (List.length (_devices m)) ->
     device_at (_devices m) i = Some d ->
     res r = Ok (api_response ("Selected device: " ++ dev_name d)
                   (device_json (projection d i)), 200) /\
     final r = set_active_device_index i m) /\
  (forall i, body = Index i ->
     0 <= i < Z.of_nat (List.length (_devices m)) ->
     device_at (_devices m) i = None ->
     res r = Ok (error_response "internal_error" (str_int i) 500, 500) /\
     final r = set_active_device_index i m).
Proof.
  intros r. subst r. rewrite handle_errors_run.
  unfold select_device, parse_device_selection.
  destruct body as [msg|msg|i]; cbn [get_json];
    rewrite ?bind_lift_ok, ?bind_lift_raise;
    cbn [res final trace ret raise app answer_of str_exn].
  - split; [reflexivity|].
    split; [intros msg' [= <-]; split; reflexivity|].
    repeat split; intros; discriminate.
  - split; [reflexivity|]. split; [intros; discriminate|].
    split; [intros msg' [= <-]; split; reflexivity|].
    repeat split; intros; discriminate.
  - destruct (0 <=? i)%Z eqn:E0.
    + apply Z.leb_le in E0. unfold bind. rewrite set_active_device_run.
      destruct (((i <? 0)%Z
                 || (Z.of_nat (List.length (_devices m)) <=? i)%Z)%bool) eqn:E.
      * assert (Z.of_nat (List.length (_devices m)) <= i) as Hge.
        { destruct (Z_lt_le_dec i (Z.of_nat (List.length (_devices m))))
            as [Hlt|Hge]; [|exact Hge].
          assert (0 <= i < Z.of_nat (List.length (_devices m))) as Hi
            by lia.
          apply out_of_range_test in Hi. congruence. }
        cbn [res final trace ret app answer_of].
        split; [reflexivity|].
        split; [intros; discriminate|]. split; [intros; discriminate|].
        split; [intros i' [= <-] Hneg; lia|].
        split; [intros i' [= <-] _; split; reflexivity|].
        split; [intros i' d [= <-] Hin; lia|intros i' [= <-] Hin; lia].
      * apply out_of_range_test in E.
        destruct (device_at (_devices m) i) as [d|] eqn:Ed;
          cbn [res final trace ret app answer_of str_exn].
        -- split; [reflexivity|].
           split; [intros; discriminate|]. split; [intros; discriminate|].
           split; [intros i' [= <-] Hneg; lia|].
           split; [intros i' [= <-] Hge; lia|].
           split; [|intros i' [= <-] _ H; congruence].
           intros i' d' [= <-] _ H.
           assert (d' = d) as -> by congruence. split; reflexivity.
        -- split; [reflexivity|].
           split; [intros; discriminate|]. split; [intros; discriminate|].
           split; [intros i' [= <-] Hneg; lia|].
           split; [intros i' [= <-] Hge; lia|].
           split; [intros i' d' [= <-] _ H; congruence|].
           intros i' [= <-] _ _. split; reflexivity.
    + apply Z.leb_gt in E0. cbn [res final trace ret answer_of].
      split; [reflexivity|].
      split; [intros; discriminate|]. split; [intros; discriminate|].
      split; [intros i' [= <-] _; split; reflexivity|].
      split; [intros i' [= <-] Hge; lia|].
      split; [intros i' d [= <-] Hin; lia|intros i' [= <-] Hin; lia].
Qed.

Lemma vibrate_command_intensity speed position duration (w : VibrateWorld)
    (m : DeviceManager) (a : Actuator) (i : pynum) (q : option float) :
  In (Command a i q) (trace (vibrate speed position duration w m)) ->
  i = PyFloat (clamp01 speed).
Proof.
  destruct (vibrate_cases speed position duration w m)
    as [[e E]|[d [a0 [l [_ [_ E]]]]]]; rewrite E.
  - intros [].
  - destruct (vibrate_dispatch_trace speed position duration w m d a0)
      as [cmds [Hc [_ [Ht _]]]].
    rewrite Ht. intros Hin. apply in_app_or in Hin.
    destruct Hin as [Hin|Hin].
    + destruct (Hc _ Hin) as [p Hp]. congruence.
    + destruct (res (vibrate_dispatch speed position duration w m d a0));
        [destruct (0 <? duration)%float|]; cbn in Hin;
        try contradiction; destruct Hin as [Hin|[]]; discriminate Hin.
Qed.

Lemma vibrate_task_duration speed position duration (w : VibrateWorld)
    (m : DeviceManager) (a : Actuator) (d : float) :
  In (CreateTask a d) (trace (vibrate speed position duration w m)) ->
  (0 <? duration)%float = true /\ d = duration.
Proof.
  destruct (vibrate_cases speed position duration w m)
    as [[e E]|[d0 [a0 [l [_ [_ E]]]]]]; rewrite E.
  - intros [].
  - destruct (vibrate_dispatch_trace speed position duration w m d0 a0)
      as [cmds [Hc [_ [Ht _]]]].
    rewrite Ht. intros Hin. apply in_app_or in Hin.
    destruct Hin as [Hin|Hin].
    + destruct (Hc _ Hin) as [p Hp]. discriminate Hp.
    + destruct (res (vibrate_dispatch speed position duration w m d0 a0));
        [|destruct Hin].
      destruct (0 <? duration)%float; [|destruct Hin].
      destruct Hin as [Hin|[]]. injection Hin as _ <-. split; reflexivity.
Qed.

(** The view once its three arguments are converted. *)
Lemma vibrate_view_converted (speed_arg position_arg duration_arg :
    option conversion) (w : RequestWorld) (m : DeviceManager)
    (s : float) (p : option float) (d : float) :
  query_float speed_arg 0.5 = Ok s ->
  query_optional_float position_arg = Ok p ->
  query_float duration_arg 0 = Ok d ->
  let r := vibrate_view pydantic_error format_percent format_float
             speed_arg position_arg duration_arg w m in
  match parse_vibrate_request pydantic_error s p d with
  | inl msg => r = {| res := Ok (inl msg); final := m; trace := [] |}
  | inr _ =>
      trace r = trace (vibrate s p d (on_vibrate w) m) /\
      final r = final (vibrate s p d (on_vibrate w) m)
  end.
Proof.
  intros Hs Hp Hd r. subst r. unfold vibrate_view.
  rewrite Hs, bind_lift_ok, Hp, bind_lift_ok, Hd, bind_lift_ok.
  destruct (parse_vibrate_request pydantic_error s p d) as [msg|req] eqn:E;
    [reflexivity|].
  assert (req_speed req = s /\ req_position req = p /\ req_duration req = d)
    as [-> [-> ->]].
  { revert E. unfold parse_vibrate_request.
    repeat match goal with
           | |- context [if ?b then _ else _] => destruct b
           end; try discriminate.
    intros [= <-]. repeat split. }
  unfold bind.
  destruct (res (vibrate s p d (on_vibrate w) m));
    cbn [res final trace ret]; rewrite ?app_nil_r; split; reflexivity.
Qed.

(** X20: what [/vibrate] lets through, for every request.  An argument
    [float] cannot convert is answered 500 (internal_error), not 400,
    and nothing is sent.  With the three arguments converted, an absent
    speed being 0.5 and an absent duration 0.0, a speed outside
    [[0.0, 1.0]], a NaN included, is refused with 400 before the manager
    is asked, so that nothing is sent and nothing changes.  Hence every
    command a request sends carries the requested speed, up to the sign
    of a zero, which lies in [[0.0, 1.0]], with a position in
    [[0.0, 1.0]] and a duration of at least 0.0: the clamp of the
    manager never changes a value that arrives through this route.  A
    request without a speed sends 0.5, and a stop task is created only
    for a positive duration, the one requested: never for a request
    without a duration. *)
Theorem vibrate_view_answers (speed_arg position_arg duration_arg :
    option conversion) (w : RequestWorld) (m : DeviceManager) :
  let r := handle_errors
             (vibrate_view pydantic_error format_percent format_float
                speed_arg position_arg duration_arg w) m in
  (forall e,
     query_float speed_arg 0.5 = Raise e \/
     (exists s, query_float speed_arg 0.5 = Ok s /\
                query_optional_float position_arg = Raise e) \/
     (exists s p, query_float speed_arg 0.5 = Ok s /\
                  query_optional_float position_arg = Ok p /\
                  query_float duration_arg 0 = Raise e) ->
     r = {| res := Ok (error_response "internal_error" (str_exn e) 500, 500);
            final := m; trace := [] |}) /\
  (forall s p d,
     query_float speed_arg 0.5 = Ok s ->
     query_optional_float position_arg = Ok p ->
     query_float duration_arg 0 = Ok d ->
     (((0 <=? s) && (s <=? 1))%float = false ->
      r = {| res := Ok (error_response "validation_error"
                          (pydantic_error "speed") 400, 400);
             final := m; trace := [] |}) /\
     (forall a i q, In (Command a i q) (trace r) ->
        ((0 <=? s) = true /\ (s <=? 1) = true /\ (0 <=? d) = true)%float /\
        i = PyFloat (clamp01 s) /\ (clamp01 s =? s)%float = true /\
        (forall p0, p = Some p0 ->
           ((0 <=? p0) = true /\ (p0 <=? 1) = true)%float)) /\
     (forall a d', In (CreateTask a d') (trace r) ->
        (0 <? d)%float = true /\ d' = d)) /\
  (speed_arg = None ->
   forall a i q, In (Command a i q) (trace r) -> i = PyFloat 0.5) /\
  (duration_arg = None ->
   forall a d', ~ In (CreateTask a d') (trace r)).
Proof.
  intros r. subst r. rewrite handle_errors_run.
  assert (forall o dflt e, query_float o dflt = Raise e ->
            exists msg, e = OtherError msg) as Hq.
  { intros [[f|msg|msg]|] dflt e H; try discriminate H;
      injection H as <-; eexists; reflexivity. }
  assert (forall o e, query_optional_float o = Raise e ->
            exists msg, e = OtherError msg) as Hqo.
  { intros [[f|msg|msg]|] e H; try discriminate H;
      injection H as <-; eexists; reflexivity. }
  assert (forall s p d,
            query_float speed_arg 0.5 = Ok s ->
            query_optional_float position_arg = Ok p ->
            query_float duration_arg 0 = Ok d ->
            (((0 <=? s) && (s <=? 1))%float = false ->
             vibrate_view pydantic_error format_percent format_float
               speed_arg position_arg duration_arg w m =
               {| res := Ok (inl (pydantic_error "speed"));
                  final := m; trace := [] |}) /\
            (forall ev,
               In ev (trace (vibrate_view pydantic_error format_percent
                               format_float speed_arg position_arg
                               duration_arg w m)) ->
               ((0 <=? s) = true /\ (s <=? 1) = true /\
                (0 <=? d) = true)%float /\
               (forall p0, p = Some p0 ->
                  ((0 <=? p0) = true /\ (p0 <=? 1) = true)%float) /\
               In ev (trace (vibrate s p d (on_vibrate w) m)))) as Hconv.
  { intros s p d Hs Hp Hd.
    pose proof (vibrate_view_converted speed_arg position_arg duration_arg
                  w m s p d Hs Hp Hd) as H. cbv zeta in H.
    unfold parse_vibrate_request in H.
    destruct ((0 <=? s) && (s <=? 1))%float eqn:Es; cbn [negb] in H.
    - split; [intros H0; discriminate H0|].
      apply andb_prop in Es. destruct Es as [Es0 Es1].
      destruct (match p with
                | Some p0 => negb ((0 <=? p0) && (p0 <=? 1))%float
                | None => false
                end) eqn:Ep; [rewrite H; intros ev []|].
      destruct (0 <=? d)%float eqn:Ed; cbn [negb] in H;
        [|rewrite H; intros ev []].
      destruct H as [Ht _]. rewrite Ht. intros ev Hin.
      split; [auto|]. split; [|exact Hin].
      intros p0 ->. apply Bool.negb_false_iff in Ep.
      apply andb_prop in Ep. exact Ep.
    - split; [intros _; exact H|]. rewrite H. intros ev []. }
  split; [|split; [|split]].
  - intros e H. unfold vibrate_view.
    destruct H as [Hs|[[s [Hs Hp]]|[s [p [Hs [Hp Hd]]]]]].
    + destruct (Hq _ _ _ Hs) as [msg ->].
      rewrite Hs, bind_lift_raise. reflexivity.
    + destruct (Hqo _ _ Hp) as [msg ->].
      rewrite Hs, bind_lift_ok, Hp, bind_lift_raise. reflexivity.
    + destruct (Hq _ _ _ Hd) as [msg ->].
      rewrite Hs, bind_lift_ok, Hp, bind_lift_ok, Hd, bind_lift_raise.
      reflexivity.
  - intros s p d Hs Hp Hd. destruct (Hconv s p d Hs Hp Hd) as [Hbad Hin].
    split; [intros Hout; rewrite (Hbad Hout); reflexivity|].
    cbn [trace]. split.
    + intros a i q Hc. destruct (Hin _ Hc) as [[H0 [H1 H2]] [Hp0 Hv]].
      apply vibrate_command_intensity in Hv.
      split; [auto|]. split; [exact Hv|]. split; [|exact Hp0].
      destruct (clamp01_clamped s) as [_ [_ [_ H]]]. apply H; assumption.
    + intros a d' Hc. destruct (Hin _ Hc) as [_ [_ Hv]].
      exact (vibrate_task_duration _ _ _ _ _ _ _ Hv).
  - intros -> a i q Hc. cbn [trace] in Hc.
    destruct (query_optional_float position_arg) as [p|e] eqn:Hp.
    + destruct (query_float duration_arg 0) as [d|e] eqn:Hd.
      * destruct (Hconv 0.5%float p d eq_refl eq_refl eq_refl) as [_ Hin].
        destruct (Hin _ Hc) as [_ [_ Hv]].
        apply vibrate_command_intensity in Hv. rewrite Hv.
        vm_compute. reflexivity.
      * exfalso. revert Hc. unfold vibrate_view. cbn [query_float].
        rewrite bind_lift_ok, Hp, bind_lift_ok, Hd, bind_lift_raise.
        intros [].
    + exfalso. revert Hc. unfold vibrate_view. cbn [query_float].
      rewrite bind_lift_ok, Hp, bind_lift_raise. intros [].
  - intros -> a d' Hc. cbn [trace] in Hc.
    destruct (query_float speed_arg 0.5) as [s|e] eqn:Hs.
    + destruct (query_optional_float position_arg) as [p|e] eqn:Hp.
      * destruct (Hconv s p 0%float eq_refl eq_refl eq_refl) as [_ Hin].
        destruct (Hin _ Hc) as [_ [_ Hv]].
        destruct (vibrate_task_duration _ _ _ _ _ _ _ Hv) as [H _].
        vm_compute in H. discriminate H.
      * revert Hc. unfold vibrate_view.
        rewrite Hs, bind_lift_ok, Hp, bind_lift_raise. intros [].
    + revert Hc. unfold vibrate_view. rewrite Hs, bind_lift_raise.
      intros [].
Qed.

(** X21: a server whose connection at startup is refused still starts,
    and backs off: [startup] swallows the failure, and a request that
    arrives before the retry delay of 5 seconds is over reaches the
    client library with no call at all, neither a connect nor a scan nor
    a command.  The scan and the device listing answer 502
    (intiface_connection_error), the stop answers 404
    (device_not_found). *)
Theorem failed_startup_backs_off (s : Settings) (now now' : float)
    (wi : InitWorld) (w : RequestWorld) (e : exn) (r : request) :
  connect_result wi = Raises e ->
  (0 <? now)%float = true ->
  (now' - now <? 5)%float = true ->
  let boot := startup now wi (__init__ s) in
  let run := served r now' w (final boot) in
  res boot = Ok tt /\
  trace boot = [NewClient "ButtplugST"; Connect (url (websocket s))] /\
  trace run = [] /\
  (r = GetScan \/ r = GetDevices ->
   res run = Ok (error_response "intiface_connection_error"
                   "Not connected to Intiface" 502, 502)) /\
  (r = GetStop ->
   res run = Ok (error_response "device_not_found"
                   "No device found or connected" 404, 404)).
Proof.
  intros Hc Hpos Hsoon.
  set (m1 := {| settings := s; _client := Some fresh_client; _devices := [];
                _active_device_index := 0; _initialized := false;
                _last_connection_attempt := now;
                _connection_retry_delay := 5 |}).
  assert (startup now wi (__init__ s) =
            {| res := Ok tt; final := m1;
               trace := [NewClient "ButtplugST";
                         Connect (url (websocket s))] |}) as Hboot.
  { destruct wi as [cr sw]. cbn [connect_result] in Hc. subst cr.
    unfold startup, try_except, initialize. rewrite bind_get.
    change (_initialized (__init__ s) && is_connected (__init__ s))%bool
      with false.
    change (too_recent now (__init__ s)) with false.
    cbv iota. destruct e; reflexivity. }
  cbv zeta. rewrite Hboot. cbn [res final trace].
  split; [reflexivity|]. split; [reflexivity|].
  assert (forall path, ensure_initialized path now' w m1 =
            {| res := Ok tt; final := m1; trace := [] |}) as Ee.
  { intros path. unfold ensure_initialized, bind at 1.
    assert (try_except
              (m0 <- get;;
               (if negb (_initialized m0)
                then initialize now' (on_initialize w) else ret tt))
              (fun _ => ret tt) m1 =
            {| res := Ok tt; final := m1; trace := [] |}) as E.
    { unfold try_except. rewrite bind_get. cbn [_initialized m1 negb].
      rewrite initialize_rate_limited; [reflexivity|reflexivity|].
      unfold too_recent. cbn [_last_connection_attempt
                              _connection_retry_delay m1].
      rewrite Hpos, Hsoon. reflexivity. }
    rewrite E. cbn [res final trace app].
    destruct (String.eqb path "/status"); [reflexivity|].
    rewrite bind_get. reflexivity. }
  unfold serve, bind. rewrite Ee. cbn [res final trace app].
  rewrite handle_errors_run. cbn [res final trace].
  destruct r as [| |data|sa pa da| |]; cbn [view_of].
  - split; [reflexivity|]. split; [intros [H|H]; discriminate H|].
    intros H; discriminate H.
  - split; [reflexivity|]. split; [intros _; reflexivity|].
    intros H; discriminate H.
  - split; [|split; [intros [H|H]; discriminate H|intros H; discriminate H]].
    unfold select_device.
    destruct data as [msg|msg|i]; cbn [get_json];
      rewrite ?bind_lift_ok, ?bind_lift_raise; try reflexivity.
    destruct (parse_device_selection pydantic_error (inr i)) as [msg|i'];
      [reflexivity|].
    unfold bind. rewrite set_active_device_out_of_range; [reflexivity|].
    cbn [_devices m1 List.length]. lia.
  - split; [|split; [intros [H|H]; discriminate H|intros H; discriminate H]].
    unfold vibrate_view, bind, lift, query_float, query_optional_float.
    destruct sa as [[f|msg|msg]|]; cbn [float_of_arg res final trace ret raise app];
      try reflexivity;
      (destruct pa as [[f'|msg'|msg']|];
       cbn [float_of_arg res final trace ret raise app]; try reflexivity;
       (destruct da as [[f''|msg''|msg'']|];
        cbn [float_of_arg res final trace ret raise app]; try reflexivity;
        match goal with
        | |- context [parse_vibrate_request ?e ?a ?b ?c] =>
            destruct (parse_vibrate_request e a b c) as [msg0|req]
        end; cbn [res final trace ret app]; try reflexivity;
        rewrite vibrate_no_device by (left; reflexivity); reflexivity)).
  - split; [reflexivity|]. split; [intros [H|H]; discriminate H|].
    intros _. reflexivity.
  - split; [reflexivity|]. split; [intros _; reflexivity|].
    intros H; discriminate H.
Qed.

Lemma step_keeps_index_valid :
  (forall now w, preserves index_valid (initialize now w)) /\
  (forall w, preserves index_valid (scan_devices w)) /\
  preserves index_valid get_all_devices /\
  preserves index_valid get_active_device /\
  (forall i, preserves index_valid (set_active_device i)) /\
  (forall speed position duration w,
     preserves index_valid (vibrate speed position duration w)) /\
  (forall w, preserves index_valid (stop w)).
Proof.
  split; [intros now w m H;
          exact (step_index_valid _ _ (step_initialize now w m) H)|].
  split; [intros w m H;
          exact (step_index_valid _ _ (step_scan_devices w m) H)|].
  split; [intros m H;
          exact (step_index_valid _ _ (step_get_all_devices m) H)|].
  split; [intros m H;
          exact (step_index_valid _ _ (step_get_active_device m) H)|].
  split; [intros i m H;
          exact (step_index_valid _ _ (step_set_active_device i m) H)|].
  split; [intros speed position duration w m H;
          exact (step_index_valid _ _
                   (step_vibrate speed position duration w m) H)|].
  intros w m H. exact (step_index_valid _ _ (step_stop w m) H).
Qed.

Lemma serve_index_valid (r : request) (now : float) (w : RequestWorld) :
  preserves index_valid (served r now w).
Proof.
  destruct step_keeps_index_valid
    as [Hi [Hs [Hall [Hact [Hset [Hvib Hstop]]]]]].
  unfold serve, ensure_initialized, handle_errors.
  destruct r; cbn [view_of path_of];
    unfold status, list_devices, select_device, vibrate_view, stop_view,
      scan_view;
    repeat first
      [ apply Hi | apply Hs | apply Hall | apply Hact | apply Hset
      | apply Hvib | apply Hstop
      | apply preserves_ret | apply preserves_get | apply preserves_lift
      | apply preserves_raise
      | apply preserves_bind; [|intros ?]
      | apply preserves_try_except; [|intros ?]
      | match goal with
        | |- preserves _ (if ?b then _ else _) => destruct b
        | |- preserves _ (match ?x with _ => _ end) => destruct x
        end ].
Qed.

(** X22: every request keeps the index invariant of the manager (with
    a non-empty container the active index is below the number of
    devices).  On a manager that satisfies it, [/status] answers 200,
    its status field saying ok exactly when the client is connected once
    the request has been served, unless the container is non-empty and
    holds no device under the active index: then the lookup fails and
    the answer is 500 (internal_error) with the index as detail. *)
Theorem requests_keep_index_valid (r : request) (now : float)
    (w : RequestWorld) (m : DeviceManager) :
  index_valid m ->
  let run := served r now w m in
  index_valid (final run) /\
  (r = GetStatus ->
   (_devices (final run) = [] \/
    device_at (_devices (final run)) (_active_device_index (final run))
    <> None ->
    exists rest,
      res run =
        Ok (api_response "Server status"
              (JDict (("status",
                       JStr (if is_connected (final run) then "ok"
                             else "error")) :: rest)),
            200)) /\
   (_devices (final run) <> [] ->
    device_at (_devices (final run)) (_active_device_index (final run))
    = None ->
    res run =
      Ok (error_response "internal_error"
            (str_int (_active_device_index (final run))) 500, 500))).
Proof.
  intros Hv run. subst run. split; [apply serve_index_valid; exact Hv|].
  intros ->.
  assert (index_valid (final (ensure_initialized "/status" now w m))) as Hv'.
  { destruct step_keeps_index_valid as [Hi _].
    unfold ensure_initialized.
    revert m Hv.
    change (preserves index_valid
              (try_except
                 (m0 <- get;;
                  (if negb (_initialized m0)
                   then initialize now (on_initialize w) else ret tt))
                 (fun _ => ret tt);;
               (if String.eqb "/status" "/status" then ret tt
                else
                  m0 <- get;;
                  (if negb (has_devices m0)
                   then try_except (scan_devices (on_ensure_scan w);; ret tt)
                          (fun _ => ret tt)
                   else ret tt)))).
    apply preserves_bind; [|intros ?; apply preserves_ret].
    apply preserves_try_except; [|intros ?; apply preserves_ret].
    apply preserves_bind; [apply preserves_get|]. intros m0.
    destruct (negb (_initialized m0)); [apply Hi|apply preserves_ret]. }
  unfold serve, bind. cbn [path_of].
  rewrite ensure_initialized_ok. cbn [res final trace].
  rewrite handle_errors_run. cbn [res final trace view_of].
  set (m1 := final (ensure_initialized "/status" now w m)) in *.
  unfold status. rewrite bind_get.
  unfold bind. rewrite get_active_device_run. cbn [res final trace].
  destruct (_devices m1) as [|d0 l] eqn:Ed.
  - cbn [res final trace ret answer_of]. rewrite Ed.
    split; [intros _; eexists; reflexivity|]. intros H. congruence.
  - rewrite get_device_info_run. cbn [res]. rewrite Ed.
    assert (0 <= _active_device_index m1
            < Z.of_nat (List.length (d0 :: l))) as Hi.
    { rewrite <- Ed. apply Hv'. rewrite Ed. discriminate. }
    apply out_of_range_test in Hi. rewrite Hi.
    destruct (device_at (d0 :: l) (_active_device_index m1)) as [d|] eqn:Ea;
      cbn [res final trace ret answer_of str_exn]; rewrite Ed, Ea.
    + split; [intros _; eexists; reflexivity|]. intros _ H. discriminate H.
    + split; [|intros _ _; reflexivity].
      intros [H|H]; [discriminate H|congruence].
Qed.

End RouteProperties.

Lemma initialized_never_reconnects_witness :
  _initialized dropped = true /\
  is_connected dropped = false /\
  res (serve field_error no_digits no_digits GetScan 500
         (cooperative [device_a]) dropped) =
    Ok (error_response "intiface_connection_error"
          "Not connected to Intiface" 502, 502).
Proof.
  assert (_initialized dropped = true) as Hi by (vm_compute; reflexivity).
  assert (is_connected dropped = false) as Hc by (vm_compute; reflexivity).
  split; [exact Hi|]. split; [exact Hc|].
  destruct (initialized_never_reconnects field_error no_digits no_digits
              GetScan 500 (cooperative [device_a]) dropped Hi)
    as [_ H].
  destruct (H Hc (or_introl eq_refl)) as [d [_ E]].
  rewrite E. cbn [res].
  revert E. vm_compute.
  intros [= <-]. reflexivity.
Defined.

Lemma list_devices_answer_witness :
  _active_device_index second_selected = 1 /\
  _active_device_index
    (final (serve field_error no_digits no_digits GetDevices 200
              (cooperative [device_b; device_a]) second_selected)) = 0.
Proof.
  split; [vm_compute; reflexivity|].
  assert (exists body,
            res (serve field_error no_digits no_digits GetDevices 200
                   (cooperative [device_b; device_a]) second_selected) =
              Ok (body, 200)) as [body Hb]
    by (vm_compute; eexists; reflexivity).
  destruct (list_devices_answer field_error no_digits no_digits 200
              (cooperative [device_b; device_a]) second_selected body Hb)
    as [_ [H _]].
  apply H. discriminate.
Defined.

Lemma failed_startup_backs_off_witness :
  connect_result server_down = Raises (ConnectorError "connection refused") /\
  (0 <? 100)%float = true /\
  (102 - 100 <? 5)%float = true /\
  trace (serve field_error no_digits no_digits GetScan 102
           (cooperative [device_a])
           (final (startup 100 server_down (__init__ default_settings)))) =
    [].
Proof.
  split; [reflexivity|]. split; [reflexivity|]. split; [reflexivity|].
  exact (proj1 (proj2 (proj2
    (failed_startup_backs_off field_error no_digits no_digits
       default_settings 100 102 server_down (cooperative [device_a])
       (ConnectorError "connection refused") GetScan
       eq_refl eq_refl eq_refl)))).
Defined.

Lemma requests_keep_index_valid_witness :
  index_valid dropped /\
  index_valid
    (final (serve field_error no_digits no_digits (PostDevice (Index 0)) 500
              (cooperative [device_a]) dropped)).
Proof.
  assert (index_valid dropped) as H
    by (intros _; vm_compute; split; [discriminate|reflexivity]).
  split; [exact H|].
  exact (proj1 (requests_keep_index_valid field_error no_digits no_digits
                  (PostDevice (Index 0)) 500 (cooperative [device_a])
                  dropped H)).
Defined.

(* ================================================================== *)
(** ** The clamp of the standalone scripts *)

Lemma ltb_asym (x y : float) :
  (x <? y)%float = true -> (y <? x)%float = false.
Proof.
  rewrite !ltb_spec. unfold SFltb.
  rewrite (SFcompare_antisym (Prim2SF y) (Prim2SF x)).
  destruct (SFcompare (Prim2SF y) (Prim2SF x)) as [[| |]|];
    cbn [option_map CompOpp]; intros H; try discriminate H; reflexivity.
Qed.

(** X23: the clamp of the standalone scripts, [max(0.0, min(speed, 1.0))],
    and the clamp of the manager, [max(0.0, min(1.0, speed))], give the
    same float for every speed that is not a NaN, and differ on a NaN: the
    scripts send 0.0, the manager 1.0.  The scripts' value is always in
    [[0.0, 1.0]]. *)
Theorem script_clamp_spec (x : float) :
  ((x =? x)%float = true -> script_clamp x = clamp01 x) /\
  ((x =? x)%float = false ->
   script_clamp x = 0%float /\ clamp01 x = 1%float) /\
  ((0 <=? script_clamp x)%float = true /\
   (script_clamp x <=? 1)%float = true).
Proof.
  assert ((x =? x)%float = true -> script_clamp x = clamp01 x) as Heq.
  { intros Hx. unfold script_clamp, clamp01, py_min.
    destruct (x <? 1)%float eqn:E1.
    - rewrite (ltb_asym _ _ E1). reflexivity.
    - destruct (1 <? x)%float eqn:E2; [reflexivity|].
      assert (x = 1%float) as ->; [|reflexivity].
      apply eqb_one. apply eqb_sym. apply leb_not_ltb_eqb; [|exact E2].
      apply not_ltb_leb; [exact Hx|reflexivity|exact E1]. }
  assert ((x =? x)%float = false ->
          script_clamp x = 0%float /\ clamp01 x = 1%float) as Hnan.
  { intros Hx. unfold script_clamp, clamp01, py_min, py_max.
    destruct (nan_ltb x 1 Hx) as [-> ->].
    destruct (nan_ltb x 0 Hx) as [_ ->].
    split; reflexivity. }
  split; [exact Heq|]. split; [exact Hnan|].
  destruct (x =? x)%float eqn:Hx.
  - rewrite (Heq eq_refl).
    destruct (clamp01_clamped x) as [H _]. exact H.
  - destruct (Hnan eq_refl) as [-> _]. split; reflexivity.
Qed.

